(** * The record layer of fatamorgana (records.py), embedded in Rocq

    The Python module [fatamorgana/records.py] holds the modal-variable bank
    ([Modals]), one class per OASIS record with its [merge_with_modals],
    [deduplicate_with_modals], [read] and [write] methods, and the helper
    functions [adjust_*] / [dedup_*] through which every record talks to the
    bank.  Each class becomes a module holding a record type [t]; in-place
    mutation of a record and of the bank becomes explicit state passing
    ([R * Modals.t] is returned); a raised exception becomes [Error]. *)

From stdpp Require Import base numbers strings list pretty.
From Stdlib Require Import ZArith QArith Qcanon Qround Lia.

Local Open Scope Z_scope.

(** ** Exceptions and results *)

(** [InvalidDataError] is the one exception class records.py raises on
    purpose; [TypeError], [AttributeError] and [EOFError] are the built-in
    exceptions of the interpreter that the code can run into. *)
Inductive exn : Type :=
  | InvalidDataError (msg : string)
  | TypeError
  | AttributeError
  | EOFError.

Inductive result (A : Type) : Type :=
  | Ok (a : A)
  | Error (e : exn).
Arguments Ok {A} a.
Arguments Error {A} e.

Definition bind {A B : Type} (c : result A) (k : A -> result B) : result B :=
  match c with
  | Ok a => k a
  | Error e => Error e
  end.

Declare Scope py_scope.
Delimit Scope py_scope with py.
Notation "'let*' x ':=' c 'in' k" := (bind c (fun x => k))
  (at level 10, x pattern, c at level 100, k at level 200, only parsing)
  : py_scope.
Local Open Scope py_scope.

(** [o is not None] *)
Definition is_not_None {A : Type} (o : option A) : bool :=
  match o with Some _ => true | None => false end.

#[global] Instance exn_eq_dec : EqDecision exn.
Proof. solve_decision. Defined.

(** ** Values of basic.py that records carry *)

Definition byte : Type := Z.

(** Modelled from the spec: the classes [NString] and [AString] of basic.py
    are missing; the spec describes them as length-prefixed strings, and
    records only store and compare them. *)
Definition NString : Type := string.
Definition AString : Type := string.

(** A cell or property name: [int] (a reference number) or [NString]. *)
Inductive refname_t : Type :=
  | RefNumber (n : Z)
  | RefNString (s : NString).

(** A text string: [int] (a reference number) or [AString]. *)
Inductive refstring_t : Type :=
  | StrNumber (n : Z)
  | StrAString (s : AString).

(** Modelled from the spec: [real_t] of basic.py is missing; an [int] or a
    finite [float] is represented by the rational number it denotes, in
    canonical form, so that Python's [==] is Leibniz equality. *)
Definition real_t : Type := Qc.

(** Modelled from the spec: the repetition classes of basic.py are missing;
    the spec describes a small sum type with a distinguished [Reuse]
    variant, a grid and explicit displacements. *)
Inductive repetition_t : Type :=
  | ReuseRepetition
  | GridRepetition (a_vector : Z * Z) (a_count : Z)
                   (b_vector : option (Z * Z)) (b_count : option Z)
  | ArbitraryRepetition (x_displacements y_displacements : list Z).

(** [isinstance(rep, ReuseRepetition)] *)
Definition is_ReuseRepetition (rep : repetition_t) : bool :=
  match rep with ReuseRepetition => true | _ => false end.

Definition point_list_t : Type := list (Z * Z).

Inductive PathExtensionScheme : Type := Flush | HalfWidth | Arbitrary.

(** [PathExtensionScheme.value] *)
Definition PathExtensionScheme_value (s : PathExtensionScheme) : Z :=
  match s with Flush => 1 | HalfWidth => 2 | Arbitrary => 3 end.

Definition pathextension_t : Type := (PathExtensionScheme * option Z)%type.

(** Modelled from the spec: [property_value_t] of basic.py is missing; the
    spec describes a tagged sum over reals, strings and reference numbers. *)
Inductive property_value_t : Type :=
  | PropReal (v : real_t)
  | PropString (s : string)
  | PropRefNumber (n : Z).

#[global] Instance refname_eq_dec : EqDecision refname_t.
Proof. solve_decision. Defined.
#[global] Instance refstring_eq_dec : EqDecision refstring_t.
Proof. solve_decision. Defined.
#[global] Instance repetition_eq_dec : EqDecision repetition_t.
Proof. solve_decision. Defined.
#[global] Instance PathExtensionScheme_eq_dec : EqDecision PathExtensionScheme.
Proof. solve_decision. Defined.
#[global] Instance property_value_eq_dec : EqDecision property_value_t.
Proof. solve_decision. Defined.

(** ** Attributes accessed by name

    [adjust_field] and [dedup_field] receive attribute names and go through
    [getattr] / [setattr].  An attribute is a named getter and setter;
    [getattr] raises [AttributeError] when the object has no such
    attribute, and reading an attribute that was just set gives the value
    set. *)
Record attr (O A : Type) : Type := {
  attr_name : string;
  getattr : O -> result A;
  setattr : O -> A -> O;
  getattr_setattr : forall o v, getattr (setattr o v) = Ok v
}.
Arguments attr_name {O A} _.
Arguments getattr {O A} _ _.
Arguments setattr {O A} _ _ _.
Arguments getattr_setattr {O A} _ _ _.

(** The functions that assign one attribute of an object. *)
Create HintDb setters.

(** ** Modal variables (class [Modals]) *)

Module Modals.
(** The fields the class declares, in its order.  The last field is not
    declared by the class: [Path.merge_with_modals] and
    [Path.deduplicate_with_modals] name an attribute ['path_half_width']
    (the class spells it [path_halfwidth]); it exists on a bank only once
    [setattr] has created it, so it is [None] until then and [Some v] after. *)
Record t : Type := mk {
  repetition : option repetition_t;
  placement_x : Z;
  placement_y : Z;
  placement_cell : option refname_t;
  layer : option Z;
  datatype : option Z;
  text_layer : option Z;
  text_datatype : option Z;
  text_x : Z;
  text_y : Z;
  text_string : option refstring_t;
  geometry_x : Z;
  geometry_y : Z;
  xy_relative : bool;
  geometry_w : option Z;
  geometry_h : option Z;
  polygon_point_list : option point_list_t;
  path_halfwidth : option Z;
  path_point_list : option point_list_t;
  path_extension_start : option pathextension_t;
  path_extension_end : option pathextension_t;
  ctrapezoid_type : option Z;
  circle_radius : option Z;
  property_value_list : option (list property_value_t);
  property_name : option refname_t;
  property_is_standard : option bool;
  path_half_width : option (option Z)
}.

Definition set_repetition (self : t) (v : option repetition_t) : t :=
  mk v (placement_x self) (placement_y self) (placement_cell self) (layer self) (datatype
     self) (text_layer self) (text_datatype self) (text_x self) (text_y self) (text_string
     self) (geometry_x self) (geometry_y self) (xy_relative self) (geometry_w self)
     (geometry_h self) (polygon_point_list self) (path_halfwidth self) (path_point_list self)
     (path_extension_start self) (path_extension_end self) (ctrapezoid_type self)
     (circle_radius self) (property_value_list self) (property_name self)
     (property_is_standard self) (path_half_width self).
Definition set_placement_x (self : t) (v : Z) : t :=
  mk (repetition self) v (placement_y self) (placement_cell self) (layer self) (datatype
     self) (text_layer self) (text_datatype self) (text_x self) (text_y self) (text_string
     self) (geometry_x self) (geometry_y self) (xy_relative self) (geometry_w self)
     (geometry_h self) (polygon_point_list self) (path_halfwidth self) (path_point_list self)
     (path_extension_start self) (path_extension_end self) (ctrapezoid_type self)
     (circle_radius self) (property_value_list self) (property_name self)
     (property_is_standard self) (path_half_width self).
Definition set_placement_y (self : t) (v : Z) : t :=
  mk (repetition self) (placement_x self) v (placement_cell self) (layer self) (datatype
     self) (text_layer self) (text_datatype self) (text_x self) (text_y self) (text_string
     self) (geometry_x self) (geometry_y self) (xy_relative self) (geometry_w self)
     (geometry_h self) (polygon_point_list self) (path_halfwidth self) (path_point_list self)
     (path_extension_start self) (path_extension_end self) (ctrapezoid_type self)
     (circle_radius self) (property_value_list self) (property_name self)
     (property_is_standard self) (path_half_width self).
Definition set_placement_cell (self : t) (v : option refname_t) : t :=
  mk (repetition self) (placement_x self) (placement_y self) v (layer self) (datatype
     self) (text_layer self) (text_datatype self) (text_x self) (text_y self) (text_string
     self) (geometry_x self) (geometry_y self) (xy_relative self) (geometry_w self)
     (geometry_h self) (polygon_point_list self) (path_halfwidth self) (path_point_list self)
     (path_extension_start self) (path_extension_end self) (ctrapezoid_type self)
     (circle_radius self) (property_value_list self) (property_name self)
     (property_is_standard self) (path_half_width self).
Definition set_layer (self : t) (v : option Z) : t :=
  mk (repetition self) (placement_x self) (placement_y self) (placement_cell self) v
     (datatype self) (text_layer self) (text_datatype self) (text_x self) (text_y self)
     (text_string self) (geometry_x self) (geometry_y self) (xy_relative self) (geometry_w
     self) (geometry_h self) (polygon_point_list self) (path_halfwidth self) (path_point_list
     self) (path_extension_start self) (path_extension_end self) (ctrapezoid_type self)
     (circle_radius self) (property_value_list self) (property_name self)
     (property_is_standard self) (path_half_width self).
Definition set_datatype (self : t) (v : option Z) : t :=
  mk (repetition self) (placement_x self) (placement_y self) (placement_cell self) (layer
     self) v (text_layer self) (text_datatype self) (text_x self) (text_y self) (text_string
     self) (geometry_x self) (geometry_y self) (xy_relative self) (geometry_w self)
     (geometry_h self) (polygon_point_list self) (path_halfwidth self) (path_point_list self)
     (path_extension_start self) (path_extension_end self) (ctrapezoid_type self)
     (circle_radius self) (property_value_list self) (property_name self)
     (property_is_standard self) (path_half_width self).
Definition set_text_layer (self : t) (v : option Z) : t :=
  mk (repetition self) (placement_x self) (placement_y self) (placement_cell self) (layer
     self) (datatype self) v (text_datatype self) (text_x self) (text_y self) (text_string
     self) (geometry_x self) (geometry_y self) (xy_relative self) (geometry_w self)
     (geometry_h self) (polygon_point_list self) (path_halfwidth self) (path_point_list self)
     (path_extension_start self) (path_extension_end self) (ctrapezoid_type self)
     (circle_radius self) (property_value_list self) (property_name self)
     (property_is_standard self) (path_half_width self).
Definition set_text_datatype (self : t) (v : option Z) : t :=
  mk (repetition self) (placement_x self) (placement_y self) (placement_cell self) (layer
     self) (datatype self) (text_layer self) v (text_x self) (text_y self) (text_string self)
     (geometry_x self) (geometry_y self) (xy_relative self) (geometry_w self) (geometry_h
     self) (polygon_point_list self) (path_halfwidth self) (path_point_list self)
     (path_extension_start self) (path_extension_end self) (ctrapezoid_type self)
     (circle_radius self) (property_value_list self) (property_name self)
     (property_is_standard self) (path_half_width self).
Definition set_text_x (self : t) (v : Z) : t :=
  mk (repetition self) (placement_x self) (placement_y self) (placement_cell self) (layer
     self) (datatype self) (text_layer self) (text_datatype self) v (text_y self)
     (text_string self) (geometry_x self) (geometry_y self) (xy_relative self) (geometry_w
     self) (geometry_h self) (polygon_point_list self) (path_halfwidth self) (path_point_list
     self) (path_extension_start self) (path_extension_end self) (ctrapezoid_type self)
     (circle_radius self) (property_value_list self) (property_name self)
     (property_is_standard self) (path_half_width self).
Definition set_text_y (self : t) (v : Z) : t :=
  mk (repetition self) (placement_x self) (placement_y self) (placement_cell self) (layer
     self) (datatype self) (text_layer self) (text_datatype self) (text_x self) v
     (text_string self) (geometry_x self) (geometry_y self) (xy_relative self) (geometry_w
     self) (geometry_h self) (polygon_point_list self) (path_halfwidth self) (path_point_list
     self) (path_extension_start self) (path_extension_end self) (ctrapezoid_type self)
     (circle_radius self) (property_value_list self) (property_name self)
     (property_is_standard self) (path_half_width self).
Definition set_text_string (self : t) (v : option refstring_t) : t :=
  mk (repetition self) (placement_x self) (placement_y self) (placement_cell self) (layer
     self) (datatype self) (text_layer self) (text_datatype self) (text_x self) (text_y self)
     v (geometry_x self) (geometry_y self) (xy_relative self) (geometry_w self) (geometry_h
     self) (polygon_point_list self) (path_halfwidth self) (path_point_list self)
     (path_extension_start self) (path_extension_end self) (ctrapezoid_type self)
     (circle_radius self) (property_value_list self) (property_name self)
     (property_is_standard self) (path_half_width self).
Definition set_geometry_x (self : t) (v : Z) : t :=
  mk (repetition self) (placement_x self) (placement_y self) (placement_cell self) (layer
     self) (datatype self) (text_layer self) (text_datatype self) (text_x self) (text_y self)
     (text_string self) v (geometry_y self) (xy_relative self) (geometry_w self) (geometry_h
     self) (polygon_point_list self) (path_halfwidth self) (path_point_list self)
     (path_extension_start self) (path_extension_end self) (ctrapezoid_type self)
     (circle_radius self) (property_value_list self) (property_name self)
     (property_is_standard self) (path_half_width self).
Definition set_geometry_y (self : t) (v : Z) : t :=
  mk (repetition self) (placement_x self) (placement_y self) (placement_cell self) (layer
     self) (datatype self) (text_layer self) (text_datatype self) (text_x self) (text_y self)
     (text_string self) (geometry_x self) v (xy_relative self) (geometry_w self) (geometry_h
     self) (polygon_point_list self) (path_halfwidth self) (path_point_list self)
     (path_extension_start self) (path_extension_end self) (ctrapezoid_type self)
     (circle_radius self) (property_value_list self) (property_name self)
     (property_is_standard self) (path_half_width self).
Definition set_xy_relative (self : t) (v : bool) : t :=
  mk (repetition self) (placement_x self) (placement_y self) (placement_cell self) (layer
     self) (datatype self) (text_layer self) (text_datatype self) (text_x self) (text_y self)
     (text_string self) (geometry_x self) (geometry_y self) v (geometry_w self) (geometry_h
     self) (polygon_point_list self) (path_halfwidth self) (path_point_list self)
     (path_extension_start self) (path_extension_end self) (ctrapezoid_type self)
     (circle_radius self) (property_value_list self) (property_name self)
     (property_is_standard self) (path_half_width self).
Definition set_geometry_w (self : t) (v : option Z) : t :=
  mk (repetition self) (placement_x self) (placement_y self) (placement_cell self) (layer
     self) (datatype self) (text_layer self) (text_datatype self) (text_x self) (text_y self)
     (text_string self) (geometry_x self) (geometry_y self) (xy_relative self) v (geometry_h
     self) (polygon_point_list self) (path_halfwidth self) (path_point_list self)
     (path_extension_start self) (path_extension_end self) (ctrapezoid_type self)
     (circle_radius self) (property_value_list self) (property_name self)
     (property_is_standard self) (path_half_width self).
Definition set_geometry_h (self : t) (v : option Z) : t :=
  mk (repetition self) (placement_x self) (placement_y self) (placement_cell self) (layer
     self) (datatype self) (text_layer self) (text_datatype self) (text_x self) (text_y self)
     (text_string self) (geometry_x self) (geometry_y self) (xy_relative self) (geometry_w
     self) v (polygon_point_list self) (path_halfwidth self) (path_point_list self)
     (path_extension_start self) (path_extension_end self) (ctrapezoid_type self)
     (circle_radius self) (property_value_list self) (property_name self)
     (property_is_standard self) (path_half_width self).
Definition set_polygon_point_list (self : t) (v : option point_list_t) : t :=
  mk (repetition self) (placement_x self) (placement_y self) (placement_cell self) (layer
     self) (datatype self) (text_layer self) (text_datatype self) (text_x self) (text_y self)
     (text_string self) (geometry_x self) (geometry_y self) (xy_relative self) (geometry_w
     self) (geometry_h self) v (path_halfwidth self) (path_point_list self)
     (path_extension_start self) (path_extension_end self) (ctrapezoid_type self)
     (circle_radius self) (property_value_list self) (property_name self)
     (property_is_standard self) (path_half_width self).
Definition set_path_halfwidth (self : t) (v : option Z) : t :=
  mk (repetition self) (placement_x self) (placement_y self) (placement_cell self) (layer
     self) (datatype self) (text_layer self) (text_datatype self) (text_x self) (text_y self)
     (text_string self) (geometry_x self) (geometry_y self) (xy_relative self) (geometry_w
     self) (geometry_h self) (polygon_point_list self) v (path_point_list self)
     (path_extension_start self) (path_extension_end self) (ctrapezoid_type self)
     (circle_radius self) (property_value_list self) (property_name self)
     (property_is_standard self) (path_half_width self).
Definition set_path_point_list (self : t) (v : option point_list_t) : t :=
  mk (repetition self) (placement_x self) (placement_y self) (placement_cell self) (layer
     self) (datatype self) (text_layer self) (text_datatype self) (text_x self) (text_y self)
     (text_string self) (geometry_x self) (geometry_y self) (xy_relative self) (geometry_w
     self) (geometry_h self) (polygon_point_list self) (path_halfwidth self) v
     (path_extension_start self) (path_extension_end self) (ctrapezoid_type self)
     (circle_radius self) (property_value_list self) (property_name self)
     (property_is_standard self) (path_half_width self).
Definition set_path_extension_start (self : t) (v : option pathextension_t) : t :=
  mk (repetition self) (placement_x self) (placement_y self) (placement_cell self) (layer
     self) (datatype self) (text_layer self) (text_datatype self) (text_x self) (text_y self)
     (text_string self) (geometry_x self) (geometry_y self) (xy_relative self) (geometry_w
     self) (geometry_h self) (polygon_point_list self) (path_halfwidth self) (path_point_list
     self) v (path_extension_end self) (ctrapezoid_type self) (circle_radius self)
     (property_value_list self) (property_name self) (property_is_standard self)
     (path_half_width self).
Definition set_path_extension_end (self : t) (v : option pathextension_t) : t :=
  mk (repetition self) (placement_x self) (placement_y self) (placement_cell self) (layer
     self) (datatype self) (text_layer self) (text_datatype self) (text_x self) (text_y self)
     (text_string self) (geometry_x self) (geometry_y self) (xy_relative self) (geometry_w
     self) (geometry_h self) (polygon_point_list self) (path_halfwidth self) (path_point_list
     self) (path_extension_start self) v (ctrapezoid_type self) (circle_radius self)
     (property_value_list self) (property_name self) (property_is_standard self)
     (path_half_width self).
Definition set_ctrapezoid_type (self : t) (v : option Z) : t :=
  mk (repetition self) (placement_x self) (placement_y self) (placement_cell self) (layer
     self) (datatype self) (text_layer self) (text_datatype self) (text_x self) (text_y self)
     (text_string self) (geometry_x self) (geometry_y self) (xy_relative self) (geometry_w
     self) (geometry_h self) (polygon_point_list self) (path_halfwidth self) (path_point_list
     self) (path_extension_start self) (path_extension_end self) v (circle_radius self)
     (property_value_list self) (property_name self) (property_is_standard self)
     (path_half_width self).
Definition set_circle_radius (self : t) (v : option Z) : t :=
  mk (repetition self) (placement_x self) (placement_y self) (placement_cell self) (layer
     self) (datatype self) (text_layer self) (text_datatype self) (text_x self) (text_y self)
     (text_string self) (geometry_x self) (geometry_y self) (xy_relative self) (geometry_w
     self) (geometry_h self) (polygon_point_list self) (path_halfwidth self) (path_point_list
     self) (path_extension_start self) (path_extension_end self) (ctrapezoid_type self) v
     (property_value_list self) (property_name self) (property_is_standard self)
     (path_half_width self).
Definition set_property_value_list (self : t) (v : option (list property_value_t)) : t :=
  mk (repetition self) (placement_x self) (placement_y self) (placement_cell self) (layer
     self) (datatype self) (text_layer self) (text_datatype self) (text_x self) (text_y self)
     (text_string self) (geometry_x self) (geometry_y self) (xy_relative self) (geometry_w
     self) (geometry_h self) (polygon_point_list self) (path_halfwidth self) (path_point_list
     self) (path_extension_start self) (path_extension_end self) (ctrapezoid_type self)
     (circle_radius self) v (property_name self) (property_is_standard self) (path_half_width
     self).
Definition set_property_name (self : t) (v : option refname_t) : t :=
  mk (repetition self) (placement_x self) (placement_y self) (placement_cell self) (layer
     self) (datatype self) (text_layer self) (text_datatype self) (text_x self) (text_y self)
     (text_string self) (geometry_x self) (geometry_y self) (xy_relative self) (geometry_w
     self) (geometry_h self) (polygon_point_list self) (path_halfwidth self) (path_point_list
     self) (path_extension_start self) (path_extension_end self) (ctrapezoid_type self)
     (circle_radius self) (property_value_list self) v (property_is_standard self)
     (path_half_width self).
Definition set_property_is_standard (self : t) (v : option bool) : t :=
  mk (repetition self) (placement_x self) (placement_y self) (placement_cell self) (layer
     self) (datatype self) (text_layer self) (text_datatype self) (text_x self) (text_y self)
     (text_string self) (geometry_x self) (geometry_y self) (xy_relative self) (geometry_w
     self) (geometry_h self) (polygon_point_list self) (path_halfwidth self) (path_point_list
     self) (path_extension_start self) (path_extension_end self) (ctrapezoid_type self)
     (circle_radius self) (property_value_list self) (property_name self) v (path_half_width
     self).
Definition set_path_half_width (self : t) (v : option (option Z)) : t :=
  mk (repetition self) (placement_x self) (placement_y self) (placement_cell self) (layer
     self) (datatype self) (text_layer self) (text_datatype self) (text_x self) (text_y self)
     (text_string self) (geometry_x self) (geometry_y self) (xy_relative self) (geometry_w
     self) (geometry_h self) (polygon_point_list self) (path_halfwidth self) (path_point_list
     self) (path_extension_start self) (path_extension_end self) (ctrapezoid_type self)
     (circle_radius self) (property_value_list self) (property_name self)
     (property_is_standard self) v.
#[global] Hint Unfold set_repetition set_placement_x set_placement_y
  set_placement_cell set_layer set_datatype set_text_layer set_text_datatype
  set_text_x set_text_y set_text_string set_geometry_x set_geometry_y
  set_xy_relative set_geometry_w set_geometry_h set_polygon_point_list
  set_path_halfwidth set_path_point_list set_path_extension_start
  set_path_extension_end set_ctrapezoid_type set_circle_radius
  set_property_value_list set_property_name set_property_is_standard
  set_path_half_width : setters.

Definition _repetition : attr t (option repetition_t) :=
  {| attr_name := "repetition"; getattr self := Ok (repetition self);
     setattr := set_repetition; getattr_setattr _ _ := eq_refl |}.
Definition _placement_x : attr t (Z) :=
  {| attr_name := "placement_x"; getattr self := Ok (placement_x self);
     setattr := set_placement_x; getattr_setattr _ _ := eq_refl |}.
Definition _placement_y : attr t (Z) :=
  {| attr_name := "placement_y"; getattr self := Ok (placement_y self);
     setattr := set_placement_y; getattr_setattr _ _ := eq_refl |}.
Definition _placement_cell : attr t (option refname_t) :=
  {| attr_name := "placement_cell"; getattr self := Ok (placement_cell self);
     setattr := set_placement_cell; getattr_setattr _ _ := eq_refl |}.
Definition _layer : attr t (option Z) :=
  {| attr_name := "layer"; getattr self := Ok (layer self);
     setattr := set_layer; getattr_setattr _ _ := eq_refl |}.
Definition _datatype : attr t (option Z) :=
  {| attr_name := "datatype"; getattr self := Ok (datatype self);
     setattr := set_datatype; getattr_setattr _ _ := eq_refl |}.
Definition _text_layer : attr t (option Z) :=
  {| attr_name := "text_layer"; getattr self := Ok (text_layer self);
     setattr := set_text_layer; getattr_setattr _ _ := eq_refl |}.
Definition _text_datatype : attr t (option Z) :=
  {| attr_name := "text_datatype"; getattr self := Ok (text_datatype self);
     setattr := set_text_datatype; getattr_setattr _ _ := eq_refl |}.
Definition _text_x : attr t (Z) :=
  {| attr_name := "text_x"; getattr self := Ok (text_x self);
     setattr := set_text_x; getattr_setattr _ _ := eq_refl |}.
Definition _text_y : attr t (Z) :=
  {| attr_name := "text_y"; getattr self := Ok (text_y self);
     setattr := set_text_y; getattr_setattr _ _ := eq_refl |}.
Definition _text_string : attr t (option refstring_t) :=
  {| attr_name := "text_string"; getattr self := Ok (text_string self);
     setattr := set_text_string; getattr_setattr _ _ := eq_refl |}.
Definition _geometry_x : attr t (Z) :=
  {| attr_name := "geometry_x"; getattr self := Ok (geometry_x self);
     setattr := set_geometry_x; getattr_setattr _ _ := eq_refl |}.
Definition _geometry_y : attr t (Z) :=
  {| attr_name := "geometry_y"; getattr self := Ok (geometry_y self);
     setattr := set_geometry_y; getattr_setattr _ _ := eq_refl |}.
Definition _xy_relative : attr t (bool) :=
  {| attr_name := "xy_relative"; getattr self := Ok (xy_relative self);
     setattr := set_xy_relative; getattr_setattr _ _ := eq_refl |}.
Definition _geometry_w : attr t (option Z) :=
  {| attr_name := "geometry_w"; getattr self := Ok (geometry_w self);
     setattr := set_geometry_w; getattr_setattr _ _ := eq_refl |}.
Definition _geometry_h : attr t (option Z) :=
  {| attr_name := "geometry_h"; getattr self := Ok (geometry_h self);
     setattr := set_geometry_h; getattr_setattr _ _ := eq_refl |}.
Definition _polygon_point_list : attr t (option point_list_t) :=
  {| attr_name := "polygon_point_list"; getattr self := Ok (polygon_point_list self);
     setattr := set_polygon_point_list; getattr_setattr _ _ := eq_refl |}.
Definition _path_point_list : attr t (option point_list_t) :=
  {| attr_name := "path_point_list"; getattr self := Ok (path_point_list self);
     setattr := set_path_point_list; getattr_setattr _ _ := eq_refl |}.
Definition _path_extension_start : attr t (option pathextension_t) :=
  {| attr_name := "path_extension_start"; getattr self := Ok (path_extension_start self);
     setattr := set_path_extension_start; getattr_setattr _ _ := eq_refl |}.
Definition _path_extension_end : attr t (option pathextension_t) :=
  {| attr_name := "path_extension_end"; getattr self := Ok (path_extension_end self);
     setattr := set_path_extension_end; getattr_setattr _ _ := eq_refl |}.
Definition _ctrapezoid_type : attr t (option Z) :=
  {| attr_name := "ctrapezoid_type"; getattr self := Ok (ctrapezoid_type self);
     setattr := set_ctrapezoid_type; getattr_setattr _ _ := eq_refl |}.
Definition _circle_radius : attr t (option Z) :=
  {| attr_name := "circle_radius"; getattr self := Ok (circle_radius self);
     setattr := set_circle_radius; getattr_setattr _ _ := eq_refl |}.
Definition _property_value_list : attr t (option (list property_value_t)) :=
  {| attr_name := "property_value_list"; getattr self := Ok (property_value_list self);
     setattr := set_property_value_list; getattr_setattr _ _ := eq_refl |}.
Definition _property_name : attr t (option refname_t) :=
  {| attr_name := "property_name"; getattr self := Ok (property_name self);
     setattr := set_property_name; getattr_setattr _ _ := eq_refl |}.
Definition _property_is_standard : attr t (option bool) :=
  {| attr_name := "property_is_standard"; getattr self := Ok (property_is_standard self);
     setattr := set_property_is_standard; getattr_setattr _ _ := eq_refl |}.
Definition _path_half_width : attr t (option Z) :=
  {| attr_name := "path_half_width";
     getattr self := match path_half_width self with
                     | Some v => Ok v
                     | None => Error AttributeError
                     end;
     setattr self v := set_path_half_width self (Some v);
     getattr_setattr _ _ := eq_refl |}.

(** [Modals.reset]: assigns the default to each declared variable. *)
Definition reset (self : t) : t :=
  {| repetition := None;
     placement_x := 0;
     placement_y := 0;
     placement_cell := None;
     layer := None;
     datatype := None;
     text_layer := None;
     text_datatype := None;
     text_x := 0;
     text_y := 0;
     text_string := None;
     geometry_x := 0;
     geometry_y := 0;
     xy_relative := false;
     geometry_w := None;
     geometry_h := None;
     polygon_point_list := None;
     path_halfwidth := None;
     path_point_list := None;
     path_extension_start := None;
     path_extension_end := None;
     ctrapezoid_type := None;
     circle_radius := None;
     property_value_list := None;
     property_name := None;
     property_is_standard := None;
     path_half_width := path_half_width self |}.

(** [Modals()]: the class defaults, then [__init__] calls [reset]. *)
Definition new : t :=
  reset (mk None 0 0 None None None None None 0 0 None 0 0 false None None
            None None None None None None None None None None None).
End Modals.

(** ** The merge / dedup helpers

    [adjust_repetition], [adjust_coordinates], [dedup_repetition] and
    [dedup_coordinates] read [record.repetition], [record.x] and [record.y]
    of whatever record they are given; the classes below say which record
    types have these attributes, with the facts that assigning one attribute
    changes that attribute and no other. *)
Class HasRepetition (R : Type) : Type := {
  rec_repetition : R -> option repetition_t;
  set_rec_repetition : R -> option repetition_t -> R;
  rec_repetition_set : forall r v, rec_repetition (set_rec_repetition r v) = v
}.

Class HasXY (R : Type) : Type := {
  rec_x : R -> option Z;
  set_rec_x : R -> option Z -> R;
  rec_y : R -> option Z;
  set_rec_y : R -> option Z -> R;
  rec_x_set_x : forall r v, rec_x (set_rec_x r v) = v;
  rec_y_set_y : forall r v, rec_y (set_rec_y r v) = v;
  rec_x_set_y : forall r v, rec_x (set_rec_y r v) = rec_x r;
  rec_y_set_x : forall r v, rec_y (set_rec_x r v) = rec_y r
}.

Section Helpers.
Context {R : Type}.

Definition adjust_repetition `{HasRepetition R}
    (record : R) (modals : Modals.t) : result (R * Modals.t) :=
  match rec_repetition record with
  | Some rep =>
      if is_ReuseRepetition rep then
        match Modals.repetition modals with
        | None => Error (InvalidDataError "Unfillable repetition")
        | Some m => Ok (set_rec_repetition record (Some m), modals)
        end
      else Ok (record, Modals.set_repetition modals (Some rep))
  | None => Ok (record, modals)
  end.

Definition adjust_field {A : Type}
    (record : R) (r_field : attr R (option A))
    (modals : Modals.t) (m_field : attr Modals.t (option A))
    : result (R * Modals.t) :=
  let* r := getattr r_field record in
  match r with
  | Some _ => Ok (record, setattr m_field modals r)
  | None =>
      let* m := getattr m_field modals in
      match m with
      | Some _ => Ok (setattr r_field record m, modals)
      | None => Error (InvalidDataError
                         ("Unfillable field: " +:+ attr_name m_field))
      end
  end.

Definition adjust_coordinates `{HasXY R}
    (record : R) (modals : Modals.t) (mx_field my_field : attr Modals.t Z)
    : result (R * Modals.t) :=
  let* (record, modals) :=
    match rec_x record with
    | Some rx =>
        if Modals.xy_relative modals then
          let* mx := getattr mx_field modals in
          Ok (set_rec_x record (Some (rx + mx)), modals)
        else Ok (record, setattr mx_field modals rx)
    | None =>
        let* mx := getattr mx_field modals in
        Ok (set_rec_x record (Some mx), modals)
    end in
  match rec_y record with
  | Some ry =>
      if Modals.xy_relative modals then
        let* my := getattr my_field modals in
        Ok (set_rec_y record (Some (ry + my)), modals)
      else Ok (record, setattr my_field modals ry)
  | None =>
      let* my := getattr my_field modals in
      Ok (set_rec_y record (Some my), modals)
  end.

Definition dedup_repetition `{HasRepetition R}
    (record : R) (modals : Modals.t) : result (R * Modals.t) :=
  match rec_repetition record with
  | None => Ok (record, modals)
  | Some rep =>
      if is_ReuseRepetition rep then
        match Modals.repetition modals with
        | None => Error (InvalidDataError "Unfillable repetition")
        | Some _ => Ok (record, modals)
        end
      else if bool_decide (rec_repetition record = Modals.repetition modals) then
        Ok (set_rec_repetition record (Some ReuseRepetition), modals)
      else Ok (record, Modals.set_repetition modals (rec_repetition record))
  end.

Definition dedup_field {A : Type} `{EqDecision A}
    (record : R) (r_field : attr R (option A))
    (modals : Modals.t) (m_field : attr Modals.t (option A))
    : result (R * Modals.t) :=
  let* r := getattr r_field record in
  let* m := getattr m_field modals in
  if is_not_None r then
    if is_not_None m && bool_decide (m = r) then
      Ok (setattr r_field record None, modals)
    else Ok (record, setattr m_field modals r)
  else if negb (is_not_None m) then
    Error (InvalidDataError "Unfillable field")
  else Ok (record, modals).

Definition dedup_coordinates `{HasXY R}
    (record : R) (modals : Modals.t) (mx_field my_field : attr Modals.t Z)
    : result (R * Modals.t) :=
  let* (record, modals) :=
    match rec_x record with
    | Some rx =>
        let* mx := getattr mx_field modals in
        if Modals.xy_relative modals then
          Ok (set_rec_x record (Some (rx - mx)), modals)
        else if bool_decide (rx = mx) then Ok (set_rec_x record None, modals)
        else Ok (record, setattr mx_field modals rx)
    | None => Ok (record, modals)
    end in
  match rec_y record with
  | Some ry =>
      let* my := getattr my_field modals in
      if Modals.xy_relative modals then
        Ok (set_rec_y record (Some (ry - my)), modals)
      else if bool_decide (ry = my) then Ok (set_rec_y record None, modals)
      else Ok (record, setattr my_field modals ry)
  | None => Ok (record, modals)
  end.
End Helpers.

(** ** Byte streams and the primitive codecs of basic.py

    A stream opened for writing is the list of bytes written so far; a
    stream opened for reading is the list of bytes not yet consumed.  A
    function that takes a stream, may raise, and returns a value becomes a
    computation in [io]. *)
Definition stream : Type := list byte.
Definition io (A : Type) : Type := stream -> result (A * stream).

Definition io_ret {A : Type} (a : A) : io A := fun s => Ok (a, s).
Definition io_raise {A : Type} (e : exn) : io A := fun _ => Error e.
Definition io_bind {A B : Type} (c : io A) (k : A -> io B) : io B :=
  fun s => match c s with
           | Ok (a, s') => k a s'
           | Error e => Error e
           end.
(** A computation that does not touch the stream. *)
Definition io_lift {A : Type} (c : result A) : io A :=
  fun s => match c with
           | Ok a => Ok (a, s)
           | Error e => Error e
           end.

Notation "'let+' x ':=' c 'in' k" := (io_bind c (fun x => k))
  (at level 10, x pattern, c at level 100, k at level 200, only parsing)
  : py_scope.

(** [if flag: optional[key] = reader(stream)] *)
Definition read_if {A : Type} (flag : bool) (reader : io A) : io (option A) :=
  if flag then let+ v := reader in io_ret (Some v) else io_ret None.

(** [if field is not None: size += writer(stream, field)], as the size
    added; the flag of each such statement is computed from the same field. *)
Definition write_if {A : Type} (field : option A) (writer : A -> io Z) : io Z :=
  match field with
  | Some v => writer v
  | None => io_ret 0
  end.

(** [stream.write(bytes)] *)
Definition stream_write (bs : list byte) : io Z :=
  fun s => Ok (Z.of_nat (length bs), s ++ bs).

(** Modelled from the spec: basic.py is missing; [read_byte] takes one byte
    off the stream. *)
Definition read_byte : io byte :=
  fun s => match s with
           | [] => Error EOFError
           | b :: s' => Ok (b, s')
           end.

(** Modelled from the spec: basic.py is missing; [write_byte] writes one
    byte. *)
Definition write_byte (b : byte) : io Z := stream_write [Z.land b 255].

(** Modelled from the spec: basic.py is missing; an unsigned integer is
    written little-endian in base 128, the most significant bit of each byte
    saying that another byte follows. *)
Fixpoint uint_bytes (fuel : nat) (n : Z) : list byte :=
  match fuel with
  | O => [n]
  | S fuel' =>
      if n <? 128 then [n]
      else Z.lor (Z.land n 127) 128 :: uint_bytes fuel' (Z.shiftr n 7)
  end.

Definition write_uint (n : Z) : io Z :=
  if n <? 0 then io_raise (InvalidDataError "Negative uint")
  else stream_write (uint_bytes (Z.to_nat (Z.log2 n)) n).

Fixpoint read_uint_loop (s : stream) (shift acc : Z) : result (Z * stream) :=
  match s with
  | [] => Error EOFError
  | b :: s' =>
      let acc' := acc + Z.shiftl (Z.land b 127) shift in
      if Z.testbit b 7 then read_uint_loop s' (shift + 7) acc'
      else Ok (acc', s')
  end.

Definition read_uint : io Z := fun s => read_uint_loop s 0 0.

(** Modelled from the spec: basic.py is missing; a signed integer is an
    unsigned one whose least significant bit is the sign. *)
Definition write_sint (v : Z) : io Z :=
  if v <? 0 then write_uint (Z.lor (Z.shiftl (- v) 1) 1)
  else write_uint (Z.shiftl v 1).

Definition read_sint : io Z :=
  let+ u := read_uint in
  io_ret (if Z.testbit u 0 then - Z.shiftr u 1 else Z.shiftr u 1).

(** Modelled from the spec: basic.py is missing; a byte string is written
    as its length, an unsigned integer, followed by its bytes. *)
Definition write_bstring (bs : list byte) : io Z :=
  let+ size := write_uint (Z.of_nat (length bs)) in
  let+ n := stream_write bs in
  io_ret (size + n).

Definition read_bstring : io (list byte) :=
  let+ n := read_uint in
  fun s => if n <=? Z.of_nat (length s)
           then Ok (take (Z.to_nat n) s, drop (Z.to_nat n) s)
           else Error EOFError.

(** Modelled from the spec: basic.py is missing; eight flags packed in one
    byte, the first flag in the most significant bit. *)
Definition bool8 : Type := (bool * bool * bool * bool * bool * bool * bool * bool)%type.

Definition write_bool_byte (bits : bool8) : io Z :=
  let '(b7, b6, b5, b4, b3, b2, b1, b0) := bits in
  stream_write [fold_left (fun acc (b : bool) => 2 * acc + (if b then 1 else 0))
                          [b7; b6; b5; b4; b3; b2; b1; b0] 0].

Definition read_bool_byte : io bool8 :=
  let+ b := read_byte in
  io_ret (Z.testbit b 7, Z.testbit b 6, Z.testbit b 5, Z.testbit b 4,
          Z.testbit b 3, Z.testbit b 2, Z.testbit b 1, Z.testbit b 0).

(** The codecs of basic.py for reals, point lists, repetitions and property
    values.  The spec only names their encodings; records.py calls them and
    nothing below depends on the bytes they produce. *)
Class BasicCodec : Type := {
  write_real : real_t -> io Z;
  read_real : io real_t;
  write_point_list : point_list_t -> bool -> bool -> io Z;
  read_point_list : io point_list_t;
  repetition_write : repetition_t -> io Z;
  read_repetition : io repetition_t;
  write_property_value : property_value_t -> io Z;
  read_property_value : io property_value_t;
  NString_write : NString -> io Z
}.

(** [NString.read] of basic.py, called by [read_refname]. *)
Class StringCodec : Type := {
  NString_read : io NString
}.

(** The codecs that raise on every call: enough for the records that need
    none of them. *)
Definition refusing_codec : BasicCodec :=
  {| write_real := fun _ => io_raise (InvalidDataError "no codec");
     read_real := io_raise (InvalidDataError "no codec");
     write_point_list := fun _ _ _ => io_raise (InvalidDataError "no codec");
     read_point_list := io_raise (InvalidDataError "no codec");
     repetition_write := fun _ => io_raise (InvalidDataError "no codec");
     read_repetition := io_raise (InvalidDataError "no codec");
     write_property_value := fun _ => io_raise (InvalidDataError "no codec");
     read_property_value := io_raise (InvalidDataError "no codec");
     NString_write := fun _ => io_raise (InvalidDataError "no codec") |}.

Definition refusing_strings : StringCodec :=
  {| NString_read := io_raise (InvalidDataError "no codec") |}.

(** [read_refname]: nothing, a reference number, or an [NString]. *)
Definition read_refname `{StringCodec} (is_present is_reference : bool)
    : io (option refname_t) :=
  if negb is_present then io_ret None
  else if is_reference then let+ n := read_uint in io_ret (Some (RefNumber n))
  else let+ s := NString_read in io_ret (Some (RefNString s)).

(** Modelled from the spec: the class [OffsetTable] of basic.py is missing;
    the spec describes a fixed-layout sub-record giving the byte offset of
    the first occurrence of each kind of name table. *)
Module OffsetTable.
Record t : Type := mk {
  cellnames : Z;
  textstrings : Z;
  propnames : Z;
  propstrings : Z;
  layernames : Z;
  xnames : Z
}.

Definition write (self : t) : io Z :=
  let+ size := write_uint (cellnames self) in
  let+ n := write_uint (textstrings self) in let size := size + n in
  let+ n := write_uint (propnames self) in let size := size + n in
  let+ n := write_uint (propstrings self) in let size := size + n in
  let+ n := write_uint (layernames self) in let size := size + n in
  let+ n := write_uint (xnames self) in let size := size + n in
  io_ret size.
End OffsetTable.

(** Modelled from the spec: the class [Validation] of basic.py is missing;
    the spec describes the trailing checksum sub-record of [End]: the kind
    of checksum and its bytes. *)
Module Validation.
Record t : Type := mk {
  checksum_type : Z;
  checksum : list byte
}.

Definition write (self : t) : io Z :=
  let+ size := write_uint (checksum_type self) in
  let+ n := stream_write (checksum self) in
  io_ret (size + n).
End Validation.

(** ** Python operators on values that may be [None] *)

(** [a < b] on integers; comparing with [None] raises [TypeError]. *)
Definition py_lt (a b : option Z) : result bool :=
  match a, b with
  | Some a, Some b => Ok (a <? b)
  | _, _ => Error TypeError
  end.

(** [k * a] for an integer literal [k]; [k * None] raises [TypeError]. *)
Definition py_mul (k : Z) (a : option Z) : result (option Z) :=
  match a with
  | Some a => Ok (Some (k * a))
  | None => Error TypeError
  end.

(** [t in (v1, v2, ...)]; [None] is in no tuple of integers. *)
Definition type_in (t : option Z) (vs : list Z) : bool :=
  match t with
  | Some v => bool_decide (v ∈ vs)
  | None => false
  end.

(** [t in range(lo, hi)] *)
Definition type_in_range (t : option Z) (lo hi : Z) : bool :=
  match t with
  | Some v => (lo <=? v) && (v <? hi)
  | None => false
  end.

(** ['{}'.format(v)] *)
Definition pretty_opt (v : option Z) : string :=
  match v with
  | Some z => pretty z
  | None => "None"
  end.

Definition real_of_Z (z : Z) : real_t := Q2Qc (inject_Z z).

(** [a % m] on reals, for a positive [m]. *)
Definition real_mod (a m : real_t) : real_t :=
  (a - m * Q2Qc (inject_Z (Qfloor (a / m))))%Qc.

(** [int(a)]: truncation towards zero. *)
Definition real_to_int (a : real_t) : Z :=
  if Qle_bool 0 a then Qfloor a else Qceiling a.

(** ** Records

    One module per record class, in the order of records.py.  Every module
    has the methods [merge_with_modals] and [deduplicate_with_modals]; the
    constructors, [read] and [write] are given for the classes whose
    checks and wire form are studied below. *)

(** [Pad] record (ID 0) *)
Module Pad.
Record t : Type := mk {}.

Definition merge_with_modals (self : t) (modals : Modals.t)
    : result (t * Modals.t) :=
  Ok (self, modals).

Definition deduplicate_with_modals (self : t) (modals : Modals.t)
    : result (t * Modals.t) :=
  Ok (self, modals).

Definition read (record_id : Z) : io t :=
  if negb (record_id =? 0) then
    io_raise (InvalidDataError
                ("Invalid record id for Pad " +:+ pretty record_id))
  else io_ret mk.

Definition write (self : t) : io Z := write_uint 0.
End Pad.

(** [XYMode] record (ID 15, 16) *)
Module XYMode.
Record t : Type := mk {
  relative : bool
}.

Definition merge_with_modals (self : t) (modals : Modals.t)
    : result (t * Modals.t) :=
  Ok (self, Modals.set_xy_relative modals (relative self)).

Definition deduplicate_with_modals (self : t) (modals : Modals.t)
    : result (t * Modals.t) :=
  Ok (self, modals).

Definition read (record_id : Z) : io t :=
  if negb (bool_decide (record_id ∈ [15; 16])) then
    io_raise (InvalidDataError "Invalid record id for XYMode")
  else io_ret (mk (record_id =? 16)).

Definition write (self : t) : io Z := write_uint (15 + Z.b2z (relative self)).
End XYMode.

(** [Start] record (ID 1) *)
Module Start.
Record t : Type := mk {
  version : AString;
  unit : real_t;
  offset_table : option OffsetTable.t
}.

Definition merge_with_modals (self : t) (modals : Modals.t)
    : result (t * Modals.t) :=
  Ok (self, Modals.reset modals).

Definition deduplicate_with_modals (self : t) (modals : Modals.t)
    : result (t * Modals.t) :=
  Ok (self, Modals.reset modals).
End Start.

(** [End] record (ID 2); [End] is a keyword of Rocq. *)
Module End_.
Record t : Type := mk {
  offset_table : option OffsetTable.t;
  validation : Validation.t
}.

Definition merge_with_modals (self : t) (modals : Modals.t)
    : result (t * Modals.t) :=
  Ok (self, modals).

Definition deduplicate_with_modals (self : t) (modals : Modals.t)
    : result (t * Modals.t) :=
  Ok (self, modals).

Definition write (self : t) : io Z :=
  let+ size := write_uint 2 in
  let+ size :=
    match offset_table self with
    | Some table => let+ n := OffsetTable.write table in io_ret (size + n)
    | None => io_ret size
    end in
  let+ validation_bytes :=
    io_lift (let* (_, buf) := Validation.write (validation self) [] in
             Ok buf) in
  let pad_len := 256 - size - Z.of_nat (length validation_bytes) in
  let+ _ :=
    if 0 <? pad_len then
      let pad := replicate (Z.to_nat (pad_len - 1)) 128 ++ [0] in
      stream_write pad
    else io_ret 0 in
  let+ _ := stream_write validation_bytes in
  io_ret 256.
End End_.

(** [CBlock] record (ID 34) *)
Module CBlock.
Record t : Type := mk {
  compression_type : Z;
  decompressed_byte_count : Z;
  compressed_bytes : list byte
}.

Definition merge_with_modals (self : t) (modals : Modals.t)
    : result (t * Modals.t) :=
  Ok (self, modals).

Definition deduplicate_with_modals (self : t) (modals : Modals.t)
    : result (t * Modals.t) :=
  Ok (self, modals).

Definition __init__ (compression_type decompressed_byte_count : Z)
    (compressed_bytes : list byte) : result t :=
  if negb (compression_type =? 0) then
    Error (InvalidDataError ("CBlock: Invalid compression scheme "
                             +:+ pretty compression_type))
  else Ok (mk compression_type decompressed_byte_count compressed_bytes).

Definition read (record_id : Z) : io t :=
  if negb (record_id =? 34) then
    io_raise (InvalidDataError
                ("Invalid record id for CBlock: " +:+ pretty record_id))
  else
    let+ compression_type := read_uint in
    let+ decompressed_count := read_uint in
    let+ compressed_bytes := read_bstring in
    io_lift (__init__ compression_type decompressed_count compressed_bytes).

Definition write (self : t) : io Z :=
  let+ size := write_uint 34 in
  let+ n := write_uint (compression_type self) in let size := size + n in
  let+ n := write_uint (decompressed_byte_count self) in
  let size := size + n in
  let+ n := write_bstring (compressed_bytes self) in
  io_ret (size + n).
End CBlock.

(** [CellName] record (ID 3, 4) *)
Module CellName.
Record t : Type := mk {
  nstring : NString;
  reference_number : option Z
}.

Definition merge_with_modals (self : t) (modals : Modals.t)
    : result (t * Modals.t) :=
  Ok (self, Modals.reset modals).

Definition deduplicate_with_modals (self : t) (modals : Modals.t)
    : result (t * Modals.t) :=
  Ok (self, Modals.reset modals).
End CellName.

(** [PropName] record (ID 7, 8) *)
Module PropName.
Record t : Type := mk {
  nstring : NString;
  reference_number : option Z
}.

Definition merge_with_modals (self : t) (modals : Modals.t)
    : result (t * Modals.t) :=
  Ok (self, Modals.reset modals).

Definition deduplicate_with_modals (self : t) (modals : Modals.t)
    : result (t * Modals.t) :=
  Ok (self, Modals.reset modals).
End PropName.

(** [TextString] record (ID 5, 6) *)
Module TextString.
Record t : Type := mk {
  astring : AString;
  reference_number : option Z
}.

Definition merge_with_modals (self : t) (modals : Modals.t)
    : result (t * Modals.t) :=
  Ok (self, Modals.reset modals).

Definition deduplicate_with_modals (self : t) (modals : Modals.t)
    : result (t * Modals.t) :=
  Ok (self, Modals.reset modals).
End TextString.

(** [PropString] record (ID 9, 10) *)
Module PropString.
Record t : Type := mk {
  astring : AString;
  reference_number : option Z
}.

Definition merge_with_modals (self : t) (modals : Modals.t)
    : result (t * Modals.t) :=
  Ok (self, Modals.reset modals).

Definition deduplicate_with_modals (self : t) (modals : Modals.t)
    : result (t * Modals.t) :=
  Ok (self, Modals.reset modals).
End PropString.

(** [LayerName] record (ID 11, 12) *)
Module LayerName.
Record t : Type := mk {
  nstring : NString;
  layer_interval : option Z * option Z;
  type_interval : option Z * option Z;
  is_textlayer : bool
}.

Definition merge_with_modals (self : t) (modals : Modals.t)
    : result (t * Modals.t) :=
  Ok (self, Modals.reset modals).

Definition deduplicate_with_modals (self : t) (modals : Modals.t)
    : result (t * Modals.t) :=
  Ok (self, Modals.reset modals).
End LayerName.

(** [Property] record (ID 28, 29) *)
Module Property.
Record t : Type := mk {
  name : option refname_t;
  values : option (list property_value_t);
  is_standard : option bool
}.

Definition set_name (self : t) (v : option refname_t) : t :=
  mk v (values self) (is_standard self).
Definition set_values (self : t) (v : option (list property_value_t)) : t :=
  mk (name self) v (is_standard self).
Definition set_is_standard (self : t) (v : option bool) : t :=
  mk (name self) (values self) v.
#[global] Hint Unfold set_name set_values set_is_standard : setters.

Definition _name : attr t (option refname_t) :=
  {| attr_name := "name"; getattr self := Ok (name self);
     setattr := set_name; getattr_setattr _ _ := eq_refl |}.
Definition _values : attr t (option (list property_value_t)) :=
  {| attr_name := "values"; getattr self := Ok (values self);
     setattr := set_values; getattr_setattr _ _ := eq_refl |}.
Definition _is_standard : attr t (option bool) :=
  {| attr_name := "is_standard"; getattr self := Ok (is_standard self);
     setattr := set_is_standard; getattr_setattr _ _ := eq_refl |}.

Definition merge_with_modals (self : t) (modals : Modals.t)
    : result (t * Modals.t) :=
  let* (self, modals) := adjust_field self _name modals Modals._property_name in
  let* (self, modals) := adjust_field self _values modals Modals._property_value_list in
  adjust_field self _is_standard modals Modals._property_is_standard.

Definition deduplicate_with_modals (self : t) (modals : Modals.t)
    : result (t * Modals.t) :=
  let* (self, modals) := dedup_field self _name modals Modals._property_name in
  let* (self, modals) := dedup_field self _values modals Modals._property_value_list in
  if negb (is_not_None (values self)) && negb (is_not_None (name self)) then
    dedup_field self _is_standard modals Modals._property_is_standard
  else Ok (self, modals).

(** [write_uint(stream, self.name)]: an integer is written, anything else
    fails in the comparison [n < 0] that [write_uint] starts with. *)
Definition write_uint_name (name : option refname_t) : io Z :=
  match name with
  | Some (RefNumber n) => write_uint n
  | _ => io_raise TypeError
  end.

Definition write `{BasicCodec} (self : t) : io Z :=
  if negb (is_not_None (is_standard self)) && negb (is_not_None (values self))
     && negb (is_not_None (name self)) then
    write_uint 29
  else
    match is_standard self with
    | None => io_raise (InvalidDataError
                          "Property has value or name, but no is_standard flag!")
    | Some std =>
        let '(V, U) :=
          match values self with
          | Some vs =>
              let value_count := Z.of_nat (length vs) in
              (0, if 15 <=? value_count then 15 else value_count)
          | None => (1, 0)
          end in
        let C := is_not_None (name self) in
        let N := C && (match name self with
                       | Some (RefNumber _) => true
                       | _ => false
                       end) in
        let+ size := write_uint 28 in
        let+ n := write_byte
                    (Z.lor (Z.lor (Z.lor (Z.lor (Z.shiftl U 4) (Z.shiftl V 3))
                                         (Z.shiftl (Z.b2z C) 2))
                                  (Z.shiftl (Z.b2z N) 1))
                           (Z.b2z std)) in
        let size := size + n in
        let+ n :=
          match name self with
          | Some (RefNumber ref) => write_uint ref
          | Some (RefNString s) => NString_write s
          | None => io_ret 0
          end in
        let size := size + n in
        let+ n :=
          if V =? 0 then
            let+ k := if U =? 15 then write_uint_name (name self)
                      else io_ret 0 in
            let+ total :=
              fold_left (fun acc p =>
                           let+ a := acc in
                           let+ b := write_property_value p in
                           io_ret (a + b))
                        (default [] (values self)) (io_ret 0) in
            io_ret (k + total)
          else io_ret 0 in
        io_ret (size + n)
    end.

Definition read `{BasicCodec} `{StringCodec} (record_id : Z) : io t :=
  if negb (bool_decide (record_id ∈ [28; 29])) then
    io_raise (InvalidDataError
                ("Invalid record id for PropertyValue: "
                 +:+ pretty record_id))
  else if record_id =? 29 then io_ret (mk None None None)
  else
    let+ byte := read_byte in
    let U := Z.land 15 (Z.shiftr byte 4) in
    let V := Z.land 1 (Z.shiftr byte 3) in
    let C := Z.land 1 (Z.shiftr byte 2) in
    let N := Z.land 1 (Z.shiftr byte 1) in
    let S := Z.land 1 (Z.shiftr byte 0) in
    let+ name := read_refname (negb (C =? 0)) (negb (N =? 0)) in
    let+ values :=
      if V =? 0 then
        let+ value_count := if U <? 15 then io_ret U else read_uint in
        let+ values :=
          fold_left (fun acc _ =>
                       let+ vs := acc in
                       let+ v := read_property_value in
                       io_ret (vs ++ [v]))
                    (seqZ 0 value_count) (io_ret []) in
        io_ret (Some values)
      else if negb (U =? 0) then
        io_raise (InvalidDataError "Malformed property record header")
      else io_ret None in
    io_ret (mk name values (Some (negb (S =? 0)))).
End Property.

(** [XName] record (ID 30, 31) *)
Module XName.
Record t : Type := mk {
  attribute : Z;
  bstring : list byte;
  reference_number : option Z
}.

Definition merge_with_modals (self : t) (modals : Modals.t)
    : result (t * Modals.t) :=
  Ok (self, Modals.reset modals).

Definition deduplicate_with_modals (self : t) (modals : Modals.t)
    : result (t * Modals.t) :=
  Ok (self, Modals.reset modals).

Definition read (record_id : Z) : io t :=
  if negb (bool_decide (record_id ∈ [30; 31])) then
    io_raise (InvalidDataError
                ("Invalid record id for XName: " +:+ pretty record_id))
  else
    let+ attribute := read_uint in
    let+ bstring := read_bstring in
    let+ reference_number := read_if (record_id =? 31) read_uint in
    io_ret (mk attribute bstring reference_number).

Definition write (self : t) : io Z :=
  let record_id := 30 + Z.b2z (is_not_None (reference_number self)) in
  let+ size := write_uint record_id in
  let+ n := write_uint (attribute self) in let size := size + n in
  let+ n := write_bstring (bstring self) in let size := size + n in
  let+ n := write_if (reference_number self) write_uint in
  io_ret (size + n).
End XName.

(** [XElement] record (ID 32) *)
Module XElement.
Record t : Type := mk {
  attribute : Z;
  bstring : list byte
}.

Definition merge_with_modals (self : t) (modals : Modals.t)
    : result (t * Modals.t) :=
  Ok (self, modals).

Definition deduplicate_with_modals (self : t) (modals : Modals.t)
    : result (t * Modals.t) :=
  Ok (self, modals).

Definition read (record_id : Z) : io t :=
  if negb (record_id =? 32) then
    io_raise (InvalidDataError
                ("Invalid record id for XElement: " +:+ pretty record_id))
  else
    let+ attribute := read_uint in
    let+ bstring := read_bstring in
    io_ret (mk attribute bstring).

Definition write (self : t) : io Z :=
  let+ size := write_uint 32 in
  let+ n := write_uint (attribute self) in let size := size + n in
  let+ n := write_bstring (bstring self) in
  io_ret (size + n).
End XElement.

(** [XGeometry] record (ID 33) *)
Module XGeometry.
Record t : Type := mk {
  attribute : Z;
  bstring : list byte;
  layer : option Z;
  datatype : option Z;
  x : option Z;
  y : option Z;
  repetition : option repetition_t
}.

Definition set_attribute (self : t) (v : Z) : t :=
  mk v (bstring self) (layer self) (datatype self) (x self) (y self) (repetition self).
Definition set_bstring (self : t) (v : list byte) : t :=
  mk (attribute self) v (layer self) (datatype self) (x self) (y self) (repetition self).
Definition set_layer (self : t) (v : option Z) : t :=
  mk (attribute self) (bstring self) v (datatype self) (x self) (y self) (repetition
     self).
Definition set_datatype (self : t) (v : option Z) : t :=
  mk (attribute self) (bstring self) (layer self) v (x self) (y self) (repetition self).
Definition set_x (self : t) (v : option Z) : t :=
  mk (attribute self) (bstring self) (layer self) (datatype self) v (y self) (repetition
     self).
Definition set_y (self : t) (v : option Z) : t :=
  mk (attribute self) (bstring self) (layer self) (datatype self) (x self) v (repetition
     self).
Definition set_repetition (self : t) (v : option repetition_t) : t :=
  mk (attribute self) (bstring self) (layer self) (datatype self) (x self) (y self) v.
#[global] Hint Unfold set_attribute set_bstring set_layer set_datatype set_x
  set_y set_repetition : setters.

Definition _attribute : attr t (Z) :=
  {| attr_name := "attribute"; getattr self := Ok (attribute self);
     setattr := set_attribute; getattr_setattr _ _ := eq_refl |}.
Definition _bstring : attr t (list byte) :=
  {| attr_name := "bstring"; getattr self := Ok (bstring self);
     setattr := set_bstring; getattr_setattr _ _ := eq_refl |}.
Definition _layer : attr t (option Z) :=
  {| attr_name := "layer"; getattr self := Ok (layer self);
     setattr := set_layer; getattr_setattr _ _ := eq_refl |}.
Definition _datatype : attr t (option Z) :=
  {| attr_name := "datatype"; getattr self := Ok (datatype self);
     setattr := set_datatype; getattr_setattr _ _ := eq_refl |}.
Definition _x : attr t (option Z) :=
  {| attr_name := "x"; getattr self := Ok (x self);
     setattr := set_x; getattr_setattr _ _ := eq_refl |}.
Definition _y : attr t (option Z) :=
  {| attr_name := "y"; getattr self := Ok (y self);
     setattr := set_y; getattr_setattr _ _ := eq_refl |}.
Definition _repetition : attr t (option repetition_t) :=
  {| attr_name := "repetition"; getattr self := Ok (repetition self);
     setattr := set_repetition; getattr_setattr _ _ := eq_refl |}.

#[global] Instance has_repetition : HasRepetition t :=
  {| rec_repetition := repetition; set_rec_repetition := set_repetition;
     rec_repetition_set _ _ := eq_refl |}.
#[global] Instance has_xy : HasXY t :=
  {| rec_x := x; set_rec_x := set_x; rec_y := y; set_rec_y := set_y;
     rec_x_set_x _ _ := eq_refl; rec_y_set_y _ _ := eq_refl;
     rec_x_set_y _ _ := eq_refl; rec_y_set_x _ _ := eq_refl |}.

Definition merge_with_modals (self : t) (modals : Modals.t)
    : result (t * Modals.t) :=
  let* (self, modals) := adjust_coordinates self modals Modals._geometry_x Modals._geometry_y in
  let* (self, modals) := adjust_repetition self modals in
  let* (self, modals) := adjust_field self _layer modals Modals._layer in
  adjust_field self _datatype modals Modals._datatype.

Definition deduplicate_with_modals (self : t) (modals : Modals.t)
    : result (t * Modals.t) :=
  let* (self, modals) := dedup_coordinates self modals Modals._geometry_x Modals._geometry_y in
  let* (self, modals) := dedup_repetition self modals in
  let* (self, modals) := dedup_field self _layer modals Modals._layer in
  dedup_field self _datatype modals Modals._datatype.

Definition read `{BasicCodec} (record_id : Z) : io t :=
  if negb (record_id =? 33) then
    io_raise (InvalidDataError
                ("Invalid record id for XGeometry: " +:+ pretty record_id))
  else
    let+ (R0, R1, R2, X, Y, R, D, L) := read_bool_byte in
    if R0 || R1 || R2 then
      io_raise (InvalidDataError "Malformed XGeometry header")
    else
      let+ attribute := read_uint in
      let+ layer := read_if L read_uint in
      let+ datatype := read_if D read_uint in
      let+ bstring := read_bstring in
      let+ x := read_if X read_sint in
      let+ y := read_if Y read_sint in
      let+ repetition := read_if R read_repetition in
      io_ret (mk attribute bstring layer datatype x y repetition).

Definition write `{BasicCodec} (self : t) : io Z :=
  let X := is_not_None (x self) in
  let Y := is_not_None (y self) in
  let R := is_not_None (repetition self) in
  let D := is_not_None (datatype self) in
  let L := is_not_None (layer self) in
  let+ size := write_uint 33 in
  let+ n := write_bool_byte (false, false, false, X, Y, R, D, L) in
  let size := size + n in
  let+ n := write_uint (attribute self) in let size := size + n in
  let+ n := write_if (layer self) write_uint in let size := size + n in
  let+ n := write_if (datatype self) write_uint in let size := size + n in
  let+ n := write_bstring (bstring self) in let size := size + n in
  let+ n := write_if (x self) write_sint in let size := size + n in
  let+ n := write_if (y self) write_sint in let size := size + n in
  let+ n := write_if (repetition self) repetition_write in
  io_ret (size + n).
End XGeometry.

(** [Cell] record (ID 13, 14) *)
Module Cell.
Record t : Type := mk {
  name : refname_t
}.

Definition merge_with_modals (self : t) (modals : Modals.t)
    : result (t * Modals.t) :=
  Ok (self, Modals.reset modals).

Definition deduplicate_with_modals (self : t) (modals : Modals.t)
    : result (t * Modals.t) :=
  Ok (self, Modals.reset modals).
End Cell.

(** [Placement] record (ID 17, 18).  In [write], a name that is an [NString] is
    written with [self.name.write(self)]: the record is passed where the stream
    is expected, and the call ends in [AttributeError]. *)
Module Placement.
Record t : Type := mk {
  name : option refname_t;
  magnification : option real_t;
  angle : option real_t;
  x : option Z;
  y : option Z;
  repetition : option repetition_t;
  flip : bool
}.

Definition set_name (self : t) (v : option refname_t) : t :=
  mk v (magnification self) (angle self) (x self) (y self) (repetition self) (flip self).
Definition set_magnification (self : t) (v : option real_t) : t :=
  mk (name self) v (angle self) (x self) (y self) (repetition self) (flip self).
Definition set_angle (self : t) (v : option real_t) : t :=
  mk (name self) (magnification self) v (x self) (y self) (repetition self) (flip self).
Definition set_x (self : t) (v : option Z) : t :=
  mk (name self) (magnification self) (angle self) v (y self) (repetition self) (flip
     self).
Definition set_y (self : t) (v : option Z) : t :=
  mk (name self) (magnification self) (angle self) (x self) v (repetition self) (flip
     self).
Definition set_repetition (self : t) (v : option repetition_t) : t :=
  mk (name self) (magnification self) (angle self) (x self) (y self) v (flip self).
Definition set_flip (self : t) (v : bool) : t :=
  mk (name self) (magnification self) (angle self) (x self) (y self) (repetition self) v.
#[global] Hint Unfold set_name set_magnification set_angle set_x set_y
  set_repetition set_flip : setters.

Definition _name : attr t (option refname_t) :=
  {| attr_name := "name"; getattr self := Ok (name self);
     setattr := set_name; getattr_setattr _ _ := eq_refl |}.
Definition _magnification : attr t (option real_t) :=
  {| attr_name := "magnification"; getattr self := Ok (magnification self);
     setattr := set_magnification; getattr_setattr _ _ := eq_refl |}.
Definition _angle : attr t (option real_t) :=
  {| attr_name := "angle"; getattr self := Ok (angle self);
     setattr := set_angle; getattr_setattr _ _ := eq_refl |}.
Definition _x : attr t (option Z) :=
  {| attr_name := "x"; getattr self := Ok (x self);
     setattr := set_x; getattr_setattr _ _ := eq_refl |}.
Definition _y : attr t (option Z) :=
  {| attr_name := "y"; getattr self := Ok (y self);
     setattr := set_y; getattr_setattr _ _ := eq_refl |}.
Definition _repetition : attr t (option repetition_t) :=
  {| attr_name := "repetition"; getattr self := Ok (repetition self);
     setattr := set_repetition; getattr_setattr _ _ := eq_refl |}.
Definition _flip : attr t (bool) :=
  {| attr_name := "flip"; getattr self := Ok (flip self);
     setattr := set_flip; getattr_setattr _ _ := eq_refl |}.

#[global] Instance has_repetition : HasRepetition t :=
  {| rec_repetition := repetition; set_rec_repetition := set_repetition;
     rec_repetition_set _ _ := eq_refl |}.
#[global] Instance has_xy : HasXY t :=
  {| rec_x := x; set_rec_x := set_x; rec_y := y; set_rec_y := set_y;
     rec_x_set_x _ _ := eq_refl; rec_y_set_y _ _ := eq_refl;
     rec_x_set_y _ _ := eq_refl; rec_y_set_x _ _ := eq_refl |}.

Definition merge_with_modals (self : t) (modals : Modals.t)
    : result (t * Modals.t) :=
  let* (self, modals) := adjust_coordinates self modals Modals._placement_x Modals._placement_y in
  let* (self, modals) := adjust_repetition self modals in
  adjust_field self _name modals Modals._placement_cell.

Definition deduplicate_with_modals (self : t) (modals : Modals.t)
    : result (t * Modals.t) :=
  let* (self, modals) := dedup_coordinates self modals Modals._placement_x Modals._placement_y in
  let* (self, modals) := dedup_repetition self modals in
  dedup_field self _name modals Modals._placement_cell.

Definition write `{BasicCodec} (self : t) : io Z :=
  let C := is_not_None (name self) in
  let N := C && (match name self with
                 | Some (RefNumber _) => true
                 | _ => false
                 end) in
  let X := is_not_None (x self) in
  let Y := is_not_None (y self) in
  let R := is_not_None (repetition self) in
  let F := flip self in
  let+ (bools, M, A, record_id) :=
    if is_not_None (angle self)
       && match angle self with
          | Some a => bool_decide (real_mod a (real_of_Z 90) = real_of_Z 0)
          | None => false
          end
       && negb (is_not_None (magnification self))
       || match magnification self with
          | Some m => bool_decide (m = real_of_Z 1)
          | None => false
          end
    then
      match angle self with
      | None => io_raise TypeError
      | Some a =>
          let aa := real_to_int (real_mod (a / real_of_Z 90)%Qc (real_of_Z 4)) in
          io_ret ((C, N, X, Y, R, negb (Z.land aa 2 =? 0),
                   negb (Z.land aa 1 =? 0), F),
                  false, false, 17)
      end
    else
      let M := is_not_None (magnification self) in
      let A := is_not_None (angle self) in
      io_ret ((C, N, X, Y, R, M, A, F), M, A, 18) in
  let+ size := write_uint record_id in
  let+ n := write_bool_byte bools in let size := size + n in
  let+ n :=
    match name self with
    | Some (RefNumber ref) => write_uint ref
    | Some (RefNString _) => io_raise AttributeError
    | None => io_ret 0
    end in
  let size := size + n in
  let+ n := if M then write_if (magnification self) write_real else io_ret 0 in
  let size := size + n in
  let+ n := if A then write_if (angle self) write_real else io_ret 0 in
  let size := size + n in
  let+ n := write_if (x self) write_sint in let size := size + n in
  let+ n := write_if (y self) write_sint in let size := size + n in
  let+ n := write_if (repetition self) repetition_write in
  io_ret (size + n).
End Placement.

(** [Text] record (ID 19) *)
Module Text.
Record t : Type := mk {
  string : option refstring_t;
  layer : option Z;
  datatype : option Z;
  x : option Z;
  y : option Z;
  repetition : option repetition_t
}.

Definition set_string (self : t) (v : option refstring_t) : t :=
  mk v (layer self) (datatype self) (x self) (y self) (repetition self).
Definition set_layer (self : t) (v : option Z) : t :=
  mk (string self) v (datatype self) (x self) (y self) (repetition self).
Definition set_datatype (self : t) (v : option Z) : t :=
  mk (string self) (layer self) v (x self) (y self) (repetition self).
Definition set_x (self : t) (v : option Z) : t :=
  mk (string self) (layer self) (datatype self) v (y self) (repetition self).
Definition set_y (self : t) (v : option Z) : t :=
  mk (string self) (layer self) (datatype self) (x self) v (repetition self).
Definition set_repetition (self : t) (v : option repetition_t) : t :=
  mk (string self) (layer self) (datatype self) (x self) (y self) v.
#[global] Hint Unfold set_string set_layer set_datatype set_x set_y
  set_repetition : setters.

Definition _string : attr t (option refstring_t) :=
  {| attr_name := "string"; getattr self := Ok (string self);
     setattr := set_string; getattr_setattr _ _ := eq_refl |}.
Definition _layer : attr t (option Z) :=
  {| attr_name := "layer"; getattr self := Ok (layer self);
     setattr := set_layer; getattr_setattr _ _ := eq_refl |}.
Definition _datatype : attr t (option Z) :=
  {| attr_name := "datatype"; getattr self := Ok (datatype self);
     setattr := set_datatype; getattr_setattr _ _ := eq_refl |}.
Definition _x : attr t (option Z) :=
  {| attr_name := "x"; getattr self := Ok (x self);
     setattr := set_x; getattr_setattr _ _ := eq_refl |}.
Definition _y : attr t (option Z) :=
  {| attr_name := "y"; getattr self := Ok (y self);
     setattr := set_y; getattr_setattr _ _ := eq_refl |}.
Definition _repetition : attr t (option repetition_t) :=
  {| attr_name := "repetition"; getattr self := Ok (repetition self);
     setattr := set_repetition; getattr_setattr _ _ := eq_refl |}.

#[global] Instance has_repetition : HasRepetition t :=
  {| rec_repetition := repetition; set_rec_repetition := set_repetition;
     rec_repetition_set _ _ := eq_refl |}.
#[global] Instance has_xy : HasXY t :=
  {| rec_x := x; set_rec_x := set_x; rec_y := y; set_rec_y := set_y;
     rec_x_set_x _ _ := eq_refl; rec_y_set_y _ _ := eq_refl;
     rec_x_set_y _ _ := eq_refl; rec_y_set_x _ _ := eq_refl |}.

Definition merge_with_modals (self : t) (modals : Modals.t)
    : result (t * Modals.t) :=
  let* (self, modals) := adjust_coordinates self modals Modals._text_x Modals._text_y in
  let* (self, modals) := adjust_repetition self modals in
  let* (self, modals) := adjust_field self _string modals Modals._text_string in
  let* (self, modals) := adjust_field self _layer modals Modals._text_layer in
  adjust_field self _datatype modals Modals._text_datatype.

Definition deduplicate_with_modals (self : t) (modals : Modals.t)
    : result (t * Modals.t) :=
  let* (self, modals) := dedup_coordinates self modals Modals._text_x Modals._text_y in
  let* (self, modals) := dedup_repetition self modals in
  let* (self, modals) := dedup_field self _string modals Modals._text_string in
  let* (self, modals) := dedup_field self _layer modals Modals._text_layer in
  dedup_field self _datatype modals Modals._text_datatype.

Definition write `{BasicCodec} (self : t) : io Z :=
  let C := is_not_None (string self) in
  let N := C && (match string self with
                 | Some (StrNumber _) => true
                 | _ => false
                 end) in
  let X := is_not_None (x self) in
  let Y := is_not_None (y self) in
  let R := is_not_None (repetition self) in
  let D := is_not_None (datatype self) in
  let L := is_not_None (layer self) in
  let+ size := write_uint 19 in
  let+ n := write_bool_byte (false, C, N, X, Y, R, D, L) in
  let size := size + n in
  let+ n :=
    match string self with
    | Some (StrNumber ref) => write_uint ref
    | Some (StrAString _) => io_raise AttributeError
    | None => io_ret 0
    end in
  let size := size + n in
  let+ n := write_if (layer self) write_uint in let size := size + n in
  let+ n := write_if (datatype self) write_uint in let size := size + n in
  let+ n := write_if (x self) write_sint in let size := size + n in
  let+ n := write_if (y self) write_sint in let size := size + n in
  let+ n := write_if (repetition self) repetition_write in
  io_ret (size + n).
End Text.

(** [Rectangle] record (ID 20) *)
Module Rectangle.
Record t : Type := mk {
  layer : option Z;
  datatype : option Z;
  width : option Z;
  height : option Z;
  x : option Z;
  y : option Z;
  repetition : option repetition_t;
  is_square : bool
}.

Definition set_layer (self : t) (v : option Z) : t :=
  mk v (datatype self) (width self) (height self) (x self) (y self) (repetition self)
     (is_square self).
Definition set_datatype (self : t) (v : option Z) : t :=
  mk (layer self) v (width self) (height self) (x self) (y self) (repetition self)
     (is_square self).
Definition set_width (self : t) (v : option Z) : t :=
  mk (layer self) (datatype self) v (height self) (x self) (y self) (repetition self)
     (is_square self).
Definition set_height (self : t) (v : option Z) : t :=
  mk (layer self) (datatype self) (width self) v (x self) (y self) (repetition self)
     (is_square self).
Definition set_x (self : t) (v : option Z) : t :=
  mk (layer self) (datatype self) (width self) (height self) v (y self) (repetition self)
     (is_square self).
Definition set_y (self : t) (v : option Z) : t :=
  mk (layer self) (datatype self) (width self) (height self) (x self) v (repetition self)
     (is_square self).
Definition set_repetition (self : t) (v : option repetition_t) : t :=
  mk (layer self) (datatype self) (width self) (height self) (x self) (y self) v
     (is_square self).
Definition set_is_square (self : t) (v : bool) : t :=
  mk (layer self) (datatype self) (width self) (height self) (x self) (y self) (repetition
     self) v.
#[global] Hint Unfold set_layer set_datatype set_width set_height set_x
  set_y set_repetition set_is_square : setters.

Definition _layer : attr t (option Z) :=
  {| attr_name := "layer"; getattr self := Ok (layer self);
     setattr := set_layer; getattr_setattr _ _ := eq_refl |}.
Definition _datatype : attr t (option Z) :=
  {| attr_name := "datatype"; getattr self := Ok (datatype self);
     setattr := set_datatype; getattr_setattr _ _ := eq_refl |}.
Definition _width : attr t (option Z) :=
  {| attr_name := "width"; getattr self := Ok (width self);
     setattr := set_width; getattr_setattr _ _ := eq_refl |}.
Definition _height : attr t (option Z) :=
  {| attr_name := "height"; getattr self := Ok (height self);
     setattr := set_height; getattr_setattr _ _ := eq_refl |}.
Definition _x : attr t (option Z) :=
  {| attr_name := "x"; getattr self := Ok (x self);
     setattr := set_x; getattr_setattr _ _ := eq_refl |}.
Definition _y : attr t (option Z) :=
  {| attr_name := "y"; getattr self := Ok (y self);
     setattr := set_y; getattr_setattr _ _ := eq_refl |}.
Definition _repetition : attr t (option repetition_t) :=
  {| attr_name := "repetition"; getattr self := Ok (repetition self);
     setattr := set_repetition; getattr_setattr _ _ := eq_refl |}.
Definition _is_square : attr t (bool) :=
  {| attr_name := "is_square"; getattr self := Ok (is_square self);
     setattr := set_is_square; getattr_setattr _ _ := eq_refl |}.

#[global] Instance has_repetition : HasRepetition t :=
  {| rec_repetition := repetition; set_rec_repetition := set_repetition;
     rec_repetition_set _ _ := eq_refl |}.
#[global] Instance has_xy : HasXY t :=
  {| rec_x := x; set_rec_x := set_x; rec_y := y; set_rec_y := set_y;
     rec_x_set_x _ _ := eq_refl; rec_y_set_y _ _ := eq_refl;
     rec_x_set_y _ _ := eq_refl; rec_y_set_x _ _ := eq_refl |}.

Definition __init__ (is_square : bool) (layer datatype width height x y : option Z)
    (repetition : option repetition_t) : result t :=
  let self := mk layer datatype width height x y repetition is_square in
  if is_square && is_not_None height then
    Error (InvalidDataError "Rectangle is square and also has height")
  else Ok self.

Definition merge_with_modals (self : t) (modals : Modals.t)
    : result (t * Modals.t) :=
  let* (self, modals) := adjust_coordinates self modals Modals._geometry_x Modals._geometry_y in
  let* (self, modals) := adjust_repetition self modals in
  let* (self, modals) := adjust_field self _layer modals Modals._layer in
  let* (self, modals) := adjust_field self _datatype modals Modals._datatype in
  let* (self, modals) := adjust_field self _width modals Modals._geometry_w in
  if is_square self then
    adjust_field self _width modals Modals._geometry_h
  else
    adjust_field self _height modals Modals._geometry_h.

Definition deduplicate_with_modals (self : t) (modals : Modals.t)
    : result (t * Modals.t) :=
  let* (self, modals) := dedup_coordinates self modals Modals._geometry_x Modals._geometry_y in
  let* (self, modals) := dedup_repetition self modals in
  let* (self, modals) := dedup_field self _layer modals Modals._layer in
  let* (self, modals) := dedup_field self _datatype modals Modals._datatype in
  let* (self, modals) := dedup_field self _width modals Modals._geometry_w in
  if is_square self then
    dedup_field self _width modals Modals._geometry_h
  else
    dedup_field self _height modals Modals._geometry_h.

Definition read `{BasicCodec} (record_id : Z) : io t :=
  if negb (record_id =? 20) then
    io_raise (InvalidDataError
                ("Invalid record id for Rectangle: " +:+ pretty record_id))
  else
    let+ (is_square, W, H, X, Y, R, D, L) := read_bool_byte in
    let+ layer := read_if L read_uint in
    let+ datatype := read_if D read_uint in
    let+ width := read_if W read_uint in
    let+ height := read_if H read_uint in
    let+ x := read_if X read_sint in
    let+ y := read_if Y read_sint in
    let+ repetition := read_if R read_repetition in
    io_lift (__init__ is_square layer datatype width height x y repetition).

Definition write `{BasicCodec} (self : t) : io Z :=
  let S := is_square self in
  let W := is_not_None (width self) in
  let H := is_not_None (height self) in
  let X := is_not_None (x self) in
  let Y := is_not_None (y self) in
  let R := is_not_None (repetition self) in
  let D := is_not_None (datatype self) in
  let L := is_not_None (layer self) in
  let+ size := write_uint 20 in
  let+ n := write_bool_byte (S, W, H, X, Y, R, D, L) in let size := size + n in
  let+ n := write_if (layer self) write_uint in let size := size + n in
  let+ n := write_if (datatype self) write_uint in let size := size + n in
  let+ n := write_if (width self) write_uint in let size := size + n in
  let+ n := write_if (height self) write_uint in let size := size + n in
  let+ n := write_if (x self) write_sint in let size := size + n in
  let+ n := write_if (y self) write_sint in let size := size + n in
  let+ n := write_if (repetition self) repetition_write in
  io_ret (size + n).
End Rectangle.

(** [Polygon] record (ID 21) *)
Module Polygon.
Record t : Type := mk {
  layer : option Z;
  datatype : option Z;
  x : option Z;
  y : option Z;
  repetition : option repetition_t;
  point_list : option point_list_t
}.

Definition set_layer (self : t) (v : option Z) : t :=
  mk v (datatype self) (x self) (y self) (repetition self) (point_list self).
Definition set_datatype (self : t) (v : option Z) : t :=
  mk (layer self) v (x self) (y self) (repetition self) (point_list self).
Definition set_x (self : t) (v : option Z) : t :=
  mk (layer self) (datatype self) v (y self) (repetition self) (point_list self).
Definition set_y (self : t) (v : option Z) : t :=
  mk (layer self) (datatype self) (x self) v (repetition self) (point_list self).
Definition set_repetition (self : t) (v : option repetition_t) : t :=
  mk (layer self) (datatype self) (x self) (y self) v (point_list self).
Definition set_point_list (self : t) (v : option point_list_t) : t :=
  mk (layer self) (datatype self) (x self) (y self) (repetition self) v.
#[global] Hint Unfold set_layer set_datatype set_x set_y set_repetition
  set_point_list : setters.

Definition _layer : attr t (option Z) :=
  {| attr_name := "layer"; getattr self := Ok (layer self);
     setattr := set_layer; getattr_setattr _ _ := eq_refl |}.
Definition _datatype : attr t (option Z) :=
  {| attr_name := "datatype"; getattr self := Ok (datatype self);
     setattr := set_datatype; getattr_setattr _ _ := eq_refl |}.
Definition _x : attr t (option Z) :=
  {| attr_name := "x"; getattr self := Ok (x self);
     setattr := set_x; getattr_setattr _ _ := eq_refl |}.
Definition _y : attr t (option Z) :=
  {| attr_name := "y"; getattr self := Ok (y self);
     setattr := set_y; getattr_setattr _ _ := eq_refl |}.
Definition _repetition : attr t (option repetition_t) :=
  {| attr_name := "repetition"; getattr self := Ok (repetition self);
     setattr := set_repetition; getattr_setattr _ _ := eq_refl |}.
Definition _point_list : attr t (option point_list_t) :=
  {| attr_name := "point_list"; getattr self := Ok (point_list self);
     setattr := set_point_list; getattr_setattr _ _ := eq_refl |}.

#[global] Instance has_repetition : HasRepetition t :=
  {| rec_repetition := repetition; set_rec_repetition := set_repetition;
     rec_repetition_set _ _ := eq_refl |}.
#[global] Instance has_xy : HasXY t :=
  {| rec_x := x; set_rec_x := set_x; rec_y := y; set_rec_y := set_y;
     rec_x_set_x _ _ := eq_refl; rec_y_set_y _ _ := eq_refl;
     rec_x_set_y _ _ := eq_refl; rec_y_set_x _ _ := eq_refl |}.

Definition merge_with_modals (self : t) (modals : Modals.t)
    : result (t * Modals.t) :=
  let* (self, modals) := adjust_coordinates self modals Modals._geometry_x Modals._geometry_y in
  let* (self, modals) := adjust_repetition self modals in
  let* (self, modals) := adjust_field self _layer modals Modals._layer in
  let* (self, modals) := adjust_field self _datatype modals Modals._datatype in
  adjust_field self _point_list modals Modals._polygon_point_list.

Definition deduplicate_with_modals (self : t) (modals : Modals.t)
    : result (t * Modals.t) :=
  let* (self, modals) := dedup_coordinates self modals Modals._geometry_x Modals._geometry_y in
  let* (self, modals) := dedup_repetition self modals in
  let* (self, modals) := dedup_field self _layer modals Modals._layer in
  let* (self, modals) := dedup_field self _datatype modals Modals._datatype in
  dedup_field self _point_list modals Modals._polygon_point_list.

Definition __init__ (point_list : option point_list_t)
    (layer datatype x y : option Z) (repetition : option repetition_t)
    : result t :=
  let self := mk layer datatype x y repetition point_list in
  match point_list with
  | Some pl =>
      if Z.of_nat (length pl) <? 3 then
        Error (InvalidDataError "Polygon with < 3 points")
      else Ok self
  | None => Ok self
  end.

Definition read `{BasicCodec} (record_id : Z) : io t :=
  if negb (record_id =? 21) then
    io_raise (InvalidDataError
                ("Invalid record id for Polygon: " +:+ pretty record_id))
  else
    let+ (R0, R1, P, X, Y, R, D, L) := read_bool_byte in
    if R0 || R1 then io_raise (InvalidDataError "Invalid polygon header")
    else
      let+ layer := read_if L read_uint in
      let+ datatype := read_if D read_uint in
      let+ point_list := read_if P read_point_list in
      let+ x := read_if X read_sint in
      let+ y := read_if Y read_sint in
      let+ repetition := read_if R read_repetition in
      io_lift (__init__ point_list layer datatype x y repetition).

Definition write `{BasicCodec} (self : t) (fast : bool) : io Z :=
  let P := is_not_None (point_list self) in
  let X := is_not_None (x self) in
  let Y := is_not_None (y self) in
  let R := is_not_None (repetition self) in
  let D := is_not_None (datatype self) in
  let L := is_not_None (layer self) in
  let+ size := write_uint 21 in
  let+ n := write_bool_byte (false, false, P, X, Y, R, D, L) in
  let size := size + n in
  let+ n := write_if (layer self) write_uint in let size := size + n in
  let+ n := write_if (datatype self) write_uint in let size := size + n in
  let+ n := write_if (point_list self)
                     (fun pl => write_point_list pl true fast) in
  let size := size + n in
  let+ n := write_if (x self) write_sint in let size := size + n in
  let+ n := write_if (y self) write_sint in let size := size + n in
  let+ n := write_if (repetition self) repetition_write in
  io_ret (size + n).
End Polygon.

(** [Path] record (ID 22) *)
Module Path.
Record t : Type := mk {
  layer : option Z;
  datatype : option Z;
  x : option Z;
  y : option Z;
  repetition : option repetition_t;
  point_list : option point_list_t;
  half_width : option Z;
  extension_start : option pathextension_t;
  extension_end : option pathextension_t
}.

Definition set_layer (self : t) (v : option Z) : t :=
  mk v (datatype self) (x self) (y self) (repetition self) (point_list self) (half_width
     self) (extension_start self) (extension_end self).
Definition set_datatype (self : t) (v : option Z) : t :=
  mk (layer self) v (x self) (y self) (repetition self) (point_list self) (half_width
     self) (extension_start self) (extension_end self).
Definition set_x (self : t) (v : option Z) : t :=
  mk (layer self) (datatype self) v (y self) (repetition self) (point_list self)
     (half_width self) (extension_start self) (extension_end self).
Definition set_y (self : t) (v : option Z) : t :=
  mk (layer self) (datatype self) (x self) v (repetition self) (point_list self)
     (half_width self) (extension_start self) (extension_end self).
Definition set_repetition (self : t) (v : option repetition_t) : t :=
  mk (layer self) (datatype self) (x self) (y self) v (point_list self) (half_width self)
     (extension_start self) (extension_end self).
Definition set_point_list (self : t) (v : option point_list_t) : t :=
  mk (layer self) (datatype self) (x self) (y self) (repetition self) v (half_width self)
     (extension_start self) (extension_end self).
Definition set_half_width (self : t) (v : option Z) : t :=
  mk (layer self) (datatype self) (x self) (y self) (repetition self) (point_list self) v
     (extension_start self) (extension_end self).
Definition set_extension_start (self : t) (v : option pathextension_t) : t :=
  mk (layer self) (datatype self) (x self) (y self) (repetition self) (point_list self)
     (half_width self) v (extension_end self).
Definition set_extension_end (self : t) (v : option pathextension_t) : t :=
  mk (layer self) (datatype self) (x self) (y self) (repetition self) (point_list self)
     (half_width self) (extension_start self) v.
#[global] Hint Unfold set_layer set_datatype set_x set_y set_repetition
  set_point_list set_half_width set_extension_start set_extension_end :
  setters.

Definition _layer : attr t (option Z) :=
  {| attr_name := "layer"; getattr self := Ok (layer self);
     setattr := set_layer; getattr_setattr _ _ := eq_refl |}.
Definition _datatype : attr t (option Z) :=
  {| attr_name := "datatype"; getattr self := Ok (datatype self);
     setattr := set_datatype; getattr_setattr _ _ := eq_refl |}.
Definition _x : attr t (option Z) :=
  {| attr_name := "x"; getattr self := Ok (x self);
     setattr := set_x; getattr_setattr _ _ := eq_refl |}.
Definition _y : attr t (option Z) :=
  {| attr_name := "y"; getattr self := Ok (y self);
     setattr := set_y; getattr_setattr _ _ := eq_refl |}.
Definition _repetition : attr t (option repetition_t) :=
  {| attr_name := "repetition"; getattr self := Ok (repetition self);
     setattr := set_repetition; getattr_setattr _ _ := eq_refl |}.
Definition _point_list : attr t (option point_list_t) :=
  {| attr_name := "point_list"; getattr self := Ok (point_list self);
     setattr := set_point_list; getattr_setattr _ _ := eq_refl |}.
Definition _half_width : attr t (option Z) :=
  {| attr_name := "half_width"; getattr self := Ok (half_width self);
     setattr := set_half_width; getattr_setattr _ _ := eq_refl |}.
Definition _extension_start : attr t (option pathextension_t) :=
  {| attr_name := "extension_start"; getattr self := Ok (extension_start self);
     setattr := set_extension_start; getattr_setattr _ _ := eq_refl |}.
Definition _extension_end : attr t (option pathextension_t) :=
  {| attr_name := "extension_end"; getattr self := Ok (extension_end self);
     setattr := set_extension_end; getattr_setattr _ _ := eq_refl |}.

#[global] Instance has_repetition : HasRepetition t :=
  {| rec_repetition := repetition; set_rec_repetition := set_repetition;
     rec_repetition_set _ _ := eq_refl |}.
#[global] Instance has_xy : HasXY t :=
  {| rec_x := x; set_rec_x := set_x; rec_y := y; set_rec_y := set_y;
     rec_x_set_x _ _ := eq_refl; rec_y_set_y _ _ := eq_refl;
     rec_x_set_y _ _ := eq_refl; rec_y_set_x _ _ := eq_refl |}.

Definition merge_with_modals (self : t) (modals : Modals.t)
    : result (t * Modals.t) :=
  let* (self, modals) := adjust_coordinates self modals Modals._geometry_x Modals._geometry_y in
  let* (self, modals) := adjust_repetition self modals in
  let* (self, modals) := adjust_field self _layer modals Modals._layer in
  let* (self, modals) := adjust_field self _datatype modals Modals._datatype in
  let* (self, modals) := adjust_field self _point_list modals Modals._path_point_list in
  let* (self, modals) := adjust_field self _half_width modals Modals._path_half_width in
  let* (self, modals) := adjust_field self _extension_start modals Modals._path_extension_start in
  adjust_field self _extension_end modals Modals._path_extension_end.

Definition deduplicate_with_modals (self : t) (modals : Modals.t)
    : result (t * Modals.t) :=
  let* (self, modals) := dedup_coordinates self modals Modals._geometry_x Modals._geometry_y in
  let* (self, modals) := dedup_repetition self modals in
  let* (self, modals) := dedup_field self _layer modals Modals._layer in
  let* (self, modals) := dedup_field self _datatype modals Modals._datatype in
  let* (self, modals) := dedup_field self _point_list modals Modals._path_point_list in
  let* (self, modals) := dedup_field self _half_width modals Modals._path_half_width in
  let* (self, modals) := dedup_field self _extension_start modals Modals._path_extension_start in
  dedup_field self _extension_end modals Modals._path_extension_end.

Definition __init__ (point_list : option point_list_t) (half_width : option Z)
    (extension_start extension_end : option pathextension_t)
    (layer datatype x y : option Z) (repetition : option repetition_t) : t :=
  mk layer datatype x y repetition point_list half_width
     extension_start extension_end.

(** [get_pathext], the local function of [read] *)
Definition get_pathext (ext_scheme : Z) : io (option pathextension_t) :=
  if ext_scheme =? 0 then io_ret None
  else if ext_scheme =? 1 then io_ret (Some (Flush, None))
  else if ext_scheme =? 2 then io_ret (Some (HalfWidth, None))
  else if ext_scheme =? 3 then
    let+ v := read_sint in io_ret (Some (Arbitrary, Some v))
  else io_ret None.

Definition read `{BasicCodec} (record_id : Z) : io t :=
  if negb (record_id =? 22) then
    io_raise (InvalidDataError
                ("Invalid record id for Path: " +:+ pretty record_id))
  else
    let+ (E, W, P, X, Y, R, D, L) := read_bool_byte in
    let+ layer := read_if L read_uint in
    let+ datatype := read_if D read_uint in
    let+ half_width := read_if W read_uint in
    let+ (extension_start, extension_end) :=
      if E then
        let+ scheme := read_uint in
        let scheme_end := Z.land scheme 3 in
        let scheme_start := Z.land (Z.shiftr scheme 2) 3 in
        let+ ext_start := get_pathext scheme_start in
        let+ ext_end := get_pathext scheme_end in
        io_ret (ext_start, ext_end)
      else io_ret (None, None) in
    let+ point_list := read_if P read_point_list in
    let+ x := read_if X read_sint in
    let+ y := read_if Y read_sint in
    let+ repetition := read_if R read_repetition in
    io_ret (__init__ point_list half_width extension_start extension_end
                     layer datatype x y repetition).

(** [write_sint(stream, self.extension_start[1])]: the second component
    of the tuple is [None] unless the scheme is [Arbitrary]. *)
Definition write_sint_ext (ext : option pathextension_t) : io Z :=
  match ext with
  | Some (_, Some v) => write_sint v
  | _ => io_raise TypeError
  end.

Definition write `{BasicCodec} (self : t) (fast : bool) : io Z :=
  let E := is_not_None (extension_start self)
           || is_not_None (extension_end self) in
  let W := is_not_None (half_width self) in
  let P := is_not_None (point_list self) in
  let X := is_not_None (x self) in
  let Y := is_not_None (y self) in
  let R := is_not_None (repetition self) in
  let D := is_not_None (datatype self) in
  let L := is_not_None (layer self) in
  let+ size := write_uint 21 in
  let+ n := write_bool_byte (E, W, P, X, Y, R, D, L) in let size := size + n in
  let+ n := write_if (layer self) write_uint in let size := size + n in
  let+ n := write_if (datatype self) write_uint in let size := size + n in
  let+ n := write_if (half_width self) write_uint in let size := size + n in
  let+ n :=
    if E then
      let scheme := 0 in
      let scheme :=
        match extension_start self with
        | Some (s, _) => scheme + Z.shiftl (PathExtensionScheme_value s) 2
        | None => scheme
        end in
      let scheme :=
        match extension_end self with
        | Some (s, _) => scheme + PathExtensionScheme_value s
        | None => scheme
        end in
      let+ k := write_uint scheme in
      let+ k1 := if Z.land scheme 12 =? 12
                 then write_sint_ext (extension_start self) else io_ret 0 in
      let+ k2 := if Z.land scheme 3 =? 3
                 then write_sint_ext (extension_end self) else io_ret 0 in
      io_ret (k + k1 + k2)
    else io_ret 0 in
  let size := size + n in
  let+ n := write_if (point_list self)
                     (fun pl => write_point_list pl false fast) in
  let size := size + n in
  let+ n := write_if (x self) write_sint in let size := size + n in
  let+ n := write_if (y self) write_sint in let size := size + n in
  let+ n := write_if (repetition self) repetition_write in
  io_ret (size + n).
End Path.

(** [Trapezoid] record (ID 23, 24, 25) *)
Module Trapezoid.
Record t : Type := mk {
  layer : option Z;
  datatype : option Z;
  width : option Z;
  height : option Z;
  x : option Z;
  y : option Z;
  repetition : option repetition_t;
  delta_a : Z;
  delta_b : Z;
  is_vertical : bool
}.

Definition set_layer (self : t) (v : option Z) : t :=
  mk v (datatype self) (width self) (height self) (x self) (y self) (repetition self)
     (delta_a self) (delta_b self) (is_vertical self).
Definition set_datatype (self : t) (v : option Z) : t :=
  mk (layer self) v (width self) (height self) (x self) (y self) (repetition self)
     (delta_a self) (delta_b self) (is_vertical self).
Definition set_width (self : t) (v : option Z) : t :=
  mk (layer self) (datatype self) v (height self) (x self) (y self) (repetition self)
     (delta_a self) (delta_b self) (is_vertical self).
Definition set_height (self : t) (v : option Z) : t :=
  mk (layer self) (datatype self) (width self) v (x self) (y self) (repetition self)
     (delta_a self) (delta_b self) (is_vertical self).
Definition set_x (self : t) (v : option Z) : t :=
  mk (layer self) (datatype self) (width self) (height self) v (y self) (repetition self)
     (delta_a self) (delta_b self) (is_vertical self).
Definition set_y (self : t) (v : option Z) : t :=
  mk (layer self) (datatype self) (width self) (height self) (x self) v (repetition self)
     (delta_a self) (delta_b self) (is_vertical self).
Definition set_repetition (self : t) (v : option repetition_t) : t :=
  mk (layer self) (datatype self) (width self) (height self) (x self) (y self) v (delta_a
     self) (delta_b self) (is_vertical self).
Definition set_delta_a (self : t) (v : Z) : t :=
  mk (layer self) (datatype self) (width self) (height self) (x self) (y self) (repetition
     self) v (delta_b self) (is_vertical self).
Definition set_delta_b (self : t) (v : Z) : t :=
  mk (layer self) (datatype self) (width self) (height self) (x self) (y self) (repetition
     self) (delta_a self) v (is_vertical self).
Definition set_is_vertical (self : t) (v : bool) : t :=
  mk (layer self) (datatype self) (width self) (height self) (x self) (y self) (repetition
     self) (delta_a self) (delta_b self) v.
#[global] Hint Unfold set_layer set_datatype set_width set_height set_x
  set_y set_repetition set_delta_a set_delta_b set_is_vertical : setters.

Definition _layer : attr t (option Z) :=
  {| attr_name := "layer"; getattr self := Ok (layer self);
     setattr := set_layer; getattr_setattr _ _ := eq_refl |}.
Definition _datatype : attr t (option Z) :=
  {| attr_name := "datatype"; getattr self := Ok (datatype self);
     setattr := set_datatype; getattr_setattr _ _ := eq_refl |}.
Definition _width : attr t (option Z) :=
  {| attr_name := "width"; getattr self := Ok (width self);
     setattr := set_width; getattr_setattr _ _ := eq_refl |}.
Definition _height : attr t (option Z) :=
  {| attr_name := "height"; getattr self := Ok (height self);
     setattr := set_height; getattr_setattr _ _ := eq_refl |}.
Definition _x : attr t (option Z) :=
  {| attr_name := "x"; getattr self := Ok (x self);
     setattr := set_x; getattr_setattr _ _ := eq_refl |}.
Definition _y : attr t (option Z) :=
  {| attr_name := "y"; getattr self := Ok (y self);
     setattr := set_y; getattr_setattr _ _ := eq_refl |}.
Definition _repetition : attr t (option repetition_t) :=
  {| attr_name := "repetition"; getattr self := Ok (repetition self);
     setattr := set_repetition; getattr_setattr _ _ := eq_refl |}.
Definition _delta_a : attr t (Z) :=
  {| attr_name := "delta_a"; getattr self := Ok (delta_a self);
     setattr := set_delta_a; getattr_setattr _ _ := eq_refl |}.
Definition _delta_b : attr t (Z) :=
  {| attr_name := "delta_b"; getattr self := Ok (delta_b self);
     setattr := set_delta_b; getattr_setattr _ _ := eq_refl |}.
Definition _is_vertical : attr t (bool) :=
  {| attr_name := "is_vertical"; getattr self := Ok (is_vertical self);
     setattr := set_is_vertical; getattr_setattr _ _ := eq_refl |}.

#[global] Instance has_repetition : HasRepetition t :=
  {| rec_repetition := repetition; set_rec_repetition := set_repetition;
     rec_repetition_set _ _ := eq_refl |}.
#[global] Instance has_xy : HasXY t :=
  {| rec_x := x; set_rec_x := set_x; rec_y := y; set_rec_y := set_y;
     rec_x_set_x _ _ := eq_refl; rec_y_set_y _ _ := eq_refl;
     rec_x_set_y _ _ := eq_refl; rec_y_set_x _ _ := eq_refl |}.

Definition merge_with_modals (self : t) (modals : Modals.t)
    : result (t * Modals.t) :=
  let* (self, modals) := adjust_coordinates self modals Modals._geometry_x Modals._geometry_y in
  let* (self, modals) := adjust_repetition self modals in
  let* (self, modals) := adjust_field self _layer modals Modals._layer in
  let* (self, modals) := adjust_field self _datatype modals Modals._datatype in
  let* (self, modals) := adjust_field self _width modals Modals._geometry_w in
  adjust_field self _height modals Modals._geometry_h.

Definition deduplicate_with_modals (self : t) (modals : Modals.t)
    : result (t * Modals.t) :=
  let* (self, modals) := dedup_coordinates self modals Modals._geometry_x Modals._geometry_y in
  let* (self, modals) := dedup_repetition self modals in
  let* (self, modals) := dedup_field self _layer modals Modals._layer in
  let* (self, modals) := dedup_field self _datatype modals Modals._datatype in
  let* (self, modals) := dedup_field self _width modals Modals._geometry_w in
  dedup_field self _height modals Modals._geometry_h.

Definition __init__ (is_vertical : bool) (delta_a delta_b : Z)
    (layer datatype width height x y : option Z)
    (repetition : option repetition_t) : result t :=
  let self := mk layer datatype width height x y repetition
                 delta_a delta_b is_vertical in
  if is_vertical then
    match height with
    | Some h =>
        if h <? delta_b - delta_a then
          Error (InvalidDataError
                   ("Trapezoid: h < delta_b - delta_a ("
                    +:+ pretty h +:+ " < " +:+ pretty delta_b +:+ " - "
                    +:+ pretty delta_a +:+ ")"))
        else Ok self
    | None => Ok self
    end
  else
    match width with
    | Some w =>
        if w <? delta_b - delta_a then
          Error (InvalidDataError
                   ("Trapezoid: w < delta_b - delta_a ("
                    +:+ pretty w +:+ " < " +:+ pretty delta_b +:+ " - "
                    +:+ pretty delta_a +:+ ")"))
        else Ok self
    | None => Ok self
    end.

Definition read `{BasicCodec} (record_id : Z) : io t :=
  if negb (bool_decide (record_id ∈ [23; 24; 25])) then
    io_raise (InvalidDataError
                ("Invalid record id for Trapezoid: " +:+ pretty record_id))
  else
    let+ (is_vertical, W, H, X, Y, R, D, L) := read_bool_byte in
    let+ layer := read_if L read_uint in
    let+ datatype := read_if D read_uint in
    let+ width := read_if W read_uint in
    let+ height := read_if H read_uint in
    let+ delta_a := read_if (negb (record_id =? 25)) read_sint in
    let+ delta_b := read_if (negb (record_id =? 24)) read_sint in
    let+ x := read_if X read_sint in
    let+ y := read_if Y read_sint in
    let+ repetition := read_if R read_repetition in
    io_lift (__init__ is_vertical (default 0 delta_a) (default 0 delta_b)
                      layer datatype width height x y repetition).

Definition write `{BasicCodec} (self : t) : io Z :=
  let V := is_vertical self in
  let W := is_not_None (width self) in
  let H := is_not_None (height self) in
  let X := is_not_None (x self) in
  let Y := is_not_None (y self) in
  let R := is_not_None (repetition self) in
  let D := is_not_None (datatype self) in
  let L := is_not_None (layer self) in
  let record_id :=
    if delta_b self =? 0 then 24
    else if delta_a self =? 0 then 25
    else 23 in
  let+ size := write_uint record_id in
  let+ n := write_bool_byte (V, W, H, X, Y, R, D, L) in let size := size + n in
  let+ n := write_if (layer self) write_uint in let size := size + n in
  let+ n := write_if (datatype self) write_uint in let size := size + n in
  let+ n := write_if (width self) write_uint in let size := size + n in
  let+ n := write_if (height self) write_uint in let size := size + n in
  let+ n := if negb (record_id =? 25) then write_sint (delta_a self)
            else io_ret 0 in
  let size := size + n in
  let+ n := if negb (record_id =? 24) then write_sint (delta_b self)
            else io_ret 0 in
  let size := size + n in
  let+ n := write_if (x self) write_sint in let size := size + n in
  let+ n := write_if (y self) write_sint in let size := size + n in
  let+ n := write_if (repetition self) repetition_write in
  io_ret (size + n).
End Trapezoid.

(** [CTrapezoid] record (ID 26) *)
Module CTrapezoid.
Record t : Type := mk {
  ctrapezoid_type : option Z;
  layer : option Z;
  datatype : option Z;
  width : option Z;
  height : option Z;
  x : option Z;
  y : option Z;
  repetition : option repetition_t
}.

Definition set_ctrapezoid_type (self : t) (v : option Z) : t :=
  mk v (layer self) (datatype self) (width self) (height self) (x self) (y self)
     (repetition self).
Definition set_layer (self : t) (v : option Z) : t :=
  mk (ctrapezoid_type self) v (datatype self) (width self) (height self) (x self) (y self)
     (repetition self).
Definition set_datatype (self : t) (v : option Z) : t :=
  mk (ctrapezoid_type self) (layer self) v (width self) (height self) (x self) (y self)
     (repetition self).
Definition set_width (self : t) (v : option Z) : t :=
  mk (ctrapezoid_type self) (layer self) (datatype self) v (height self) (x self) (y self)
     (repetition self).
Definition set_height (self : t) (v : option Z) : t :=
  mk (ctrapezoid_type self) (layer self) (datatype self) (width self) v (x self) (y self)
     (repetition self).
Definition set_x (self : t) (v : option Z) : t :=
  mk (ctrapezoid_type self) (layer self) (datatype self) (width self) (height self) v (y
     self) (repetition self).
Definition set_y (self : t) (v : option Z) : t :=
  mk (ctrapezoid_type self) (layer self) (datatype self) (width self) (height self) (x
     self) v (repetition self).
Definition set_repetition (self : t) (v : option repetition_t) : t :=
  mk (ctrapezoid_type self) (layer self) (datatype self) (width self) (height self) (x
     self) (y self) v.
#[global] Hint Unfold set_ctrapezoid_type set_layer set_datatype set_width
  set_height set_x set_y set_repetition : setters.

Definition _ctrapezoid_type : attr t (option Z) :=
  {| attr_name := "ctrapezoid_type"; getattr self := Ok (ctrapezoid_type self);
     setattr := set_ctrapezoid_type; getattr_setattr _ _ := eq_refl |}.
Definition _layer : attr t (option Z) :=
  {| attr_name := "layer"; getattr self := Ok (layer self);
     setattr := set_layer; getattr_setattr _ _ := eq_refl |}.
Definition _datatype : attr t (option Z) :=
  {| attr_name := "datatype"; getattr self := Ok (datatype self);
     setattr := set_datatype; getattr_setattr _ _ := eq_refl |}.
Definition _width : attr t (option Z) :=
  {| attr_name := "width"; getattr self := Ok (width self);
     setattr := set_width; getattr_setattr _ _ := eq_refl |}.
Definition _height : attr t (option Z) :=
  {| attr_name := "height"; getattr self := Ok (height self);
     setattr := set_height; getattr_setattr _ _ := eq_refl |}.
Definition _x : attr t (option Z) :=
  {| attr_name := "x"; getattr self := Ok (x self);
     setattr := set_x; getattr_setattr _ _ := eq_refl |}.
Definition _y : attr t (option Z) :=
  {| attr_name := "y"; getattr self := Ok (y self);
     setattr := set_y; getattr_setattr _ _ := eq_refl |}.
Definition _repetition : attr t (option repetition_t) :=
  {| attr_name := "repetition"; getattr self := Ok (repetition self);
     setattr := set_repetition; getattr_setattr _ _ := eq_refl |}.

#[global] Instance has_repetition : HasRepetition t :=
  {| rec_repetition := repetition; set_rec_repetition := set_repetition;
     rec_repetition_set _ _ := eq_refl |}.
#[global] Instance has_xy : HasXY t :=
  {| rec_x := x; set_rec_x := set_x; rec_y := y; set_rec_y := set_y;
     rec_x_set_x _ _ := eq_refl; rec_y_set_y _ _ := eq_refl;
     rec_x_set_y _ _ := eq_refl; rec_y_set_x _ _ := eq_refl |}.

Definition __init__ (ctrapezoid_type layer datatype width height x y : option Z)
    (repetition : option repetition_t) : result t :=
  let self := mk ctrapezoid_type layer datatype width height x y repetition in
  let* _ :=
    if type_in ctrapezoid_type [20; 21] && is_not_None width then
      Error (InvalidDataError ("CTrapezoid has spurious width entry: "
                               +:+ pretty_opt width))
    else Ok () in
  let* _ :=
    if type_in ctrapezoid_type [16; 17; 18; 19; 22; 23; 25]
       && is_not_None height then
      Error (InvalidDataError ("CTrapezoid has spurious height entry: "
                               +:+ pretty_opt height))
    else Ok () in
  let* _ :=
    if type_in_range ctrapezoid_type 0 4 then
      let* c := py_lt width height in
      if c then Error (InvalidDataError
                         ("CTrapezoid has width < height ("
                          +:+ pretty_opt width +:+ " < "
                          +:+ pretty_opt height +:+ ")"))
      else Ok ()
    else Ok () in
  let* _ :=
    if type_in_range ctrapezoid_type 4 8 then
      let* h2 := py_mul 2 height in
      let* c := py_lt width h2 in
      if c then Error (InvalidDataError
                         ("CTrapezoid has width < 2*height ("
                          +:+ pretty_opt width +:+ " < 2 * "
                          +:+ pretty_opt height +:+ ")"))
      else Ok ()
    else Ok () in
  let* _ :=
    if type_in_range ctrapezoid_type 8 12 then
      let* c := py_lt height width in
      if c then Error (InvalidDataError
                         ("CTrapezoid has width > height ("
                          +:+ pretty_opt width +:+ " > "
                          +:+ pretty_opt height +:+ ")"))
      else Ok ()
    else Ok () in
  let* _ :=
    if type_in_range ctrapezoid_type 12 16 then
      let* w2 := py_mul 2 width in
      let* c := py_lt height w2 in
      if c then Error (InvalidDataError
                         ("CTrapezoid has 2*width > height ("
                          +:+ pretty_opt width +:+ " > 2 * "
                          +:+ pretty_opt height +:+ ")"))
      else Ok ()
    else Ok () in
  if is_not_None ctrapezoid_type
     && negb (type_in_range ctrapezoid_type 0 26) then
    Error (InvalidDataError ("CTrapezoid has invalid type: "
                             +:+ pretty_opt ctrapezoid_type))
  else Ok self.

Definition merge_with_modals (self : t) (modals : Modals.t)
    : result (t * Modals.t) :=
  let* (self, modals) := adjust_coordinates self modals Modals._geometry_x Modals._geometry_y in
  let* (self, modals) := adjust_repetition self modals in
  let* (self, modals) := adjust_field self _layer modals Modals._layer in
  let* (self, modals) := adjust_field self _datatype modals Modals._datatype in
  let* (self, modals) := adjust_field self _ctrapezoid_type modals Modals._ctrapezoid_type in
  let* (self, modals) :=
    if type_in (ctrapezoid_type self) [20; 21] then
      if is_not_None (width self) then
        Error (InvalidDataError ("CTrapezoid has spurious width entry: "
                                 +:+ pretty_opt (width self)))
      else Ok (self, modals)
    else adjust_field self _width modals Modals._geometry_w in
  if type_in (ctrapezoid_type self) [16; 17; 18; 19; 22; 23; 25] then
    if is_not_None (height self) then
      Error (InvalidDataError ("CTrapezoid has spurious height entry: "
                               +:+ pretty_opt (height self)))
    else Ok (self, modals)
  else adjust_field self _height modals Modals._geometry_h.

Definition deduplicate_with_modals (self : t) (modals : Modals.t)
    : result (t * Modals.t) :=
  let* (self, modals) := dedup_coordinates self modals Modals._geometry_x Modals._geometry_y in
  let* (self, modals) := dedup_repetition self modals in
  let* (self, modals) := dedup_field self _layer modals Modals._layer in
  let* (self, modals) := dedup_field self _datatype modals Modals._datatype in
  let* (self, modals) := dedup_field self _width modals Modals._geometry_w in
  let* (self, modals) := dedup_field self _height modals Modals._geometry_h in
  let* (self, modals) := dedup_field self _ctrapezoid_type modals Modals._ctrapezoid_type in
  let* (self, modals) :=
    if type_in (ctrapezoid_type self) [20; 21] then
      if is_not_None (width self) then
        Error (InvalidDataError ("CTrapezoid has spurious width entry: "
                                 +:+ pretty_opt (width self)))
      else Ok (self, modals)
    else dedup_field self _width modals Modals._geometry_w in
  if type_in (ctrapezoid_type self) [16; 17; 18; 19; 22; 23; 25] then
    if is_not_None (height self) then
      Error (InvalidDataError ("CTrapezoid has spurious height entry: "
                               +:+ pretty_opt (height self)))
    else Ok (self, modals)
  else dedup_field self _height modals Modals._geometry_h.

Definition read `{BasicCodec} (record_id : Z) : io t :=
  if negb (record_id =? 26) then
    io_raise (InvalidDataError
                ("Invalid record id for CTrapezoid: " +:+ pretty record_id))
  else
    let+ (T, W, H, X, Y, R, D, L) := read_bool_byte in
    let+ layer := read_if L read_uint in
    let+ datatype := read_if D read_uint in
    let+ ctrapezoid_type := read_if T read_uint in
    let+ width := read_if W read_uint in
    let+ height := read_if H read_uint in
    let+ x := read_if X read_sint in
    let+ y := read_if Y read_sint in
    let+ repetition := read_if R read_repetition in
    io_lift (__init__ ctrapezoid_type layer datatype width height x y
                      repetition).

Definition write `{BasicCodec} (self : t) : io Z :=
  let T := is_not_None (ctrapezoid_type self) in
  let W := is_not_None (width self) in
  let H := is_not_None (height self) in
  let X := is_not_None (x self) in
  let Y := is_not_None (y self) in
  let R := is_not_None (repetition self) in
  let D := is_not_None (datatype self) in
  let L := is_not_None (layer self) in
  let+ size := write_uint 26 in
  let+ n := write_bool_byte (T, W, H, X, Y, R, D, L) in let size := size + n in
  let+ n := write_if (layer self) write_uint in let size := size + n in
  let+ n := write_if (datatype self) write_uint in let size := size + n in
  let+ n := write_if (ctrapezoid_type self) write_uint in
  let size := size + n in
  let+ n := write_if (width self) write_uint in let size := size + n in
  let+ n := write_if (height self) write_uint in let size := size + n in
  let+ n := write_if (x self) write_sint in let size := size + n in
  let+ n := write_if (y self) write_sint in let size := size + n in
  let+ n := write_if (repetition self) repetition_write in
  io_ret (size + n).
End CTrapezoid.

(** [Circle] record (ID 27) *)
Module Circle.
Record t : Type := mk {
  layer : option Z;
  datatype : option Z;
  x : option Z;
  y : option Z;
  repetition : option repetition_t;
  radius : option Z
}.

Definition set_layer (self : t) (v : option Z) : t :=
  mk v (datatype self) (x self) (y self) (repetition self) (radius self).
Definition set_datatype (self : t) (v : option Z) : t :=
  mk (layer self) v (x self) (y self) (repetition self) (radius self).
Definition set_x (self : t) (v : option Z) : t :=
  mk (layer self) (datatype self) v (y self) (repetition self) (radius self).
Definition set_y (self : t) (v : option Z) : t :=
  mk (layer self) (datatype self) (x self) v (repetition self) (radius self).
Definition set_repetition (self : t) (v : option repetition_t) : t :=
  mk (layer self) (datatype self) (x self) (y self) v (radius self).
Definition set_radius (self : t) (v : option Z) : t :=
  mk (layer self) (datatype self) (x self) (y self) (repetition self) v.
#[global] Hint Unfold set_layer set_datatype set_x set_y set_repetition
  set_radius : setters.

Definition _layer : attr t (option Z) :=
  {| attr_name := "layer"; getattr self := Ok (layer self);
     setattr := set_layer; getattr_setattr _ _ := eq_refl |}.
Definition _datatype : attr t (option Z) :=
  {| attr_name := "datatype"; getattr self := Ok (datatype self);
     setattr := set_datatype; getattr_setattr _ _ := eq_refl |}.
Definition _x : attr t (option Z) :=
  {| attr_name := "x"; getattr self := Ok (x self);
     setattr := set_x; getattr_setattr _ _ := eq_refl |}.
Definition _y : attr t (option Z) :=
  {| attr_name := "y"; getattr self := Ok (y self);
     setattr := set_y; getattr_setattr _ _ := eq_refl |}.
Definition _repetition : attr t (option repetition_t) :=
  {| attr_name := "repetition"; getattr self := Ok (repetition self);
     setattr := set_repetition; getattr_setattr _ _ := eq_refl |}.
Definition _radius : attr t (option Z) :=
  {| attr_name := "radius"; getattr self := Ok (radius self);
     setattr := set_radius; getattr_setattr _ _ := eq_refl |}.

#[global] Instance has_repetition : HasRepetition t :=
  {| rec_repetition := repetition; set_rec_repetition := set_repetition;
     rec_repetition_set _ _ := eq_refl |}.
#[global] Instance has_xy : HasXY t :=
  {| rec_x := x; set_rec_x := set_x; rec_y := y; set_rec_y := set_y;
     rec_x_set_x _ _ := eq_refl; rec_y_set_y _ _ := eq_refl;
     rec_x_set_y _ _ := eq_refl; rec_y_set_x _ _ := eq_refl |}.

Definition merge_with_modals (self : t) (modals : Modals.t)
    : result (t * Modals.t) :=
  let* (self, modals) := adjust_coordinates self modals Modals._geometry_x Modals._geometry_y in
  let* (self, modals) := adjust_repetition self modals in
  let* (self, modals) := adjust_field self _layer modals Modals._layer in
  let* (self, modals) := adjust_field self _datatype modals Modals._datatype in
  adjust_field self _radius modals Modals._circle_radius.

Definition deduplicate_with_modals (self : t) (modals : Modals.t)
    : result (t * Modals.t) :=
  let* (self, modals) := dedup_coordinates self modals Modals._geometry_x Modals._geometry_y in
  let* (self, modals) := dedup_repetition self modals in
  let* (self, modals) := dedup_field self _layer modals Modals._layer in
  let* (self, modals) := dedup_field self _datatype modals Modals._datatype in
  dedup_field self _radius modals Modals._circle_radius.

Definition read `{BasicCodec} (record_id : Z) : io t :=
  if negb (record_id =? 27) then
    io_raise (InvalidDataError
                ("Invalid record id for Circle: " +:+ pretty record_id))
  else
    let+ (R0, R1, has_radius, X, Y, R, D, L) := read_bool_byte in
    if R0 || R1 then io_raise (InvalidDataError "Malformed circle header")
    else
      let+ layer := read_if L read_uint in
      let+ datatype := read_if D read_uint in
      let+ radius := read_if has_radius read_uint in
      let+ x := read_if X read_sint in
      let+ y := read_if Y read_sint in
      let+ repetition := read_if R read_repetition in
      io_ret (mk layer datatype x y repetition radius).

Definition write `{BasicCodec} (self : t) : io Z :=
  let S := is_not_None (radius self) in
  let X := is_not_None (x self) in
  let Y := is_not_None (y self) in
  let R := is_not_None (repetition self) in
  let D := is_not_None (datatype self) in
  let L := is_not_None (layer self) in
  let+ size := write_uint 27 in
  let+ n := write_bool_byte (false, false, S, X, Y, R, D, L) in
  let size := size + n in
  let+ n := write_if (layer self) write_uint in let size := size + n in
  let+ n := write_if (datatype self) write_uint in let size := size + n in
  let+ n := write_if (radius self) write_uint in let size := size + n in
  let+ n := write_if (x self) write_sint in let size := size + n in
  let+ n := write_if (y self) write_sint in let size := size + n in
  let+ n := write_if (repetition self) repetition_write in
  io_ret (size + n).
End Circle.

(** ** Any record

    [Record] is the abstract base class; a value of it is an instance of one
    of the classes above, and a method call dispatches on the class. *)
Inductive record : Type :=
  | Pad_ (r : Pad.t)
  | XYMode_ (r : XYMode.t)
  | Start_ (r : Start.t)
  | End_ (r : End_.t)
  | CBlock_ (r : CBlock.t)
  | CellName_ (r : CellName.t)
  | PropName_ (r : PropName.t)
  | TextString_ (r : TextString.t)
  | PropString_ (r : PropString.t)
  | LayerName_ (r : LayerName.t)
  | Property_ (r : Property.t)
  | XName_ (r : XName.t)
  | XElement_ (r : XElement.t)
  | XGeometry_ (r : XGeometry.t)
  | Cell_ (r : Cell.t)
  | Placement_ (r : Placement.t)
  | Text_ (r : Text.t)
  | Rectangle_ (r : Rectangle.t)
  | Polygon_ (r : Polygon.t)
  | Path_ (r : Path.t)
  | Trapezoid_ (r : Trapezoid.t)
  | CTrapezoid_ (r : CTrapezoid.t)
  | Circle_ (r : Circle.t).

Definition merge_with_modals (self : record) (modals : Modals.t)
    : result (record * Modals.t) :=
  match self with
  | Pad_ r =>
      let* (r, modals) := Pad.merge_with_modals r modals in Ok (Pad_ r, modals)
  | XYMode_ r =>
      let* (r, modals) := XYMode.merge_with_modals r modals in Ok (XYMode_ r, modals)
  | Start_ r =>
      let* (r, modals) := Start.merge_with_modals r modals in Ok (Start_ r, modals)
  | End_ r =>
      let* (r, modals) := End_.merge_with_modals r modals in Ok (End_ r, modals)
  | CBlock_ r =>
      let* (r, modals) := CBlock.merge_with_modals r modals in Ok (CBlock_ r, modals)
  | CellName_ r =>
      let* (r, modals) := CellName.merge_with_modals r modals in Ok (CellName_ r, modals)
  | PropName_ r =>
      let* (r, modals) := PropName.merge_with_modals r modals in Ok (PropName_ r, modals)
  | TextString_ r =>
      let* (r, modals) := TextString.merge_with_modals r modals in Ok (TextString_ r, modals)
  | PropString_ r =>
      let* (r, modals) := PropString.merge_with_modals r modals in Ok (PropString_ r, modals)
  | LayerName_ r =>
      let* (r, modals) := LayerName.merge_with_modals r modals in Ok (LayerName_ r, modals)
  | Property_ r =>
      let* (r, modals) := Property.merge_with_modals r modals in Ok (Property_ r, modals)
  | XName_ r =>
      let* (r, modals) := XName.merge_with_modals r modals in Ok (XName_ r, modals)
  | XElement_ r =>
      let* (r, modals) := XElement.merge_with_modals r modals in Ok (XElement_ r, modals)
  | XGeometry_ r =>
      let* (r, modals) := XGeometry.merge_with_modals r modals in Ok (XGeometry_ r, modals)
  | Cell_ r =>
      let* (r, modals) := Cell.merge_with_modals r modals in Ok (Cell_ r, modals)
  | Placement_ r =>
      let* (r, modals) := Placement.merge_with_modals r modals in Ok (Placement_ r, modals)
  | Text_ r =>
      let* (r, modals) := Text.merge_with_modals r modals in Ok (Text_ r, modals)
  | Rectangle_ r =>
      let* (r, modals) := Rectangle.merge_with_modals r modals in Ok (Rectangle_ r, modals)
  | Polygon_ r =>
      let* (r, modals) := Polygon.merge_with_modals r modals in Ok (Polygon_ r, modals)
  | Path_ r =>
      let* (r, modals) := Path.merge_with_modals r modals in Ok (Path_ r, modals)
  | Trapezoid_ r =>
      let* (r, modals) := Trapezoid.merge_with_modals r modals in Ok (Trapezoid_ r, modals)
  | CTrapezoid_ r =>
      let* (r, modals) := CTrapezoid.merge_with_modals r modals in Ok (CTrapezoid_ r, modals)
  | Circle_ r =>
      let* (r, modals) := Circle.merge_with_modals r modals in Ok (Circle_ r, modals)
  end.

Definition deduplicate_with_modals (self : record) (modals : Modals.t)
    : result (record * Modals.t) :=
  match self with
  | Pad_ r =>
      let* (r, modals) := Pad.deduplicate_with_modals r modals in Ok (Pad_ r, modals)
  | XYMode_ r =>
      let* (r, modals) := XYMode.deduplicate_with_modals r modals in Ok (XYMode_ r, modals)
  | Start_ r =>
      let* (r, modals) := Start.deduplicate_with_modals r modals in Ok (Start_ r, modals)
  | End_ r =>
      let* (r, modals) := End_.deduplicate_with_modals r modals in Ok (End_ r, modals)
  | CBlock_ r =>
      let* (r, modals) := CBlock.deduplicate_with_modals r modals in Ok (CBlock_ r, modals)
  | CellName_ r =>
      let* (r, modals) := CellName.deduplicate_with_modals r modals in Ok (CellName_ r, modals)
  | PropName_ r =>
      let* (r, modals) := PropName.deduplicate_with_modals r modals in Ok (PropName_ r, modals)
  | TextString_ r =>
      let* (r, modals) := TextString.deduplicate_with_modals r modals in Ok (TextString_ r, modals)
  | PropString_ r =>
      let* (r, modals) := PropString.deduplicate_with_modals r modals in Ok (PropString_ r, modals)
  | LayerName_ r =>
      let* (r, modals) := LayerName.deduplicate_with_modals r modals in Ok (LayerName_ r, modals)
  | Property_ r =>
      let* (r, modals) := Property.deduplicate_with_modals r modals in Ok (Property_ r, modals)
  | XName_ r =>
      let* (r, modals) := XName.deduplicate_with_modals r modals in Ok (XName_ r, modals)
  | XElement_ r =>
      let* (r, modals) := XElement.deduplicate_with_modals r modals in Ok (XElement_ r, modals)
  | XGeometry_ r =>
      let* (r, modals) := XGeometry.deduplicate_with_modals r modals in Ok (XGeometry_ r, modals)
  | Cell_ r =>
      let* (r, modals) := Cell.deduplicate_with_modals r modals in Ok (Cell_ r, modals)
  | Placement_ r =>
      let* (r, modals) := Placement.deduplicate_with_modals r modals in Ok (Placement_ r, modals)
  | Text_ r =>
      let* (r, modals) := Text.deduplicate_with_modals r modals in Ok (Text_ r, modals)
  | Rectangle_ r =>
      let* (r, modals) := Rectangle.deduplicate_with_modals r modals in Ok (Rectangle_ r, modals)
  | Polygon_ r =>
      let* (r, modals) := Polygon.deduplicate_with_modals r modals in Ok (Polygon_ r, modals)
  | Path_ r =>
      let* (r, modals) := Path.deduplicate_with_modals r modals in Ok (Path_ r, modals)
  | Trapezoid_ r =>
      let* (r, modals) := Trapezoid.deduplicate_with_modals r modals in Ok (Trapezoid_ r, modals)
  | CTrapezoid_ r =>
      let* (r, modals) := CTrapezoid.deduplicate_with_modals r modals in Ok (CTrapezoid_ r, modals)
  | Circle_ r =>
      let* (r, modals) := Circle.deduplicate_with_modals r modals in Ok (Circle_ r, modals)
  end.

(** ** Notions used to state the properties *)

(** The pairs of modal attributes [adjust_coordinates] is called with. *)
Definition coordinate_attrs : list (attr Modals.t Z * attr Modals.t Z) :=
  [ (Modals._placement_x, Modals._placement_y);
    (Modals._text_x, Modals._text_y);
    (Modals._geometry_x, Modals._geometry_y) ].

(** Both directions succeed, return the record as it was, and leave the
    bank [modals']. *)
Definition both_give (self : record) (modals modals' : Modals.t) : Prop :=
  merge_with_modals self modals = Ok (self, modals')
  /\ deduplicate_with_modals self modals = Ok (self, modals').

(** [rep] is not the [ReuseRepetition] marker. *)
Definition explicit_repetition (rep : option repetition_t) : bool :=
  match rep with
  | Some rep => negb (is_ReuseRepetition rep)
  | None => true
  end.

(** The records in which every attribute that the bank can supply is set,
    whose repetition, if any, is not the marker, and whose class is not one
    of [Path], [CTrapezoid] or the square [Rectangle]. *)
Definition fully_populated (self : record) : bool :=
  match self with
  | Pad_ _ | XYMode_ _ | Start_ _ | End_ _ | CBlock_ _ | CellName_ _
  | PropName_ _ | TextString_ _ | PropString_ _ | LayerName_ _ | XName_ _
  | XElement_ _ | Cell_ _ => true
  | Property_ r =>
      is_not_None (Property.name r) && is_not_None (Property.values r)
      && is_not_None (Property.is_standard r)
  | XGeometry_ r =>
      is_not_None (XGeometry.layer r) && is_not_None (XGeometry.datatype r)
      && is_not_None (XGeometry.x r) && is_not_None (XGeometry.y r)
      && explicit_repetition (XGeometry.repetition r)
  | Placement_ r =>
      is_not_None (Placement.name r)
      && is_not_None (Placement.x r) && is_not_None (Placement.y r)
      && explicit_repetition (Placement.repetition r)
  | Text_ r =>
      is_not_None (Text.string r)
      && is_not_None (Text.layer r) && is_not_None (Text.datatype r)
      && is_not_None (Text.x r) && is_not_None (Text.y r)
      && explicit_repetition (Text.repetition r)
  | Rectangle_ r =>
      negb (Rectangle.is_square r)
      && is_not_None (Rectangle.layer r) && is_not_None (Rectangle.datatype r)
      && is_not_None (Rectangle.width r) && is_not_None (Rectangle.height r)
      && is_not_None (Rectangle.x r) && is_not_None (Rectangle.y r)
      && explicit_repetition (Rectangle.repetition r)
  | Polygon_ r =>
      is_not_None (Polygon.layer r) && is_not_None (Polygon.datatype r)
      && is_not_None (Polygon.point_list r)
      && is_not_None (Polygon.x r) && is_not_None (Polygon.y r)
      && explicit_repetition (Polygon.repetition r)
  | Trapezoid_ r =>
      is_not_None (Trapezoid.layer r) && is_not_None (Trapezoid.datatype r)
      && is_not_None (Trapezoid.width r) && is_not_None (Trapezoid.height r)
      && is_not_None (Trapezoid.x r) && is_not_None (Trapezoid.y r)
      && explicit_repetition (Trapezoid.repetition r)
  | Circle_ r =>
      is_not_None (Circle.layer r) && is_not_None (Circle.datatype r)
      && is_not_None (Circle.radius r)
      && is_not_None (Circle.x r) && is_not_None (Circle.y r)
      && explicit_repetition (Circle.repetition r)
  | Path_ _ | CTrapezoid_ _ => false
  end.

(** Deduplicating [r] against [M] succeeds, and merging what is left of [r]
    against [M] succeeds and gives [r] back. *)
Definition roundtrip {R : Type}
    (dedup merge : R -> Modals.t -> result (R * Modals.t))
    (r : R) (M : Modals.t) : Prop :=
  match dedup r M with
  | Ok (r1, _) =>
      match merge r1 M with
      | Ok (r2, _) => r2 = r
      | Error _ => False
      end
  | Error _ => False
  end.


(** The repetition of a record, for the classes that have one. *)
Definition record_repetition (self : record) : option repetition_t :=
  match self with
  | XGeometry_ r => XGeometry.repetition r
  | Placement_ r => Placement.repetition r
  | Text_ r => Text.repetition r
  | Rectangle_ r => Rectangle.repetition r
  | Polygon_ r => Polygon.repetition r
  | Path_ r => Path.repetition r
  | Trapezoid_ r => Trapezoid.repetition r
  | CTrapezoid_ r => CTrapezoid.repetition r
  | Circle_ r => Circle.repetition r
  | _ => None
  end.

(** Every attribute that [merge_with_modals] of the record's class fills
    from the bank is set. *)
Definition modal_complete (self : record) : bool :=
  match self with
  | Property_ r =>
      is_not_None (Property.name r) && is_not_None (Property.values r)
      && is_not_None (Property.is_standard r)
  | XGeometry_ r =>
      is_not_None (XGeometry.layer r) && is_not_None (XGeometry.datatype r)
      && is_not_None (XGeometry.x r) && is_not_None (XGeometry.y r)
  | Placement_ r =>
      is_not_None (Placement.name r)
      && is_not_None (Placement.x r) && is_not_None (Placement.y r)
  | Text_ r =>
      is_not_None (Text.string r)
      && is_not_None (Text.layer r) && is_not_None (Text.datatype r)
      && is_not_None (Text.x r) && is_not_None (Text.y r)
  | Rectangle_ r =>
      is_not_None (Rectangle.layer r) && is_not_None (Rectangle.datatype r)
      && is_not_None (Rectangle.width r)
      && (Rectangle.is_square r || is_not_None (Rectangle.height r))
      && is_not_None (Rectangle.x r) && is_not_None (Rectangle.y r)
  | Polygon_ r =>
      is_not_None (Polygon.layer r) && is_not_None (Polygon.datatype r)
      && is_not_None (Polygon.point_list r)
      && is_not_None (Polygon.x r) && is_not_None (Polygon.y r)
  | Path_ r =>
      is_not_None (Path.layer r) && is_not_None (Path.datatype r)
      && is_not_None (Path.point_list r) && is_not_None (Path.half_width r)
      && is_not_None (Path.extension_start r)
      && is_not_None (Path.extension_end r)
      && is_not_None (Path.x r) && is_not_None (Path.y r)
  | Trapezoid_ r =>
      is_not_None (Trapezoid.layer r) && is_not_None (Trapezoid.datatype r)
      && is_not_None (Trapezoid.width r) && is_not_None (Trapezoid.height r)
      && is_not_None (Trapezoid.x r) && is_not_None (Trapezoid.y r)
  | CTrapezoid_ r =>
      is_not_None (CTrapezoid.layer r) && is_not_None (CTrapezoid.datatype r)
      && is_not_None (CTrapezoid.ctrapezoid_type r)
      && (type_in (CTrapezoid.ctrapezoid_type r) [20; 21]
          || is_not_None (CTrapezoid.width r))
      && (type_in (CTrapezoid.ctrapezoid_type r) [16; 17; 18; 19; 22; 23; 25]
          || is_not_None (CTrapezoid.height r))
      && is_not_None (CTrapezoid.x r) && is_not_None (CTrapezoid.y r)
  | Circle_ r =>
      is_not_None (Circle.layer r) && is_not_None (Circle.datatype r)
      && is_not_None (Circle.radius r)
      && is_not_None (Circle.x r) && is_not_None (Circle.y r)
  | _ => true
  end.

(** The classes whose [merge_with_modals] and [deduplicate_with_modals] call
    [modals.reset()]. *)
Definition resets_bank (self : record) : bool :=
  match self with
  | Start_ _ | CellName_ _ | PropName_ _ | TextString_ _ | PropString_ _
  | LayerName_ _ | XName_ _ | Cell_ _ => true
  | _ => false
  end.

Definition is_XYMode (self : record) : bool :=
  match self with
  | XYMode_ _ => true
  | _ => false
  end.

(** Deduplicating [r] against [M] succeeds, and merging what is left of [r]
    against [M] succeeds, gives [r] back and leaves the bank that the
    deduplication left. *)
Definition in_step {R : Type}
    (dedup merge : R -> Modals.t -> result (R * Modals.t))
    (r : R) (M : Modals.t) : Prop :=
  match dedup r M with
  | Ok (r1, M1) => merge r1 M = Ok (r, M1)
  | Error _ => False
  end.

Definition is_Property (self : record) : bool :=
  match self with
  | Property_ _ => true
  | _ => false
  end.

(** ** Writing, then reading *)

(** Whenever [writer] succeeds it has appended some bytes to the stream and
    returned [base] plus their number, and [reader], run on these bytes
    followed by anything, returns [a] and stops right after them. *)
Definition reads_back {A : Type}
    (base : Z) (writer : io Z) (reader : io A) (a : A) : Prop :=
  forall (s : stream) (n : Z) (s' : stream),
    writer s = Ok (n, s') ->
    exists bs : list byte,
      s' = s ++ bs
      /\ n = base + Z.of_nat (length bs)
      /\ forall rest : stream, reader (bs ++ rest) = Ok (a, rest).

(** The reader undoes the writer, for every value. *)
Definition round_trips {A : Type} (writer : A -> io Z) (reader : io A) : Prop :=
  forall a : A, reads_back 0 (writer a) reader a.

(** A record is read by reading its id and handing it to the class's
    [read]. *)
Definition read_record {R : Type} (read : Z -> io R) : io R :=
  let+ record_id := read_uint in read record_id.

(** [Record.dedup_write]: deduplicate against the bank, then write. *)
Definition dedup_write {R : Type}
    (deduplicate_with_modals : R -> Modals.t -> result (R * Modals.t))
    (write : R -> io Z) (self : R) (modals : Modals.t)
    : stream -> result (Z * stream * R * Modals.t) :=
  fun s =>
    let* (self, modals) := deduplicate_with_modals self modals in
    let* (size, s) := write self s in
    Ok (size, s, self, modals).

(** What [dedup_write] leaves on the stream is enough for a reader whose
    bank is in the state the writer's bank was in: it reads the
    deduplicated record back, and merging that record gives [self] and
    leaves the reader's bank as [dedup_write] left the writer's. *)
Definition recovers {R : Type}
    (deduplicate_with_modals merge_with_modals
       : R -> Modals.t -> result (R * Modals.t))
    (write : R -> io Z) (read : Z -> io R) (self : R) : Prop :=
  forall (modals : Modals.t) (s : stream) (n : Z) (s' : stream)
         (deduped : R) (modals' : Modals.t),
    dedup_write deduplicate_with_modals write self modals s
    = Ok (n, s', deduped, modals') ->
    exists bs : list byte,
      s' = s ++ bs
      /\ n = Z.of_nat (length bs)
      /\ (forall rest : stream,
             read_record read (bs ++ rest) = Ok (deduped, rest))
      /\ merge_with_modals deduped modals = Ok (self, modals').
(** * Properties *)

(** ** The helper functions *)

(** [coordinate_attrs] has three members. *)
Lemma coordinate_attrs_inv (mx_field my_field : attr Modals.t Z) :
  In (mx_field, my_field) coordinate_attrs ->
  (mx_field = Modals._placement_x /\ my_field = Modals._placement_y) \/
  (mx_field = Modals._text_x /\ my_field = Modals._text_y) \/
  (mx_field = Modals._geometry_x /\ my_field = Modals._geometry_y).
Proof.
  simpl. intros [H | [H | [H | []]]]; inversion H; auto.
Qed.

(** C3: [adjust_field] on a record attribute and a modal attribute that both
    exist has exactly three outcomes.  If the record attribute is set, the
    record is unchanged and the modal attribute now holds the record's
    value; otherwise, if the modal attribute is set, the bank is unchanged
    and the record attribute now holds the modal value; otherwise the call
    raises [InvalidDataError('Unfillable field: ...')]. *)
Theorem adjust_field_trichotomy {R A : Type}
    (record : R) (r_field : attr R (option A))
    (modals : Modals.t) (m_field : attr Modals.t (option A))
    (r m : option A) :
  getattr r_field record = Ok r ->
  getattr m_field modals = Ok m ->
  match r, m with
  | Some _, _ =>
      exists modals',
        adjust_field record r_field modals m_field = Ok (record, modals')
        /\ modals' = setattr m_field modals r
        /\ getattr m_field modals' = Ok r
  | None, Some _ =>
      exists record',
        adjust_field record r_field modals m_field = Ok (record', modals)
        /\ record' = setattr r_field record m
        /\ getattr r_field record' = Ok m
  | None, None =>
      adjust_field record r_field modals m_field
      = Error (InvalidDataError ("Unfillable field: " +:+ attr_name m_field))
  end.
Proof.
  intros Hr Hm. unfold adjust_field. rewrite Hr. simpl.
  destruct r as [rv|].
  - eexists. split; [reflexivity|]. split; [reflexivity|].
    apply getattr_setattr.
  - rewrite Hm. simpl. destruct m as [mv|].
    + eexists. split; [reflexivity|]. split; [reflexivity|].
      apply getattr_setattr.
    + reflexivity.
Qed.

Lemma adjust_field_trichotomy_witness :
  let record := Circle.mk None None None None None None in
  let modals := Modals.set_circle_radius Modals.new (Some 7) in
  exists record',
    adjust_field record Circle._radius modals Modals._circle_radius
    = Ok (record', modals)
    /\ record' = Circle.set_radius record (Some 7)
    /\ getattr Circle._radius record' = Ok (Some 7).
Proof.
  exact (adjust_field_trichotomy
           (Circle.mk None None None None None None) Circle._radius
           (Modals.set_circle_radius Modals.new (Some 7)) Modals._circle_radius
           None (Some 7) eq_refl eq_refl).
Defined.

(** C9: [adjust_repetition] raises exactly when the record's repetition is
    the [ReuseRepetition] marker and the modal repetition is unset, and the
    exception is [InvalidDataError('Unfillable repetition')]; with the modal
    set, the marker is replaced by the modal repetition and the bank is
    unchanged; any other repetition is stored in the bank and the record is
    unchanged; a record without repetition changes nothing. *)
Theorem adjust_repetition_spec {R : Type} `{HasRepetition R}
    (record : R) (modals : Modals.t) :
  match rec_repetition record, Modals.repetition modals with
  | Some ReuseRepetition, None =>
      adjust_repetition record modals
      = Error (InvalidDataError "Unfillable repetition")
  | Some ReuseRepetition, Some m =>
      exists record',
        adjust_repetition record modals = Ok (record', modals)
        /\ rec_repetition record' = Some m
  | Some rep, _ =>
      exists modals',
        adjust_repetition record modals = Ok (record, modals')
        /\ Modals.repetition modals' = Some rep
  | None, _ => adjust_repetition record modals = Ok (record, modals)
  end.
Proof.
  unfold adjust_repetition.
  destruct (rec_repetition record) as [[| |]|];
    destruct (Modals.repetition modals) eqn:Hm; simpl;
    try rewrite Hm; try reflexivity;
    eexists; (split; [reflexivity|]);
    try apply rec_repetition_set; reflexivity.
Qed.

(** *** What a successful call can have done *)

(** A sequence succeeds only if its first call does. *)
Lemma bind_Ok {A B : Type} (c : result A) (k : A -> result B) (b : B) :
  bind c k = Ok b -> exists a, c = Ok a /\ k a = Ok b.
Proof. destruct c as [a|e]; simpl; [eauto | discriminate]. Qed.

(** A successful [adjust_field] stored the record's value in the bank or
    the bank's value in the record. *)
Lemma adjust_field_inv {R A : Type}
    (record : R) (r_field : attr R (option A))
    (modals : Modals.t) (m_field : attr Modals.t (option A))
    (record' : R) (modals' : Modals.t) :
  adjust_field record r_field modals m_field = Ok (record', modals') ->
  (exists v, getattr r_field record = Ok (Some v)
             /\ record' = record
             /\ modals' = setattr m_field modals (Some v))
  \/ (exists v, getattr r_field record = Ok None
                /\ getattr m_field modals = Ok (Some v)
                /\ record' = setattr r_field record (Some v)
                /\ modals' = modals).
Proof.
  unfold adjust_field. intros H.
  apply bind_Ok in H. destruct H as (r & Hr & H).
  destruct r as [v|].
  - inversion H; subst. left. eauto.
  - apply bind_Ok in H. destruct H as (m & Hm & H).
    destruct m as [v|]; [|discriminate].
    inversion H; subst. right. eauto.
Qed.

(** A successful [adjust_repetition] did nothing, stored the record's
    repetition in the bank, or the bank's repetition in the record. *)
Lemma adjust_repetition_inv {R : Type} `{HasRepetition R}
    (record : R) (modals : Modals.t) (record' : R) (modals' : Modals.t) :
  adjust_repetition record modals = Ok (record', modals') ->
  (record' = record /\ modals' = modals)
  \/ (exists rep, record' = record
                  /\ modals' = Modals.set_repetition modals (Some rep))
  \/ (exists m, record' = set_rec_repetition record (Some m)
                /\ modals' = modals).
Proof.
  unfold adjust_repetition. intros Hc.
  destruct (rec_repetition record) as [rep|].
  - destruct (is_ReuseRepetition rep).
    + destruct (Modals.repetition modals) as [m|]; [|discriminate].
      inversion Hc; subst. right. right. eauto.
    + inversion Hc; subst. right. left. eauto.
  - inversion Hc; subst. left. auto.
Qed.

(** Splits a successful sequence of calls into its calls. *)
Ltac split_chain H :=
  repeat match type of H with
         | bind _ _ = Ok _ =>
             let a := fresh "st" in
             let Ha := fresh "Hstep" in
             apply bind_Ok in H; destruct H as (a & Ha & H);
             destruct a as [? ?]
         end.

(** Replaces each successful [adjust_field] / [adjust_repetition] call by
    the assignment it made. *)
Ltac invert_steps :=
  repeat match goal with
         | H : adjust_field _ _ _ _ = Ok _ |- _ =>
             apply adjust_field_inv in H;
             destruct H as [(? & ? & ? & ?) | (? & ? & ? & ? & ?)]; subst
         | H : adjust_repetition _ _ = Ok _ |- _ =>
             apply adjust_repetition_inv in H;
             destruct H as [(? & ?) | [(? & ? & ?) | (? & ? & ?)]]; subst
         end.

(** C4: for each of the attribute pairs it is called with,
    [adjust_coordinates] never raises, and treats [x] and [y] alike and
    independently: a set coordinate in relative mode gets the modal value
    added and leaves the bank alone; a set coordinate in absolute mode is
    stored in the bank; an unset coordinate is filled from the bank.  In
    particular a [Rectangle] with [x = 5] merged in relative mode against
    [geometry_x = 100] ends with [x = 105], and [geometry_x] is still 100. *)
Theorem adjust_coordinates_spec :
  (forall (R : Type) (HR : HasXY R) (record : R) (modals : Modals.t)
          (mx_field my_field : attr Modals.t Z),
      In (mx_field, my_field) coordinate_attrs ->
      exists record' modals' mx my,
        getattr mx_field modals = Ok mx
        /\ getattr my_field modals = Ok my
        /\ adjust_coordinates record modals mx_field my_field
           = Ok (record', modals')
        /\ rec_x record'
           = Some match rec_x record with
                  | Some rx => if Modals.xy_relative modals then rx + mx else rx
                  | None => mx
                  end
        /\ rec_y record'
           = Some match rec_y record with
                  | Some ry => if Modals.xy_relative modals then ry + my else ry
                  | None => my
                  end
        /\ getattr mx_field modals'
           = Ok match rec_x record with
                | Some rx => if Modals.xy_relative modals then mx else rx
                | None => mx
                end
        /\ getattr my_field modals'
           = Ok match rec_y record with
                | Some ry => if Modals.xy_relative modals then my else ry
                | None => my
                end
        /\ Modals.xy_relative modals' = Modals.xy_relative modals)
  /\
  (forall (r : Rectangle.t) (modals : Modals.t),
      Rectangle.x r = Some 5 ->
      Modals.xy_relative modals = true ->
      Modals.geometry_x modals = 100 ->
      (exists r1 modals1,
          adjust_coordinates r modals Modals._geometry_x Modals._geometry_y
          = Ok (r1, modals1)
          /\ Rectangle.x r1 = Some 105
          /\ Modals.geometry_x modals1 = 100)
      /\ (forall r' modals',
             Rectangle.merge_with_modals r modals = Ok (r', modals') ->
             Rectangle.x r' = Some 105 /\ Modals.geometry_x modals' = 100)).
Proof.
  assert (Hgen : forall (R : Type) (HR : HasXY R) (record : R) (modals : Modals.t)
          (mx_field my_field : attr Modals.t Z),
      In (mx_field, my_field) coordinate_attrs ->
      exists record' modals' mx my,
        getattr mx_field modals = Ok mx
        /\ getattr my_field modals = Ok my
        /\ adjust_coordinates record modals mx_field my_field
           = Ok (record', modals')
        /\ rec_x record'
           = Some match rec_x record with
                  | Some rx => if Modals.xy_relative modals then rx + mx else rx
                  | None => mx
                  end
        /\ rec_y record'
           = Some match rec_y record with
                  | Some ry => if Modals.xy_relative modals then ry + my else ry
                  | None => my
                  end
        /\ getattr mx_field modals'
           = Ok match rec_x record with
                | Some rx => if Modals.xy_relative modals then mx else rx
                | None => mx
                end
        /\ getattr my_field modals'
           = Ok match rec_y record with
                | Some ry => if Modals.xy_relative modals then my else ry
                | None => my
                end
        /\ Modals.xy_relative modals' = Modals.xy_relative modals).
  { intros R HR record modals mx_field my_field Hin.
    apply coordinate_attrs_inv in Hin.
    destruct Hin as [[-> ->] | [[-> ->] | [-> ->]]];
      unfold adjust_coordinates; simpl;
      destruct (rec_x record) as [rx|] eqn:Hx;
      destruct (rec_y record) as [ry|] eqn:Hy;
      destruct (Modals.xy_relative modals) eqn:Hrel; simpl;
      rewrite ?rec_y_set_x, ?Hy, ?Hrel; simpl;
      do 4 eexists;
      (split; [reflexivity|]); (split; [reflexivity|]);
      (split; [reflexivity|]);
      rewrite ?rec_x_set_y, ?rec_y_set_x, ?rec_x_set_x, ?rec_y_set_y, ?Hx, ?Hy;
      auto 10. }
  split; [exact Hgen|].
  intros r modals Hx Hrel Hgx.
  destruct (Hgen Rectangle.t _ r modals Modals._geometry_x Modals._geometry_y)
    as (r1 & m1 & mx & my & Hmx & Hmy & Hadj & Hx1 & _ & Hmx1 & _ & _).
  { simpl. auto. }
  simpl in Hmx, Hx1, Hmx1. rewrite Hx, Hrel in *.
  inversion Hmx; subst mx. rewrite Hgx in *. inversion Hmx1 as [Hg1].
  split.
  - exists r1, m1. auto.
  - intros r' modals' Hm. unfold Rectangle.merge_with_modals in Hm.
    rewrite Hadj in Hm. cbn [bind] in Hm.
    split_chain Hm.
    destruct (Rectangle.is_square _); invert_steps; cbn; auto.
Qed.

Lemma adjust_coordinates_spec_witness :
  Rectangle.merge_with_modals
    (Rectangle.mk (Some 1) (Some 2) (Some 30) (Some 40) (Some 5) (Some 6)
                  None false)
    (Modals.set_xy_relative (Modals.set_geometry_x Modals.new 100) true)
  = Ok (Rectangle.mk (Some 1) (Some 2) (Some 30) (Some 40) (Some 105) (Some 6)
                     None false,
        Modals.set_geometry_h
          (Modals.set_geometry_w
             (Modals.set_datatype
                (Modals.set_layer
                   (Modals.set_xy_relative
                      (Modals.set_geometry_x Modals.new 100) true)
                   (Some 1))
                (Some 2))
             (Some 30))
          (Some 40))
  /\ Rectangle.x
       (Rectangle.mk (Some 1) (Some 2) (Some 30) (Some 40) (Some 105) (Some 6)
                     None false) = Some 105
  /\ Modals.geometry_x
       (Modals.set_geometry_h
          (Modals.set_geometry_w
             (Modals.set_datatype
                (Modals.set_layer
                   (Modals.set_xy_relative
                      (Modals.set_geometry_x Modals.new 100) true)
                   (Some 1))
                (Some 2))
             (Some 30))
          (Some 40)) = 100.
Proof.
  split; [reflexivity|].
  exact (proj2 (proj2 adjust_coordinates_spec
                  (Rectangle.mk (Some 1) (Some 2) (Some 30) (Some 40) (Some 5)
                                (Some 6) None false)
                  (Modals.set_xy_relative (Modals.set_geometry_x Modals.new 100)
                                          true)
                  eq_refl eq_refl eq_refl)
               _ _ eq_refl).
Defined.

(** *** What a call leaves alone *)

(** After a successful [adjust_field] both attributes hold the same value. *)
Lemma adjust_field_fills {R A : Type}
    (record : R) (r_field : attr R (option A))
    (modals : Modals.t) (m_field : attr Modals.t (option A))
    (record' : R) (modals' : Modals.t) :
  adjust_field record r_field modals m_field = Ok (record', modals') ->
  exists v, getattr r_field record' = Ok (Some v)
            /\ getattr m_field modals' = Ok (Some v).
Proof.
  intros H. apply adjust_field_inv in H.
  destruct H as [(v & Hr & -> & ->) | (v & Hr & Hm & -> & ->)];
    exists v; rewrite ?getattr_setattr; auto.
Qed.

(** Whatever does not depend on the two attributes is as it was. *)
Lemma adjust_field_frame {R A B C : Type} (f : R -> B) (g : Modals.t -> C)
    (record : R) (r_field : attr R (option A))
    (modals : Modals.t) (m_field : attr Modals.t (option A))
    (record' : R) (modals' : Modals.t) :
  adjust_field record r_field modals m_field = Ok (record', modals') ->
  ((forall r v, f (setattr r_field r v) = f r) -> f record' = f record)
  /\ ((forall m v, g (setattr m_field m v) = g m) -> g modals' = g modals).
Proof.
  intros H. apply adjust_field_inv in H.
  destruct H as [(v & Hr & -> & ->) | (v & Hr & Hm & -> & ->)]; auto.
Qed.

Lemma adjust_repetition_frame {R B C : Type} `{HasRepetition R}
    (f : R -> B) (g : Modals.t -> C)
    (record : R) (modals : Modals.t) (record' : R) (modals' : Modals.t) :
  adjust_repetition record modals = Ok (record', modals') ->
  ((forall r v, f (set_rec_repetition r v) = f r) -> f record' = f record)
  /\ ((forall m v, g (Modals.set_repetition m v) = g m) -> g modals' = g modals).
Proof.
  intros Hc. apply adjust_repetition_inv in Hc.
  destruct Hc as [(-> & ->) | [(rep & -> & ->) | (m & -> & ->)]]; auto.
Qed.

Lemma adjust_coordinates_frame {R B C : Type} `{HasXY R}
    (f : R -> B) (g : Modals.t -> C)
    (record : R) (modals : Modals.t) (mx_field my_field : attr Modals.t Z)
    (record' : R) (modals' : Modals.t) :
  adjust_coordinates record modals mx_field my_field = Ok (record', modals') ->
  ((forall r v, f (set_rec_x r v) = f r) ->
   (forall r v, f (set_rec_y r v) = f r) -> f record' = f record)
  /\ ((forall m v, g (setattr mx_field m v) = g m) ->
      (forall m v, g (setattr my_field m v) = g m) -> g modals' = g modals).
Proof.
  unfold adjust_coordinates. intros Hc.
  apply bind_Ok in Hc. destruct Hc as ([r1 m1] & H1 & H2).
  assert (Hx : ((forall r v, f (set_rec_x r v) = f r) -> f r1 = f record)
               /\ ((forall m v, g (setattr mx_field m v) = g m) ->
                   g m1 = g modals)).
  { destruct (rec_x record) as [rx|].
    - destruct (Modals.xy_relative modals).
      + apply bind_Ok in H1. destruct H1 as (mx & _ & H1).
        inversion H1; subst. auto.
      + inversion H1; subst. auto.
    - apply bind_Ok in H1. destruct H1 as (mx & _ & H1).
      inversion H1; subst. auto. }
  assert (Hy : ((forall r v, f (set_rec_y r v) = f r) -> f record' = f r1)
               /\ ((forall m v, g (setattr my_field m v) = g m) ->
                   g modals' = g m1)).
  { destruct (rec_y r1) as [ry|].
    - destruct (Modals.xy_relative m1).
      + apply bind_Ok in H2. destruct H2 as (my & _ & H2).
        inversion H2; subst. auto.
      + inversion H2; subst. auto.
    - apply bind_Ok in H2. destruct H2 as (my & _ & H2).
      inversion H2; subst. auto. }
  destruct Hx as [Hx1 Hx2], Hy as [Hy1 Hy2].
  split; intros; [rewrite Hy1, Hx1 | rewrite Hy2, Hx2]; auto.
Qed.

(** ** Records and the bank *)

(** C5: merging or deduplicating a [Start], [CellName], [PropName],
    [TextString], [PropString], [LayerName], [XName] or [Cell] record leaves
    the bank that [reset] gives, in which every variable the class declares
    has the value it has in a new bank; [Pad], [End], [CBlock] and
    [XElement] leave the bank as it was in both directions; merging an
    [XYMode] sets [xy_relative] to the record's flag and changes nothing
    else, and deduplicating it leaves the bank as it was. *)
Theorem reset_and_transparent_records (modals : Modals.t) :
  ((forall r, both_give (Start_ r) modals (Modals.reset modals))
   /\ (forall r, both_give (CellName_ r) modals (Modals.reset modals))
   /\ (forall r, both_give (PropName_ r) modals (Modals.reset modals))
   /\ (forall r, both_give (TextString_ r) modals (Modals.reset modals))
   /\ (forall r, both_give (PropString_ r) modals (Modals.reset modals))
   /\ (forall r, both_give (LayerName_ r) modals (Modals.reset modals))
   /\ (forall r, both_give (XName_ r) modals (Modals.reset modals))
   /\ (forall r, both_give (Cell_ r) modals (Modals.reset modals)))
  /\ Modals.set_path_half_width (Modals.reset modals) None = Modals.new
  /\ ((forall r, both_give (Pad_ r) modals modals)
      /\ (forall r, both_give (End_ r) modals modals)
      /\ (forall r, both_give (CBlock_ r) modals modals)
      /\ (forall r, both_give (XElement_ r) modals modals))
  /\ (forall r,
         exists modals',
           merge_with_modals (XYMode_ r) modals = Ok (XYMode_ r, modals')
           /\ Modals.xy_relative modals' = XYMode.relative r
           /\ Modals.set_xy_relative modals' (Modals.xy_relative modals) = modals
           /\ deduplicate_with_modals (XYMode_ r) modals
              = Ok (XYMode_ r, modals)).
Proof.
  unfold both_give.
  repeat split; try reflexivity.
  intros r. eexists. split; [reflexivity|].
  destruct modals. repeat split; reflexivity.
Qed.

(** C7 (as the code has it): a square [Rectangle] is merged with
    [adjust_field] on [width] and [geometry_w], then on [width] and
    [geometry_h]; when the merge succeeds the record's width is set, its
    height is still unset, and both [geometry_w] and [geometry_h] hold the
    record's width. *)
Theorem Rectangle_merge_square
    (layer datatype width height x y : option Z)
    (repetition : option repetition_t) (self : Rectangle.t)
    (modals : Modals.t) :
  Rectangle.__init__ true layer datatype width height x y repetition = Ok self ->
  Rectangle.merge_with_modals self modals
  = (let* (self, modals) :=
       adjust_coordinates self modals Modals._geometry_x Modals._geometry_y in
     let* (self, modals) := adjust_repetition self modals in
     let* (self, modals) := adjust_field self Rectangle._layer modals Modals._layer in
     let* (self, modals) :=
       adjust_field self Rectangle._datatype modals Modals._datatype in
     let* (self, modals) :=
       adjust_field self Rectangle._width modals Modals._geometry_w in
     adjust_field self Rectangle._width modals Modals._geometry_h)
  /\ forall self' modals',
      Rectangle.merge_with_modals self modals = Ok (self', modals') ->
      exists w,
        Rectangle.width self' = Some w
        /\ Rectangle.height self' = None
        /\ Modals.geometry_w modals' = Some w
        /\ Modals.geometry_h modals' = Some w.
Proof.
  unfold Rectangle.__init__. intros Hinit.
  destruct height as [h|]; [discriminate|]. inversion Hinit; subst self; clear Hinit.
  set (self := Rectangle.mk layer datatype width None x y repetition true).
  assert (Hchain :
    Rectangle.merge_with_modals self modals
    = (let* (self, modals) :=
         adjust_coordinates self modals Modals._geometry_x Modals._geometry_y in
       let* (self, modals) := adjust_repetition self modals in
       let* (self, modals) :=
         adjust_field self Rectangle._layer modals Modals._layer in
       let* (self, modals) :=
         adjust_field self Rectangle._datatype modals Modals._datatype in
       let* (self, modals) :=
         adjust_field self Rectangle._width modals Modals._geometry_w in
       adjust_field self Rectangle._width modals Modals._geometry_h)).
  { unfold Rectangle.merge_with_modals.
    destruct (adjust_coordinates self modals _ _) as [[s1 m1]|] eqn:H1;
      [|reflexivity]. cbn [bind].
    destruct (adjust_repetition s1 m1) as [[s2 m2]|] eqn:H2; [|reflexivity].
    cbn [bind].
    destruct (adjust_field s2 _ m2 _) as [[s3 m3]|] eqn:H3; [|reflexivity].
    cbn [bind].
    destruct (adjust_field s3 _ m3 _) as [[s4 m4]|] eqn:H4; [|reflexivity].
    cbn [bind].
    destruct (adjust_field s4 _ m4 _) as [[s5 m5]|] eqn:H5; [|reflexivity].
    cbn [bind].
    apply (adjust_coordinates_frame Rectangle.is_square (fun _ => true)) in H1.
    apply (adjust_repetition_frame Rectangle.is_square (fun _ => true)) in H2.
    apply (adjust_field_frame Rectangle.is_square (fun _ => true)) in H3, H4, H5.
    destruct H1 as [H1 _], H2 as [H2 _], H3 as [H3 _], H4 as [H4 _],
             H5 as [H5 _].
    rewrite H5, H4, H3, H2, H1 by reflexivity. reflexivity. }
  split; [exact Hchain|].
  intros self' modals' Hm. rewrite Hchain in Hm. split_chain Hm.
  rename Hm into H6.
  pose proof (adjust_coordinates_frame Rectangle.height (fun _ => true)
                _ _ _ _ _ _ Hstep) as [F1 _].
  pose proof (adjust_repetition_frame Rectangle.height (fun _ => true)
                _ _ _ _ Hstep0) as [F2 _].
  pose proof (adjust_field_frame Rectangle.height (fun _ => true)
                _ _ _ _ _ _ Hstep1) as [F3 _].
  pose proof (adjust_field_frame Rectangle.height (fun _ => true)
                _ _ _ _ _ _ Hstep2) as [F4 _].
  pose proof (adjust_field_frame Rectangle.height (fun _ => true)
                _ _ _ _ _ _ Hstep3) as [F5 _].
  apply adjust_field_fills in Hstep3. destruct Hstep3 as (w & Hw & Hgw).
  cbn in Hw, Hgw. inversion Hw as [Hw']. inversion Hgw as [Hgw'].
  apply adjust_field_inv in H6.
  destruct H6 as [(v & Hr & -> & ->) | (v & Hr & _ & _ & _)];
    cbn in Hr; rewrite Hw' in Hr; [|discriminate].
  inversion Hr; subst v.
  exists w. cbn.
  rewrite F5, F4, F3, F2, F1 by reflexivity.
  auto.
Qed.

Lemma Rectangle_merge_square_witness :
  Rectangle.merge_with_modals
    (Rectangle.mk (Some 1) (Some 2) (Some 5) None (Some 0) (Some 0) None true)
    Modals.new
  = Ok (Rectangle.mk (Some 1) (Some 2) (Some 5) None (Some 0) (Some 0) None true,
        Modals.set_geometry_h
          (Modals.set_geometry_w
             (Modals.set_datatype (Modals.set_layer Modals.new (Some 1)) (Some 2))
             (Some 5))
          (Some 5))
  /\ exists w,
      Rectangle.width
        (Rectangle.mk (Some 1) (Some 2) (Some 5) None (Some 0) (Some 0) None true)
      = Some w
      /\ Rectangle.height
           (Rectangle.mk (Some 1) (Some 2) (Some 5) None (Some 0) (Some 0) None
                         true) = None
      /\ Modals.geometry_w
           (Modals.set_geometry_h
              (Modals.set_geometry_w
                 (Modals.set_datatype (Modals.set_layer Modals.new (Some 1))
                                      (Some 2))
                 (Some 5))
              (Some 5)) = Some w
      /\ Modals.geometry_h
           (Modals.set_geometry_h
              (Modals.set_geometry_w
                 (Modals.set_datatype (Modals.set_layer Modals.new (Some 1))
                                      (Some 2))
                 (Some 5))
              (Some 5)) = Some w.
Proof.
  split; [reflexivity|].
  apply (proj2 (Rectangle_merge_square
                  (Some 1) (Some 2) (Some 5) None (Some 0) (Some 0) None
                  (Rectangle.mk (Some 1) (Some 2) (Some 5) None (Some 0)
                                (Some 0) None true)
                  Modals.new eq_refl)).
  reflexivity.
Defined.

(** The claim C7 as the spec words it, that the merged square has
    [height = width], fails: the height of a merged square is unset. *)
Lemma Rectangle_merge_square_height_counterexample :
  exists self' modals',
    Rectangle.is_square
      (Rectangle.mk (Some 1) (Some 2) (Some 5) None (Some 0) (Some 0) None true)
    = true
    /\ Rectangle.merge_with_modals
         (Rectangle.mk (Some 1) (Some 2) (Some 5) None (Some 0) (Some 0) None true)
         Modals.new
       = Ok (self', modals')
    /\ Rectangle.width self' = Some 5
    /\ Rectangle.height self' = None
    /\ Rectangle.height self' <> Rectangle.width self'.
Proof.
  do 2 eexists. split; [reflexivity|]. split; [reflexivity|].
  cbn. repeat split; discriminate.
Qed.

(** ** Deduplicating, then merging *)

(** [roundtrip], spelled out. *)
Lemma roundtrip_inv {R : Type}
    (dedup merge : R -> Modals.t -> result (R * Modals.t))
    (r : R) (M : Modals.t) :
  roundtrip dedup merge r M ->
  exists r1 M1 M2, dedup r M = Ok (r1, M1) /\ merge r1 M = Ok (r, M2).
Proof.
  unfold roundtrip. destruct (dedup r M) as [[r1 M1]|]; [|intros []].
  destruct (merge r1 M) as [[r2 M2]|] eqn:Hm; [|intros []].
  intros <-. eauto.
Qed.

Ltac rt_simpl := cbn; autounfold with setters; cbn.

Ltac rt_case :=
  match goal with
  | |- context [@bool_decide _ ?d] =>
      destruct d as [?e|?n]; cbn [bool_decide];
      [try subst | rewrite ?andb_false_r]
  end.

Ltac rt_reuse :=
  repeat match goal with
         | H : is_ReuseRepetition _ = false |- _ => rewrite H
         end.

Ltac rt_solve :=
  rt_simpl; rt_reuse; rt_simpl;
  repeat (rt_case; rt_simpl; rt_reuse; rt_simpl);
  try congruence; try (repeat f_equal; lia).

(** Names the values of the set attributes, from [fully_populated]. *)
Ltac rt_intro H :=
  cbn in H;
  repeat match type of H with
         | (_ && _) = true => let H' := fresh "H" in
                              apply andb_prop in H; destruct H as [H H']
         end;
  repeat match goal with
         | H' : is_not_None ?o = true |- _ =>
             destruct o; [clear H' | discriminate H']
         | H' : negb ?b = true |- _ =>
             is_var b; destruct b; [discriminate H' | clear H']
         | H' : explicit_repetition ?o = true |- _ =>
             destruct o as [?rep|];
             [cbn in H'; apply negb_true_iff in H' | clear H']
         end.

Ltac rt_start M :=
  destruct M as [? ? ? ? ? ? ? ? ? ? ? ? ? rel ? ? ? ? ? ? ? ? ? ? ? ? ?];
  destruct rel.

(** One lemma per class: every comparison that dedup makes is decided, and
    the merge of what dedup leaves is computed. *)
Lemma Property_roundtrip (r : Property.t) (M : Modals.t) :
  fully_populated (Property_ r) = true ->
  roundtrip Property.deduplicate_with_modals Property.merge_with_modals r M.
Proof.
  intros H. destruct r. rt_intro H. rt_start M;
    unfold roundtrip, Property.deduplicate_with_modals,
      Property.merge_with_modals, dedup_field, adjust_field;
    rt_solve.
Qed.

Lemma XGeometry_roundtrip (r : XGeometry.t) (M : Modals.t) :
  fully_populated (XGeometry_ r) = true ->
  roundtrip XGeometry.deduplicate_with_modals XGeometry.merge_with_modals r M.
Proof.
  intros H. destruct r. rt_intro H. all: rt_start M.
  all: unfold roundtrip, XGeometry.deduplicate_with_modals,
      XGeometry.merge_with_modals, dedup_coordinates, dedup_repetition,
      dedup_field, adjust_coordinates, adjust_repetition, adjust_field.
  all: rt_solve.
Qed.

Lemma Placement_roundtrip (r : Placement.t) (M : Modals.t) :
  fully_populated (Placement_ r) = true ->
  roundtrip Placement.deduplicate_with_modals Placement.merge_with_modals r M.
Proof.
  intros H. destruct r. rt_intro H. all: rt_start M.
  all: unfold roundtrip, Placement.deduplicate_with_modals,
      Placement.merge_with_modals, dedup_coordinates, dedup_repetition,
      dedup_field, adjust_coordinates, adjust_repetition, adjust_field.
  all: rt_solve.
Qed.

Lemma Text_roundtrip (r : Text.t) (M : Modals.t) :
  fully_populated (Text_ r) = true ->
  roundtrip Text.deduplicate_with_modals Text.merge_with_modals r M.
Proof.
  intros H. destruct r. rt_intro H. all: rt_start M.
  all: unfold roundtrip, Text.deduplicate_with_modals,
      Text.merge_with_modals, dedup_coordinates, dedup_repetition,
      dedup_field, adjust_coordinates, adjust_repetition, adjust_field.
  all: rt_solve.
Qed.

Lemma Rectangle_roundtrip (r : Rectangle.t) (M : Modals.t) :
  fully_populated (Rectangle_ r) = true ->
  roundtrip Rectangle.deduplicate_with_modals Rectangle.merge_with_modals r M.
Proof.
  intros H. destruct r. rt_intro H. all: rt_start M.
  all: unfold roundtrip, Rectangle.deduplicate_with_modals,
      Rectangle.merge_with_modals, dedup_coordinates, dedup_repetition,
      dedup_field, adjust_coordinates, adjust_repetition, adjust_field.
  all: rt_solve.
Qed.

Lemma Polygon_roundtrip (r : Polygon.t) (M : Modals.t) :
  fully_populated (Polygon_ r) = true ->
  roundtrip Polygon.deduplicate_with_modals Polygon.merge_with_modals r M.
Proof.
  intros H. destruct r. rt_intro H. all: rt_start M.
  all: unfold roundtrip, Polygon.deduplicate_with_modals,
      Polygon.merge_with_modals, dedup_coordinates, dedup_repetition,
      dedup_field, adjust_coordinates, adjust_repetition, adjust_field.
  all: rt_solve.
Qed.

Lemma Trapezoid_roundtrip (r : Trapezoid.t) (M : Modals.t) :
  fully_populated (Trapezoid_ r) = true ->
  roundtrip Trapezoid.deduplicate_with_modals Trapezoid.merge_with_modals r M.
Proof.
  intros H. destruct r. rt_intro H. all: rt_start M.
  all: unfold roundtrip, Trapezoid.deduplicate_with_modals,
      Trapezoid.merge_with_modals, dedup_coordinates, dedup_repetition,
      dedup_field, adjust_coordinates, adjust_repetition, adjust_field.
  all: rt_solve.
Qed.

Lemma Circle_roundtrip (r : Circle.t) (M : Modals.t) :
  fully_populated (Circle_ r) = true ->
  roundtrip Circle.deduplicate_with_modals Circle.merge_with_modals r M.
Proof.
  intros H. destruct r. rt_intro H. all: rt_start M.
  all: unfold roundtrip, Circle.deduplicate_with_modals,
      Circle.merge_with_modals, dedup_coordinates, dedup_repetition,
      dedup_field, adjust_coordinates, adjust_repetition, adjust_field.
  all: rt_solve.
Qed.

(** C2 (as the code has it): for a fully populated record and any bank,
    deduplicating the record against the bank succeeds, and merging the
    deduplicated record against a bank in the same starting state succeeds
    and yields the original record. *)
Theorem merge_after_dedup (self : record) (modals : Modals.t) :
  fully_populated self = true ->
  exists deduped modals1 modals2,
    deduplicate_with_modals self modals = Ok (deduped, modals1)
    /\ merge_with_modals deduped modals = Ok (self, modals2).
Proof.
  intros Hfull.
  destruct self as [r|r|r|r|r|r|r|r|r|r|r|r|r|r|r|r|r|r|r|r|r|r|r];
    try discriminate Hfull;
    try (do 3 eexists; split; reflexivity);
    [ apply (Property_roundtrip r modals) in Hfull
    | apply (XGeometry_roundtrip r modals) in Hfull
    | apply (Placement_roundtrip r modals) in Hfull
    | apply (Text_roundtrip r modals) in Hfull
    | apply (Rectangle_roundtrip r modals) in Hfull
    | apply (Polygon_roundtrip r modals) in Hfull
    | apply (Trapezoid_roundtrip r modals) in Hfull
    | apply (Circle_roundtrip r modals) in Hfull ];
    apply roundtrip_inv in Hfull;
    destruct Hfull as (r1 & M1 & M2 & Hd & Hm);
    cbn [deduplicate_with_modals merge_with_modals];
    rewrite Hd; cbn [bind];
    do 3 eexists; (split; [reflexivity|]);
    cbn [merge_with_modals]; rewrite Hm; reflexivity.
Qed.

Lemma merge_after_dedup_witness :
  exists deduped modals1 modals2,
    deduplicate_with_modals
      (Circle_ (Circle.mk (Some 1) (Some 2) (Some 30) (Some 40) None (Some 5)))
      (Modals.set_circle_radius Modals.new (Some 5))
    = Ok (deduped, modals1)
    /\ merge_with_modals deduped (Modals.set_circle_radius Modals.new (Some 5))
       = Ok (Circle_ (Circle.mk (Some 1) (Some 2) (Some 30) (Some 40) None
                                (Some 5)),
             modals2).
Proof.
  exact (merge_after_dedup
           (Circle_ (Circle.mk (Some 1) (Some 2) (Some 30) (Some 40) None
                               (Some 5)))
           (Modals.set_circle_radius Modals.new (Some 5)) eq_refl).
Defined.

(** The claim C2 as the spec words it, for every record, fails: an unset
    attribute is still unset after dedup, and merge fills it from the bank. *)
Lemma merge_after_dedup_counterexample :
  exists deduped modals1 merged modals2,
    deduplicate_with_modals
      (Circle_ (Circle.mk (Some 1) (Some 2) (Some 30) (Some 40) None None))
      (Modals.set_circle_radius Modals.new (Some 5))
    = Ok (deduped, modals1)
    /\ merge_with_modals deduped (Modals.set_circle_radius Modals.new (Some 5))
       = Ok (merged, modals2)
    /\ merged
       = Circle_ (Circle.mk (Some 1) (Some 2) (Some 30) (Some 40) None (Some 5))
    /\ merged
       <> Circle_ (Circle.mk (Some 1) (Some 2) (Some 30) (Some 40) None None).
Proof.
  do 4 eexists. split; [reflexivity|]. split; [reflexivity|].
  split; [reflexivity|]. discriminate.
Qed.

(** ** Construction checks of [CTrapezoid] *)

Lemma ctrapezoid_type_cases (t : Z) :
  0 <= t <= 15 ->
  t = 0 \/ t = 1 \/ t = 2 \/ t = 3 \/ t = 4 \/ t = 5 \/ t = 6 \/ t = 7
  \/ t = 8 \/ t = 9 \/ t = 10 \/ t = 11 \/ t = 12 \/ t = 13 \/ t = 14
  \/ t = 15.
Proof. lia. Qed.

(** A type of 0 to 15 is in none of the tuples of triangle types. *)
Lemma type_in_small (t : Z) (vs : list Z) :
  0 <= t <= 15 -> Forall (fun v => 15 < v) vs -> type_in (Some t) vs = false.
Proof.
  intros Ht Hvs. unfold type_in. apply bool_decide_eq_false_2.
  intros Hin. rewrite Forall_forall in Hvs. apply Hvs in Hin. lia.
Qed.

Ltac each_ctrapezoid_type H :=
  apply ctrapezoid_type_cases in H;
  repeat (destruct H as [H | H]); subst.

(** C10: constructing a [CTrapezoid] of type 0 to 15 with [width] or
    [height] left unset raises [TypeError], which is not an
    [InvalidDataError]; so does reading one whose header announces the type
    but neither dimension.  The inequalities between width and height are
    checked by the constructor only: a record built without a type passes
    every check, and merging it against a bank whose [ctrapezoid_type] is 0
    to 15 succeeds with that type and the record's own width and height,
    whatever they are. *)
Theorem CTrapezoid_unset_dimension :
  (forall (t : Z) (layer datatype width height x y : option Z)
          (repetition : option repetition_t),
      0 <= t <= 15 ->
      width = None \/ height = None ->
      CTrapezoid.__init__ (Some t) layer datatype width height x y repetition
      = Error TypeError)
  /\ (forall msg, TypeError <> InvalidDataError msg)
  /\ (forall (codec : BasicCodec) (t : Z) (rest : stream),
         0 <= t <= 15 ->
         CTrapezoid.read 26 (128 :: t :: rest) = Error TypeError)
  /\ (forall (t l d w h x y : Z) (modals : Modals.t),
         0 <= t <= 15 ->
         Modals.ctrapezoid_type modals = Some t ->
         exists self self' modals',
           CTrapezoid.__init__ None (Some l) (Some d) (Some w) (Some h)
                               (Some x) (Some y) None = Ok self
           /\ CTrapezoid.merge_with_modals self modals = Ok (self', modals')
           /\ CTrapezoid.ctrapezoid_type self' = Some t
           /\ CTrapezoid.width self' = Some w
           /\ CTrapezoid.height self' = Some h).
Proof.
  split; [|split; [|split]].
  - intros t layer datatype width height x y repetition Ht Hnone.
    each_ctrapezoid_type Ht;
      destruct Hnone as [-> | ->];
      try destruct width; try destruct height; vm_compute; reflexivity.
  - discriminate.
  - intros codec t rest Ht.
    each_ctrapezoid_type Ht; vm_compute; reflexivity.
  - intros t l d w h x y modals Ht Hm.
    assert (H1 : type_in (Some t) [20; 21] = false)
      by (apply type_in_small; [assumption | repeat constructor; lia]).
    assert (H2 : type_in (Some t) [16; 17; 18; 19; 22; 23; 25] = false)
      by (apply type_in_small; [assumption | repeat constructor; lia]).
    destruct modals as [? ? ? ? ? ? ? ? ? ? ? ? ? rel ? ? ? ? ? ? ? ? ? ? ? ? ?].
    cbn in Hm. subst.
    unfold CTrapezoid.merge_with_modals, adjust_coordinates, adjust_repetition,
      adjust_field.
    destruct rel; do 3 eexists; (split; [reflexivity|]);
      cbn -[type_in]; rewrite H1; cbn -[type_in]; rewrite H2; cbn;
      (split; [reflexivity|]); cbn; auto.
Qed.

Lemma CTrapezoid_unset_dimension_witness :
  CTrapezoid.__init__ (Some 0) (Some 1) (Some 2) None (Some 3) None None None
  = Error TypeError.
Proof.
  exact (proj1 CTrapezoid_unset_dimension 0 (Some 1) (Some 2) None (Some 3)
               None None None
               (conj (Z.le_refl 0) (Zle_bool_imp_le 0 15 eq_refl))
               (or_introl eq_refl)).
Defined.

(** ** The wire form *)

(** C1 (what the code does at a [Path] with every attribute unset):
    [Path.write] writes record id 21, the id of [Polygon], where the class
    and [Path.read] have 22; [Path.read] refuses the id that [Path.write]
    wrote. *)
Theorem Path_write_record_id `{BasicCodec} :
  Path.write (Path.__init__ None None None None None None None None None)
             false []
  = Ok (2, [21; 0])
  /\ (forall s, Path.read 21 s
                = Error (InvalidDataError "Invalid record id for Path: 21"))
  /\ Path.read 22 [0]
     = Ok (Path.__init__ None None None None None None None None None, []).
Proof.
  split; [|split]; try intros s; vm_compute; reflexivity.
Qed.

(** In [Placement.write] a name given as an [NString] is written with
    [self.name.write(self)], and the call raises [AttributeError]. *)
Lemma Placement_write_literal_name `{BasicCodec} :
  Placement.write
    (Placement.mk (Some (RefNString "top")) None (Some (real_of_Z 90))
                  None None None false) []
  = Error AttributeError.
Proof. vm_compute. reflexivity. Qed.

(** In [Property.write] a list of 15 values or more is announced with
    [write_uint(stream, self.name)] instead of its length: with the name
    left to the bank the call raises [TypeError]. *)
Lemma Property_write_long_count `{BasicCodec} (v : property_value_t) :
  Property.write (Property.mk None (Some (replicate 15 v)) (Some true)) []
  = Error TypeError.
Proof. vm_compute. reflexivity. Qed.

(** C6 (what the code does at magnification 1): with magnification 1 and an
    angle of 45 degrees [Placement.write] writes record id 17 with both
    angle bits clear, as it does for an angle of 0; with magnification 1 and
    no angle it raises [TypeError]; with no magnification and an angle of
    270 degrees it writes record id 17 with both angle bits set. *)
Theorem Placement_write_magnification_1 `{BasicCodec} :
  Placement.write
    (Placement.mk None (Some (real_of_Z 1)) (Some (real_of_Z 45))
                  None None None false) []
  = Ok (2, [17; 0])
  /\ Placement.write
       (Placement.mk None (Some (real_of_Z 1)) (Some (real_of_Z 0))
                     None None None false) []
     = Ok (2, [17; 0])
  /\ Placement.write
       (Placement.mk None (Some (real_of_Z 1)) None None None None false) []
     = Error TypeError
  /\ Placement.write
       (Placement.mk None None (Some (real_of_Z 270)) None None None false) []
     = Ok (2, [17; 6]).
Proof.
  repeat split; vm_compute; reflexivity.
Qed.

(** *** Writers append *)

(** [write_uint] and [OffsetTable.write] append to the stream whatever they
    write to an empty one, and return the number of bytes appended. *)
Lemma write_uint_appends (n : Z) (s : stream) :
  write_uint n s
  = match write_uint n [] with
    | Ok (k, bs) => Ok (k, s ++ bs)
    | Error e => Error e
    end.
Proof. unfold write_uint. destruct (n <? 0); reflexivity. Qed.

Lemma write_uint_size (n k : Z) (bs : list byte) :
  write_uint n [] = Ok (k, bs) -> k = Z.of_nat (length bs).
Proof.
  unfold write_uint. destruct (n <? 0); [discriminate|].
  unfold stream_write. intros Hw. inversion Hw. reflexivity.
Qed.

Lemma OffsetTable_write_appends (table : OffsetTable.t) (s : stream) :
  OffsetTable.write table s
  = match OffsetTable.write table [] with
    | Ok (k, bs) => Ok (k, s ++ bs)
    | Error e => Error e
    end.
Proof.
  destruct table as [a b c d e f].
  unfold OffsetTable.write, write_uint, io_bind, io_ret, io_raise, stream_write.
  cbn [OffsetTable.cellnames OffsetTable.textstrings OffsetTable.propnames
       OffsetTable.propstrings OffsetTable.layernames OffsetTable.xnames].
  destruct (a <? 0); [reflexivity|].
  destruct (b <? 0); [reflexivity|].
  destruct (c <? 0); [reflexivity|].
  destruct (d <? 0); [reflexivity|].
  destruct (e <? 0); [reflexivity|].
  destruct (f <? 0); [reflexivity|].
  cbn [app]. rewrite <- !app_assoc. reflexivity.
Qed.

Lemma OffsetTable_write_size (table : OffsetTable.t) (k : Z) (bs : list byte) :
  OffsetTable.write table [] = Ok (k, bs) -> k = Z.of_nat (length bs).
Proof.
  destruct table as [a b c d e f].
  unfold OffsetTable.write, write_uint, io_bind, io_ret, io_raise, stream_write.
  cbn [OffsetTable.cellnames OffsetTable.textstrings OffsetTable.propnames
       OffsetTable.propstrings OffsetTable.layernames OffsetTable.xnames].
  destruct (a <? 0); [discriminate|].
  destruct (b <? 0); [discriminate|].
  destruct (c <? 0); [discriminate|].
  destruct (d <? 0); [discriminate|].
  destruct (e <? 0); [discriminate|].
  destruct (f <? 0); [discriminate|].
  cbn [app]. intros Hw. inversion Hw.
  rewrite !length_app. lia.
Qed.

(** The padding decodes as the unsigned integer 0. *)
Lemma read_uint_padding (k : nat) (rest : stream) (shift : Z) :
  read_uint_loop (replicate k 128 ++ 0 :: rest) shift 0 = Ok (0, rest).
Proof.
  revert shift. induction k as [|k IH]; intros shift; cbn [replicate app].
  - cbn [read_uint_loop]. change (Z.land 0 127) with 0.
    rewrite Z.shiftl_0_l. reflexivity.
  - cbn [read_uint_loop]. change (Z.land 128 127) with 0.
    rewrite Z.shiftl_0_l. change (Z.testbit 128 7) with true.
    cbn iota. apply IH.
Qed.

(** C8 (as the code has it): when the id byte, the offset table if there is
    one, and the validation bytes together take less than 256 bytes,
    [End.write] appends exactly 256 bytes: the id 2, the offset table, a
    padding of [0x80] bytes closed by a zero byte, which reads back as an
    empty byte string, and the validation bytes; and it returns 256. *)
Theorem End_write_padded (self : End_.t) (s : stream) (n k : Z)
    (table_bytes validation_bytes : list byte) :
  write_if (End_.offset_table self) OffsetTable.write [] = Ok (n, table_bytes) ->
  Validation.write (End_.validation self) [] = Ok (k, validation_bytes) ->
  (1 + length table_bytes + length validation_bytes < 256)%nat ->
  exists pad,
    End_.write self s
    = Ok (256, s ++ [2] ++ table_bytes ++ pad ++ validation_bytes)
    /\ length ([2] ++ table_bytes ++ pad ++ validation_bytes) = 256%nat
    /\ forall rest, read_bstring (pad ++ rest) = Ok ([], rest).
Proof.
  intros Htable Hval Hlen.
  set (pad_len := 256 - (1 + Z.of_nat (length table_bytes))
                  - Z.of_nat (length validation_bytes)).
  exists (replicate (Z.to_nat (pad_len - 1)) 128 ++ [0]).
  assert (Hn : n = Z.of_nat (length table_bytes)).
  { destruct (End_.offset_table self) as [table|]; cbn [write_if] in Htable.
    - eapply OffsetTable_write_size; eassumption.
    - inversion Htable. reflexivity. }
  split; [|split].
  - assert (Hpos : (0 <? pad_len) = true)
      by (apply Z.ltb_lt; unfold pad_len; lia).
    assert (Hrest : forall s0,
      match
        io_lift
          (bind (Validation.write (End_.validation self) [])
                (fun '(_, buf) => Ok buf))
          (s0 ++ table_bytes)
      with
      | Ok (a, s') =>
          match
            (if 0 <? 256 - (1 + n) - Z.of_nat (length a)
             then
               stream_write
                 (replicate
                    (Z.to_nat (256 - (1 + n) - Z.of_nat (length a) - 1)) 128
                  ++ [0])
             else io_ret 0) s'
          with
          | Ok (_, s'0) =>
              match stream_write a s'0 with
              | Ok (_, s'1) => io_ret 256 s'1
              | Error e => Error e
              end
          | Error e => Error e
          end
      | Error e => Error e
      end
      = Ok (256,
            s0 ++ table_bytes
            ++ (replicate (Z.to_nat (pad_len - 1)) 128 ++ [0])
            ++ validation_bytes)).
    { intros s0. unfold io_lift. rewrite Hval. cbn [bind]. cbn iota.
      rewrite Hn. fold pad_len. rewrite Hpos.
      unfold stream_write, io_ret. rewrite <- !app_assoc. reflexivity. }
    unfold End_.write.
    destruct (End_.offset_table self) as [table|]; cbn [write_if] in Htable;
      unfold io_bind;
      change (write_uint 2 s) with (Ok (1, s ++ [2]) : result (Z * stream));
      cbn iota.
    + rewrite OffsetTable_write_appends, Htable. cbn iota.
      unfold io_ret at 1. cbn iota.
      rewrite Hrest, <- !app_assoc. reflexivity.
    + inversion Htable; subst n table_bytes.
      unfold io_ret at 1. cbn iota.
      specialize (Hrest (s ++ [2])). rewrite app_nil_r in Hrest.
      rewrite Z.add_0_r in Hrest.
      rewrite Hrest, <- !app_assoc. reflexivity.
  - rewrite !length_app, length_replicate. cbn [length].
    unfold pad_len. lia.
  - intros rest. unfold read_bstring, io_bind, read_uint.
    rewrite <- app_assoc. cbn [app].
    rewrite read_uint_padding.
    assert (Hle : (0 <=? Z.of_nat (length rest)) = true)
      by (apply Z.leb_le; lia).
    rewrite Hle. reflexivity.
Qed.

Lemma End_write_padded_witness :
  exists pad,
    End_.write (End_.mk None (Validation.mk 0 [1; 2; 3; 4])) []
    = Ok (256, [] ++ [2] ++ [] ++ pad ++ [0; 1; 2; 3; 4])
    /\ length ([2] ++ [] ++ pad ++ [0; 1; 2; 3; 4]) = 256%nat
    /\ forall rest, read_bstring (pad ++ rest) = Ok ([], rest).
Proof.
  apply (End_write_padded (End_.mk None (Validation.mk 0 [1; 2; 3; 4])) []
                          0 5 [] [0; 1; 2; 3; 4] eq_refl eq_refl).
  vm_compute. lia.
Defined.

(** The claim C8 as the spec words it, for every [End] record, fails: with
    an offset table of 258 bytes nothing is padded, 260 bytes are written,
    and 256 is returned. *)
Lemma End_write_counterexample :
  exists written,
    End_.write
      (End_.mk (Some (OffsetTable.mk (2 ^ 300) (2 ^ 300) (2 ^ 300)
                                     (2 ^ 300) (2 ^ 300) (2 ^ 300)))
               (Validation.mk 0 []))
      []
    = Ok (256, written)
    /\ length written = 260%nat
    /\ length written <> 256%nat.
Proof.
  eexists. split; [vm_compute; reflexivity|].
  split; [vm_compute; reflexivity | vm_compute; discriminate].
Qed.

(** * Further properties *)

(** ** The dedup helpers *)

(** X1: [dedup_field] on a record attribute and a modal attribute that both
    exist: a set record attribute equal to the modal one is cleared and the
    bank is left alone; a set record attribute that differs is stored in
    the bank and the record is left alone; an unset record attribute
    changes nothing when the modal one is set, and raises
    [InvalidDataError('Unfillable field')] when it is not. *)
Theorem dedup_field_spec {R A : Type} `{EqDecision A}
    (record : R) (r_field : attr R (option A))
    (modals : Modals.t) (m_field : attr Modals.t (option A))
    (r m : option A) :
  getattr r_field record = Ok r ->
  getattr m_field modals = Ok m ->
  match r, m with
  | Some v, _ =>
      if decide (m = Some v) then
        exists record',
          dedup_field record r_field modals m_field = Ok (record', modals)
          /\ record' = setattr r_field record None
          /\ getattr r_field record' = Ok None
      else
        exists modals',
          dedup_field record r_field modals m_field = Ok (record, modals')
          /\ modals' = setattr m_field modals (Some v)
          /\ getattr m_field modals' = Ok (Some v)
  | None, Some _ =>
      dedup_field record r_field modals m_field = Ok (record, modals)
  | None, None =>
      dedup_field record r_field modals m_field
      = Error (InvalidDataError "Unfillable field")
  end.
Proof.
  intros Hr Hm. unfold dedup_field. rewrite Hr, Hm. cbn [bind].
  destruct r as [v|]; cbn [is_not_None].
  - destruct (decide (m = Some v)) as [->|Hne].
    + cbn [is_not_None andb]. rewrite bool_decide_eq_true_2 by reflexivity.
      eexists. split; [reflexivity|]. split; [reflexivity|].
      apply getattr_setattr.
    + rewrite (bool_decide_eq_false_2 _ Hne), andb_false_r.
      eexists. split; [reflexivity|]. split; [reflexivity|].
      apply getattr_setattr.
  - destruct m; reflexivity.
Qed.

Lemma dedup_field_spec_witness :
  exists record',
    dedup_field (Circle.mk (Some 1) (Some 2) None None None (Some 7))
                Circle._radius
                (Modals.set_circle_radius Modals.new (Some 7))
                Modals._circle_radius
    = Ok (record', Modals.set_circle_radius Modals.new (Some 7))
    /\ record'
       = setattr Circle._radius
                 (Circle.mk (Some 1) (Some 2) None None None (Some 7)) None
    /\ getattr Circle._radius record' = Ok None.
Proof.
  exact (dedup_field_spec
           (Circle.mk (Some 1) (Some 2) None None None (Some 7)) Circle._radius
           (Modals.set_circle_radius Modals.new (Some 7)) Modals._circle_radius
           (Some 7) (Some 7) eq_refl eq_refl).
Defined.

(** X2: [dedup_repetition] leaves a record without repetition alone; for
    the [ReuseRepetition] marker it changes nothing, and raises
    [InvalidDataError('Unfillable repetition')] exactly when the bank has
    no repetition; any other repetition is replaced by the marker when the
    bank holds an equal one, and is stored in the bank otherwise. *)
Theorem dedup_repetition_spec {R : Type} `{HasRepetition R}
    (record : R) (modals : Modals.t) :
  match rec_repetition record, Modals.repetition modals with
  | None, _ => dedup_repetition record modals = Ok (record, modals)
  | Some ReuseRepetition, None =>
      dedup_repetition record modals
      = Error (InvalidDataError "Unfillable repetition")
  | Some ReuseRepetition, Some _ =>
      dedup_repetition record modals = Ok (record, modals)
  | Some rep, m =>
      if decide (m = Some rep) then
        exists record',
          dedup_repetition record modals = Ok (record', modals)
          /\ rec_repetition record' = Some ReuseRepetition
      else
        exists modals',
          dedup_repetition record modals = Ok (record, modals')
          /\ Modals.repetition modals' = Some rep
  end.
Proof.
  unfold dedup_repetition.
  destruct (rec_repetition record) as [rep|] eqn:Hrep; [|reflexivity].
  destruct rep; cbn [is_ReuseRepetition];
    destruct (Modals.repetition modals) as [m|] eqn:Hm; try reflexivity;
    match goal with
    | |- context [decide (?a = ?b)] =>
        destruct (decide (a = b)) as [He|Hne];
        [ rewrite bool_decide_eq_true_2 by congruence;
          eexists; split; [reflexivity|]; apply rec_repetition_set
        | rewrite bool_decide_eq_false_2 by congruence;
          eexists; split; [reflexivity|]; reflexivity ]
    end.
Qed.

(** X3: for each of the attribute pairs it is called with,
    [dedup_coordinates] never raises.  In relative mode a set coordinate has
    the modal value subtracted and the bank is left alone; in absolute mode
    a set coordinate equal to the modal value is cleared, and one that
    differs is stored in the bank; an unset coordinate stays unset.  The
    mode itself is never changed. *)
Theorem dedup_coordinates_spec {R : Type} `{HasXY R}
    (record : R) (modals : Modals.t) (mx_field my_field : attr Modals.t Z) :
  In (mx_field, my_field) coordinate_attrs ->
  exists record' modals' mx my,
    getattr mx_field modals = Ok mx
    /\ getattr my_field modals = Ok my
    /\ dedup_coordinates record modals mx_field my_field = Ok (record', modals')
    /\ rec_x record'
       = match rec_x record with
         | Some rx => if Modals.xy_relative modals then Some (rx - mx)
                      else if decide (rx = mx) then None else Some rx
         | None => None
         end
    /\ rec_y record'
       = match rec_y record with
         | Some ry => if Modals.xy_relative modals then Some (ry - my)
                      else if decide (ry = my) then None else Some ry
         | None => None
         end
    /\ getattr mx_field modals'
       = Ok match rec_x record with
            | Some rx => if Modals.xy_relative modals then mx else rx
            | None => mx
            end
    /\ getattr my_field modals'
       = Ok match rec_y record with
            | Some ry => if Modals.xy_relative modals then my else ry
            | None => my
            end
    /\ Modals.xy_relative modals' = Modals.xy_relative modals.
Proof.
  intros Hin. apply coordinate_attrs_inv in Hin.
  destruct Hin as [[-> ->] | [[-> ->] | [-> ->]]];
    unfold dedup_coordinates; simpl;
    destruct (rec_x record) as [rx|] eqn:Hx;
    destruct (rec_y record) as [ry|] eqn:Hy;
    destruct (Modals.xy_relative modals) eqn:Hrel; simpl;
    rewrite ?rec_y_set_x, ?Hy, ?Hrel; simpl;
    repeat match goal with
           | |- context [bool_decide (?a = ?b)] =>
               destruct (decide (a = b));
               [ rewrite (bool_decide_eq_true_2 (a = b)) by assumption
               | rewrite (bool_decide_eq_false_2 (a = b)) by assumption ];
               simpl; rewrite ?rec_y_set_x, ?Hy, ?Hrel; simpl
           end;
    do 4 eexists;
    (split; [reflexivity|]); (split; [reflexivity|]); (split; [reflexivity|]);
    rewrite ?rec_x_set_y, ?rec_y_set_x, ?rec_x_set_x, ?rec_y_set_y, ?Hx, ?Hy;
    simpl; subst; repeat case_decide; try congruence; auto 10.
Qed.

Lemma dedup_coordinates_spec_witness :
  exists record' modals' mx my,
    getattr Modals._geometry_x Modals.new = Ok mx
    /\ getattr Modals._geometry_y Modals.new = Ok my
    /\ dedup_coordinates
         (Circle.mk None None (Some 0) (Some 4) None None) Modals.new
         Modals._geometry_x Modals._geometry_y
       = Ok (record', modals')
    /\ rec_x record'
       = match rec_x (Circle.mk None None (Some 0) (Some 4) None None) with
         | Some rx => if Modals.xy_relative Modals.new then Some (rx - mx)
                      else if decide (rx = mx) then None else Some rx
         | None => None
         end
    /\ rec_y record'
       = match rec_y (Circle.mk None None (Some 0) (Some 4) None None) with
         | Some ry => if Modals.xy_relative Modals.new then Some (ry - my)
                      else if decide (ry = my) then None else Some ry
         | None => None
         end
    /\ getattr Modals._geometry_x modals'
       = Ok match rec_x (Circle.mk None None (Some 0) (Some 4) None None) with
            | Some rx => if Modals.xy_relative Modals.new then mx else rx
            | None => mx
            end
    /\ getattr Modals._geometry_y modals'
       = Ok match rec_y (Circle.mk None None (Some 0) (Some 4) None None) with
            | Some ry => if Modals.xy_relative Modals.new then my else ry
            | None => my
            end
    /\ Modals.xy_relative modals' = Modals.xy_relative Modals.new.
Proof.
  apply (dedup_coordinates_spec
           (Circle.mk None None (Some 0) (Some 4) None None) Modals.new
           Modals._geometry_x Modals._geometry_y).
  simpl. auto.
Defined.

(** ** What merge and dedup keep *)

(** A successful [dedup_field] cleared the record attribute, stored it in
    the bank, or did nothing. *)
Lemma dedup_field_inv {R A : Type} `{EqDecision A}
    (record : R) (r_field : attr R (option A))
    (modals : Modals.t) (m_field : attr Modals.t (option A))
    (record' : R) (modals' : Modals.t) :
  dedup_field record r_field modals m_field = Ok (record', modals') ->
  (record' = record /\ modals' = modals)
  \/ (record' = setattr r_field record None /\ modals' = modals)
  \/ (exists v, record' = record /\ modals' = setattr m_field modals (Some v)).
Proof.
  unfold dedup_field. intros Hc.
  apply bind_Ok in Hc. destruct Hc as (r & Hr & Hc).
  apply bind_Ok in Hc. destruct Hc as (m & Hm & Hc).
  destruct r as [v|]; cbn [is_not_None] in Hc.
  - destruct (is_not_None m && bool_decide (m = Some v));
      inversion Hc; subst; eauto 6.
  - destruct (negb (is_not_None m)); [discriminate|].
    inversion Hc; subst. auto.
Qed.

Lemma dedup_field_frame {R A B C : Type} `{EqDecision A}
    (f : R -> B) (g : Modals.t -> C)
    (record : R) (r_field : attr R (option A))
    (modals : Modals.t) (m_field : attr Modals.t (option A))
    (record' : R) (modals' : Modals.t) :
  dedup_field record r_field modals m_field = Ok (record', modals') ->
  ((forall r v, f (setattr r_field r v) = f r) -> f record' = f record)
  /\ ((forall m v, g (setattr m_field m v) = g m) -> g modals' = g modals).
Proof.
  intros Hc. apply dedup_field_inv in Hc.
  destruct Hc as [(-> & ->) | [(-> & ->) | (v & -> & ->)]]; auto.
Qed.

(** A successful [dedup_repetition] put the marker in the record, stored
    an explicit repetition in the bank, or did nothing. *)
Lemma dedup_repetition_inv {R : Type} `{HasRepetition R}
    (record : R) (modals : Modals.t) (record' : R) (modals' : Modals.t) :
  dedup_repetition record modals = Ok (record', modals') ->
  (record' = record /\ modals' = modals)
  \/ (record' = set_rec_repetition record (Some ReuseRepetition)
      /\ modals' = modals)
  \/ (exists rep, is_ReuseRepetition rep = false
                  /\ record' = record
                  /\ modals' = Modals.set_repetition modals (Some rep)).
Proof.
  unfold dedup_repetition. intros Hc.
  destruct (rec_repetition record) as [rep|] eqn:Hrep.
  - destruct (is_ReuseRepetition rep) eqn:Hreuse.
    + destruct (Modals.repetition modals); [|discriminate].
      inversion Hc; subst. auto.
    + destruct (bool_decide _); inversion Hc; subst; eauto 6.
  - inversion Hc; subst. auto.
Qed.

Lemma dedup_repetition_frame {R B C : Type} `{HasRepetition R}
    (f : R -> B) (g : Modals.t -> C)
    (record : R) (modals : Modals.t) (record' : R) (modals' : Modals.t) :
  dedup_repetition record modals = Ok (record', modals') ->
  ((forall r v, f (set_rec_repetition r v) = f r) -> f record' = f record)
  /\ ((forall m v, g (Modals.set_repetition m v) = g m) -> g modals' = g modals).
Proof.
  intros Hc. apply dedup_repetition_inv in Hc.
  destruct Hc as [(-> & ->) | [(-> & ->) | (rep & _ & -> & ->)]]; auto.
Qed.

Lemma dedup_coordinates_frame {R B C : Type} `{HasXY R}
    (f : R -> B) (g : Modals.t -> C)
    (record : R) (modals : Modals.t) (mx_field my_field : attr Modals.t Z)
    (record' : R) (modals' : Modals.t) :
  dedup_coordinates record modals mx_field my_field = Ok (record', modals') ->
  ((forall r v, f (set_rec_x r v) = f r) ->
   (forall r v, f (set_rec_y r v) = f r) -> f record' = f record)
  /\ ((forall m v, g (setattr mx_field m v) = g m) ->
      (forall m v, g (setattr my_field m v) = g m) -> g modals' = g modals).
Proof.
  unfold dedup_coordinates. intros Hc.
  apply bind_Ok in Hc. destruct Hc as ([r1 m1] & H1 & H2).
  assert (Hx : ((forall r v, f (set_rec_x r v) = f r) -> f r1 = f record)
               /\ ((forall m v, g (setattr mx_field m v) = g m) ->
                   g m1 = g modals)).
  { destruct (rec_x record) as [rx|].
    - apply bind_Ok in H1. destruct H1 as (mx & _ & H1).
      destruct (Modals.xy_relative modals);
        [|destruct (bool_decide (rx = mx))]; inversion H1; subst; auto.
    - inversion H1; subst. auto. }
  assert (Hy : ((forall r v, f (set_rec_y r v) = f r) -> f record' = f r1)
               /\ ((forall m v, g (setattr my_field m v) = g m) ->
                   g modals' = g m1)).
  { destruct (rec_y r1) as [ry|].
    - apply bind_Ok in H2. destruct H2 as (my & _ & H2).
      destruct (Modals.xy_relative m1);
        [|destruct (bool_decide (ry = my))]; inversion H2; subst; auto.
    - inversion H2; subst. auto. }
  destruct Hx as [Hx1 Hx2], Hy as [Hy1 Hy2].
  split; intros; [rewrite Hy1, Hx1 | rewrite Hy2, Hx2]; auto.
Qed.

(** After [adjust_coordinates] both coordinates are set. *)
Lemma adjust_coordinates_sets {R : Type} `{HasXY R}
    (record : R) (modals : Modals.t) (mx_field my_field : attr Modals.t Z)
    (record' : R) (modals' : Modals.t) :
  adjust_coordinates record modals mx_field my_field = Ok (record', modals') ->
  is_not_None (rec_x record') = true /\ is_not_None (rec_y record') = true.
Proof.
  unfold adjust_coordinates. intros Hc.
  apply bind_Ok in Hc. destruct Hc as ([r1 m1] & H1 & H2).
  assert (Hx : is_not_None (rec_x r1) = true).
  { destruct (rec_x record) as [rx|] eqn:Hrx.
    - destruct (Modals.xy_relative modals).
      + apply bind_Ok in H1. destruct H1 as (mx & _ & H1).
        inversion H1; subst. rewrite rec_x_set_x. reflexivity.
      + inversion H1; subst. rewrite Hrx. reflexivity.
    - apply bind_Ok in H1. destruct H1 as (mx & _ & H1).
      inversion H1; subst. rewrite rec_x_set_x. reflexivity. }
  destruct (rec_y r1) as [ry|] eqn:Hry.
  - destruct (Modals.xy_relative m1).
    + apply bind_Ok in H2. destruct H2 as (my & _ & H2).
      inversion H2; subst. rewrite rec_x_set_y, rec_y_set_y. auto.
    + inversion H2; subst. rewrite Hry. auto.
  - apply bind_Ok in H2. destruct H2 as (my & _ & H2).
    inversion H2; subst. rewrite rec_x_set_y, rec_y_set_y. auto.
Qed.

(** With no marker in the bank, [adjust_repetition] leaves none in the
    record and none in the bank. *)
Lemma adjust_repetition_marker {R : Type} `{HasRepetition R}
    (record : R) (modals : Modals.t) (record' : R) (modals' : Modals.t) :
  adjust_repetition record modals = Ok (record', modals') ->
  explicit_repetition (Modals.repetition modals) = true ->
  explicit_repetition (rec_repetition record') = true
  /\ explicit_repetition (Modals.repetition modals') = true.
Proof.
  unfold adjust_repetition. intros Hc Hm.
  destruct (rec_repetition record) as [rep|] eqn:Hrep.
  - destruct (is_ReuseRepetition rep) eqn:Hreuse.
    + destruct (Modals.repetition modals) as [m|] eqn:Hmr; [|discriminate].
      inversion Hc; subst. rewrite rec_repetition_set, Hmr. auto.
    + inversion Hc; subst. rewrite Hrep. cbn. rewrite Hreuse. auto.
  - inversion Hc; subst. rewrite Hrep. auto.
Qed.

Lemma dedup_repetition_marker {R : Type} `{HasRepetition R}
    (record : R) (modals : Modals.t) (record' : R) (modals' : Modals.t) :
  dedup_repetition record modals = Ok (record', modals') ->
  explicit_repetition (Modals.repetition modals) = true ->
  explicit_repetition (Modals.repetition modals') = true.
Proof.
  intros Hc Hm. apply dedup_repetition_inv in Hc.
  destruct Hc as [(-> & ->) | [(-> & ->) | (rep & Hrep & -> & ->)]]; auto.
  cbn. rewrite Hrep. reflexivity.
Qed.

(** Opens the method of the record's class. *)
Ltac open_method H :=
  cbn [merge_with_modals deduplicate_with_modals] in H;
  apply bind_Ok in H;
  let st := fresh "st" in
  let E := fresh "E" in
  destruct H as (st & H & E); destruct st as [? ?];
  inversion E; subst; clear E;
  unfold Pad.merge_with_modals, XYMode.merge_with_modals,
    Start.merge_with_modals, End_.merge_with_modals,
    CBlock.merge_with_modals, CellName.merge_with_modals,
    PropName.merge_with_modals, TextString.merge_with_modals,
    PropString.merge_with_modals, LayerName.merge_with_modals,
    Property.merge_with_modals, XName.merge_with_modals,
    XElement.merge_with_modals, XGeometry.merge_with_modals,
    Cell.merge_with_modals, Placement.merge_with_modals,
    Text.merge_with_modals, Rectangle.merge_with_modals,
    Polygon.merge_with_modals, Path.merge_with_modals,
    Trapezoid.merge_with_modals, CTrapezoid.merge_with_modals,
    Circle.merge_with_modals,
    Pad.deduplicate_with_modals, XYMode.deduplicate_with_modals,
    Start.deduplicate_with_modals, End_.deduplicate_with_modals,
    CBlock.deduplicate_with_modals, CellName.deduplicate_with_modals,
    PropName.deduplicate_with_modals, TextString.deduplicate_with_modals,
    PropString.deduplicate_with_modals, LayerName.deduplicate_with_modals,
    Property.deduplicate_with_modals, XName.deduplicate_with_modals,
    XElement.deduplicate_with_modals, XGeometry.deduplicate_with_modals,
    Cell.deduplicate_with_modals, Placement.deduplicate_with_modals,
    Text.deduplicate_with_modals, Rectangle.deduplicate_with_modals,
    Polygon.deduplicate_with_modals, Path.deduplicate_with_modals,
    Trapezoid.deduplicate_with_modals, CTrapezoid.deduplicate_with_modals,
    Circle.deduplicate_with_modals in H.

(** Case analysis on the tests between the calls of a method. *)
Ltac break_tests :=
  repeat match goal with
         | H : (if ?c then _ else _) = Ok _ |- _ =>
             destruct c eqn:?; cbv iota in H
         | H : Error _ = Ok _ |- _ => discriminate H
         | H : Ok (_, _) = Ok (_, _) |- _ => inversion H; subst; clear H
         end.

(** Replaces each successful call by what it says about [g] of the bank,
    for a [g] that no attribute assigned by the call can change. *)
Ltac bank_frames g :=
  repeat match goal with
         | H : adjust_field _ _ _ _ = Ok _ |- _ =>
             apply (adjust_field_frame (fun _ => tt) g) in H;
             destruct H as [_ H]; specialize (H (fun _ _ => eq_refl))
         | H : dedup_field _ _ _ _ = Ok _ |- _ =>
             apply (dedup_field_frame (fun _ => tt) g) in H;
             destruct H as [_ H]; specialize (H (fun _ _ => eq_refl))
         | H : adjust_coordinates _ _ _ _ = Ok _ |- _ =>
             apply (adjust_coordinates_frame (fun _ => tt) g) in H;
             destruct H as [_ H];
             specialize (H (fun _ _ => eq_refl) (fun _ _ => eq_refl))
         | H : dedup_coordinates _ _ _ _ = Ok _ |- _ =>
             apply (dedup_coordinates_frame (fun _ => tt) g) in H;
             destruct H as [_ H];
             specialize (H (fun _ _ => eq_refl) (fun _ _ => eq_refl))
         end.

Ltac repetition_frames g :=
  repeat match goal with
         | H : adjust_repetition _ _ = Ok _ |- _ =>
             apply (adjust_repetition_frame (fun _ => tt) g) in H;
             destruct H as [_ H]; specialize (H (fun _ _ => eq_refl))
         | H : dedup_repetition _ _ = Ok _ |- _ =>
             apply (dedup_repetition_frame (fun _ => tt) g) in H;
             destruct H as [_ H]; specialize (H (fun _ _ => eq_refl))
         end.

Ltac repetition_markers :=
  repeat match goal with
         | H : adjust_repetition _ _ = Ok _ |- _ =>
             pose proof (adjust_repetition_marker _ _ _ _ H); clear H
         | H : dedup_repetition _ _ = Ok _ |- _ =>
             pose proof (dedup_repetition_marker _ _ _ _ H); clear H
         end.

Ltac chase_repetition :=
  repeat match goal with
         | E : Modals.repetition ?m' = Modals.repetition ?m |- _ =>
             rewrite E in *; clear E
         end.

(** X6: a bank whose repetition is not the [ReuseRepetition] marker still
    has none after any successful [merge_with_modals] or
    [deduplicate_with_modals], of any record. *)
Theorem bank_never_holds_marker
    (self self' : record) (modals modals' : Modals.t) :
  explicit_repetition (Modals.repetition modals) = true ->
  merge_with_modals self modals = Ok (self', modals')
  \/ deduplicate_with_modals self modals = Ok (self', modals') ->
  explicit_repetition (Modals.repetition modals') = true.
Proof.
  intros Hok [Hc | Hc];
    destruct self; open_method Hc;
    split_chain Hc; break_tests;
    bank_frames Modals.repetition; repetition_markers;
    try reflexivity; try assumption;
    chase_repetition; intuition.
Qed.

Lemma bank_never_holds_marker_witness :
  explicit_repetition
    (Modals.repetition
       (Modals.set_circle_radius
          (Modals.set_geometry_y
             (Modals.set_geometry_x
                (Modals.set_datatype
                   (Modals.set_layer
                      (Modals.set_repetition Modals.new
                         (Some (ArbitraryRepetition [0; 10] [0; 0])))
                      (Some 1))
                   (Some 2))
                3)
             4)
          (Some 5)))
  = true.
Proof.
  apply (bank_never_holds_marker
           (Circle_ (Circle.mk (Some 1) (Some 2) (Some 3) (Some 4)
                               (Some (ArbitraryRepetition [0; 10] [0; 0]))
                               (Some 5)))
           (Circle_ (Circle.mk (Some 1) (Some 2) (Some 3) (Some 4)
                               (Some (ArbitraryRepetition [0; 10] [0; 0]))
                               (Some 5)))
           Modals.new
           _ eq_refl).
  right. reflexivity.
Defined.

(** X7: only [XYMode] and the records that reset the bank change the
    coordinate mode: a successful [merge_with_modals] of any other record,
    and a successful [deduplicate_with_modals] of any record that does not
    reset the bank, leave [xy_relative] as it was. *)
Theorem coordinate_mode_kept
    (self self' : record) (modals modals' : Modals.t) :
  resets_bank self = false ->
  (is_XYMode self = false /\ merge_with_modals self modals = Ok (self', modals'))
  \/ deduplicate_with_modals self modals = Ok (self', modals') ->
  Modals.xy_relative modals' = Modals.xy_relative modals.
Proof.
  intros Hreset [[Hxy Hc] | Hc];
    destruct self; try discriminate Hreset; try discriminate Hxy;
    open_method Hc; split_chain Hc; break_tests;
    bank_frames Modals.xy_relative; repetition_frames Modals.xy_relative;
    congruence.
Qed.

Lemma coordinate_mode_kept_witness :
  Modals.xy_relative
    (Modals.set_circle_radius
       (Modals.set_datatype
          (Modals.set_layer (Modals.set_xy_relative Modals.new true) (Some 7))
          (Some 8))
       (Some 5))
  = Modals.xy_relative (Modals.set_xy_relative Modals.new true).
Proof.
  apply (coordinate_mode_kept
           (Circle_ (Circle.mk (Some 7) (Some 8) (Some 1) (Some 2) None
                               (Some 5)))
           (Circle_ (Circle.mk (Some 7) (Some 8) (Some 1) (Some 2) None
                               (Some 5)))
           (Modals.set_xy_relative Modals.new true)
           _ eq_refl).
  right. reflexivity.
Defined.

(** *** Merge fills the record *)

(** After a successful [adjust_field] the record attribute is set. *)
Lemma adjust_field_sets {R A : Type}
    (record : R) (r_field : attr R (option A))
    (modals : Modals.t) (m_field : attr Modals.t (option A))
    (record' : R) (modals' : Modals.t) (field : R -> option A) :
  adjust_field record r_field modals m_field = Ok (record', modals') ->
  (forall r, getattr r_field r = Ok (field r)) ->
  is_not_None (field record') = true.
Proof.
  intros Hc Hget. apply adjust_field_fills in Hc.
  destruct Hc as (v & Hv & _). rewrite Hget in Hv.
  inversion Hv as [Hv']. rewrite Hv'. reflexivity.
Qed.

(** Proves that an attribute of the merged record is set: by the call that
    fills it, carried over the calls that follow. *)
Ltac solve_set :=
  lazymatch goal with
  | |- is_not_None (?f ?r') = true =>
      match goal with
      | H : adjust_field _ _ _ _ = Ok (r', _) |- _ =>
          first
            [ exact (adjust_field_sets _ _ _ _ _ _ f H (fun _ => eq_refl))
            | rewrite (proj1 (adjust_field_frame f (fun _ => tt)
                                _ _ _ _ _ _ H) (fun _ _ => eq_refl));
              clear H; solve_set ]
      | H : adjust_repetition _ _ = Ok (r', _) |- _ =>
          rewrite (proj1 (adjust_repetition_frame f (fun _ => tt)
                            _ _ _ _ H) (fun _ _ => eq_refl));
          clear H; solve_set
      | H : adjust_coordinates _ _ _ _ = Ok (r', _) |- _ =>
          first
            [ exact (proj1 (adjust_coordinates_sets _ _ _ _ _ _ H))
            | exact (proj2 (adjust_coordinates_sets _ _ _ _ _ _ H)) ]
      end
  end.

(** Rewrites an attribute of the merged record back over the calls that do
    not assign it. *)
Ltac frame_back :=
  first
    [ assumption
    | match goal with
      | H : adjust_field _ _ _ _ = Ok (?r', _) |- context [?f ?r'] =>
          rewrite (proj1 (adjust_field_frame f (fun _ => tt)
                            _ _ _ _ _ _ H) (fun _ _ => eq_refl));
          frame_back
      end ].

Ltac solve_explicit :=
  lazymatch goal with
  | |- explicit_repetition (?f ?r') = true =>
      match goal with
      | H : adjust_field _ _ _ _ = Ok (r', _) |- _ =>
          rewrite (proj1 (adjust_field_frame f (fun _ => tt)
                            _ _ _ _ _ _ H) (fun _ _ => eq_refl));
          clear H; solve_explicit
      | H : adjust_repetition _ ?m = Ok (r', _),
        E : Modals.repetition ?m = Modals.repetition _ |- _ =>
          apply (adjust_repetition_marker _ _ _ _ H);
          rewrite E; assumption
      end
  end.

(** X5: after a successful [merge_with_modals] every attribute that the
    record's class takes from the bank is set in the record; and if the
    bank's repetition was not the [ReuseRepetition] marker, the record's
    repetition is not the marker either. *)
Theorem merge_populates (self self' : record) (modals modals' : Modals.t) :
  merge_with_modals self modals = Ok (self', modals') ->
  modal_complete self' = true
  /\ (explicit_repetition (Modals.repetition modals) = true ->
      explicit_repetition (record_repetition self') = true).
Proof.
  intros Hc. destruct self; open_method Hc; split_chain Hc; break_tests;
    (split;
     [ cbn [modal_complete]; rewrite ?andb_true_iff; repeat split;
       try reflexivity;
       try (apply orb_true_iff;
            first [ left; frame_back | right; solve_set ]);
       try solve_set
     | intros Hok; cbn [record_repetition]; try reflexivity ]).
  all: try match goal with
           | H : adjust_coordinates _ _ _ _ = Ok (_, ?m) |- _ =>
               pose proof (proj2 (adjust_coordinates_frame
                                    (fun _ => tt) Modals.repetition
                                    _ _ _ _ _ _ H)
                                 (fun _ _ => eq_refl) (fun _ _ => eq_refl))
           end.
  all: try solve_explicit.
Qed.

Lemma merge_populates_witness :
  modal_complete
    (Circle_ (Circle.mk (Some 1) (Some 2) (Some 3) (Some 0)
                        (Some (ArbitraryRepetition [0; 10] [0; 0]))
                        (Some 5)))
  = true
  /\ (explicit_repetition
        (Modals.repetition
           (Modals.set_circle_radius
              (Modals.set_datatype
                 (Modals.set_layer
                    (Modals.set_repetition Modals.new
                       (Some (ArbitraryRepetition [0; 10] [0; 0])))
                    (Some 1))
                 (Some 2))
              (Some 5)))
      = true ->
      explicit_repetition
        (record_repetition
           (Circle_ (Circle.mk (Some 1) (Some 2) (Some 3) (Some 0)
                               (Some (ArbitraryRepetition [0; 10] [0; 0]))
                               (Some 5))))
      = true).
Proof.
  apply (merge_populates
           (Circle_ (Circle.mk None None (Some 3) None (Some ReuseRepetition)
                               None))
           (Circle_ (Circle.mk (Some 1) (Some 2) (Some 3) (Some 0)
                               (Some (ArbitraryRepetition [0; 10] [0; 0]))
                               (Some 5)))
           (Modals.set_circle_radius
              (Modals.set_datatype
                 (Modals.set_layer
                    (Modals.set_repetition Modals.new
                       (Some (ArbitraryRepetition [0; 10] [0; 0])))
                    (Some 1))
                 (Some 2))
              (Some 5))
           (Modals.set_geometry_x
              (Modals.set_circle_radius
                 (Modals.set_datatype
                    (Modals.set_layer
                       (Modals.set_repetition Modals.new
                          (Some (ArbitraryRepetition [0; 10] [0; 0])))
                       (Some 1))
                    (Some 2))
                 (Some 5))
              3)).
  reflexivity.
Defined.

(** ** The writer's bank and the reader's bank *)

(** [in_step], spelled out. *)
Lemma in_step_inv {R : Type}
    (dedup merge : R -> Modals.t -> result (R * Modals.t))
    (r : R) (M : Modals.t) :
  in_step dedup merge r M ->
  exists r1 M1, dedup r M = Ok (r1, M1) /\ merge r1 M = Ok (r, M1).
Proof.
  unfold in_step. destruct (dedup r M) as [[r1 M1]|]; [|intros []].
  eauto.
Qed.

Lemma XGeometry_in_step (r : XGeometry.t) (M : Modals.t) :
  fully_populated (XGeometry_ r) = true ->
  in_step XGeometry.deduplicate_with_modals XGeometry.merge_with_modals r M.
Proof.
  intros H. destruct r. rt_intro H. all: rt_start M.
  all: unfold in_step, XGeometry.deduplicate_with_modals,
      XGeometry.merge_with_modals, dedup_coordinates, dedup_repetition,
      dedup_field, adjust_coordinates, adjust_repetition, adjust_field.
  all: rt_solve.
Qed.

Lemma Placement_in_step (r : Placement.t) (M : Modals.t) :
  fully_populated (Placement_ r) = true ->
  in_step Placement.deduplicate_with_modals Placement.merge_with_modals r M.
Proof.
  intros H. destruct r. rt_intro H. all: rt_start M.
  all: unfold in_step, Placement.deduplicate_with_modals,
      Placement.merge_with_modals, dedup_coordinates, dedup_repetition,
      dedup_field, adjust_coordinates, adjust_repetition, adjust_field.
  all: rt_solve.
Qed.

Lemma Text_in_step (r : Text.t) (M : Modals.t) :
  fully_populated (Text_ r) = true ->
  in_step Text.deduplicate_with_modals Text.merge_with_modals r M.
Proof.
  intros H. destruct r. rt_intro H. all: rt_start M.
  all: unfold in_step, Text.deduplicate_with_modals,
      Text.merge_with_modals, dedup_coordinates, dedup_repetition,
      dedup_field, adjust_coordinates, adjust_repetition, adjust_field.
  all: rt_solve.
Qed.

Lemma Rectangle_in_step (r : Rectangle.t) (M : Modals.t) :
  fully_populated (Rectangle_ r) = true ->
  in_step Rectangle.deduplicate_with_modals Rectangle.merge_with_modals r M.
Proof.
  intros H. destruct r. rt_intro H. all: rt_start M.
  all: unfold in_step, Rectangle.deduplicate_with_modals,
      Rectangle.merge_with_modals, dedup_coordinates, dedup_repetition,
      dedup_field, adjust_coordinates, adjust_repetition, adjust_field.
  all: rt_solve.
Qed.

Lemma Polygon_in_step (r : Polygon.t) (M : Modals.t) :
  fully_populated (Polygon_ r) = true ->
  in_step Polygon.deduplicate_with_modals Polygon.merge_with_modals r M.
Proof.
  intros H. destruct r. rt_intro H. all: rt_start M.
  all: unfold in_step, Polygon.deduplicate_with_modals,
      Polygon.merge_with_modals, dedup_coordinates, dedup_repetition,
      dedup_field, adjust_coordinates, adjust_repetition, adjust_field.
  all: rt_solve.
Qed.

Lemma Trapezoid_in_step (r : Trapezoid.t) (M : Modals.t) :
  fully_populated (Trapezoid_ r) = true ->
  in_step Trapezoid.deduplicate_with_modals Trapezoid.merge_with_modals r M.
Proof.
  intros H. destruct r. rt_intro H. all: rt_start M.
  all: unfold in_step, Trapezoid.deduplicate_with_modals,
      Trapezoid.merge_with_modals, dedup_coordinates, dedup_repetition,
      dedup_field, adjust_coordinates, adjust_repetition, adjust_field.
  all: rt_solve.
Qed.

Lemma Circle_in_step (r : Circle.t) (M : Modals.t) :
  fully_populated (Circle_ r) = true ->
  in_step Circle.deduplicate_with_modals Circle.merge_with_modals r M.
Proof.
  intros H. destruct r. rt_intro H. all: rt_start M.
  all: unfold in_step, Circle.deduplicate_with_modals,
      Circle.merge_with_modals, dedup_coordinates, dedup_repetition,
      dedup_field, adjust_coordinates, adjust_repetition, adjust_field.
  all: rt_solve.
Qed.

(** X4: for a fully populated record of any class but [Property] and
    [XYMode], deduplicating against a bank and merging the deduplicated
    record against a bank in the same starting state leave the same bank:
    a writer that deduplicates and a reader that merges stay in step, and
    the reader recovers the record. *)
Theorem dedup_and_merge_in_step (self : record) (modals : Modals.t) :
  fully_populated self = true ->
  is_Property self = false ->
  is_XYMode self = false ->
  exists deduped modals',
    deduplicate_with_modals self modals = Ok (deduped, modals')
    /\ merge_with_modals deduped modals = Ok (self, modals').
Proof.
  intros Hfull Hprop Hxy.
  destruct self as [r|r|r|r|r|r|r|r|r|r|r|r|r|r|r|r|r|r|r|r|r|r|r];
    try discriminate Hfull; try discriminate Hprop; try discriminate Hxy;
    try (do 2 eexists; split; reflexivity);
    [ apply (XGeometry_in_step r modals) in Hfull
    | apply (Placement_in_step r modals) in Hfull
    | apply (Text_in_step r modals) in Hfull
    | apply (Rectangle_in_step r modals) in Hfull
    | apply (Polygon_in_step r modals) in Hfull
    | apply (Trapezoid_in_step r modals) in Hfull
    | apply (Circle_in_step r modals) in Hfull ];
    apply in_step_inv in Hfull;
    destruct Hfull as (r1 & M1 & Hd & Hm);
    cbn [deduplicate_with_modals merge_with_modals];
    rewrite Hd; cbn [bind];
    do 2 eexists; (split; [reflexivity|]);
    cbn [merge_with_modals]; rewrite Hm; reflexivity.
Qed.

Lemma dedup_and_merge_in_step_witness :
  exists deduped modals',
    deduplicate_with_modals
      (Circle_ (Circle.mk (Some 1) (Some 2) (Some 30) (Some 40) None (Some 5)))
      (Modals.set_circle_radius Modals.new (Some 5))
    = Ok (deduped, modals')
    /\ merge_with_modals deduped
         (Modals.set_circle_radius Modals.new (Some 5))
       = Ok (Circle_ (Circle.mk (Some 1) (Some 2) (Some 30) (Some 40) None
                                (Some 5)),
             modals').
Proof.
  exact (dedup_and_merge_in_step
           (Circle_ (Circle.mk (Some 1) (Some 2) (Some 30) (Some 40) None
                               (Some 5)))
           (Modals.set_circle_radius Modals.new (Some 5))
           eq_refl eq_refl eq_refl).
Defined.

(** ** Writing a record, then reading it *)

(** *** The integers *)

Lemma small_byte (n : Z) :
  0 <= n < 128 -> Z.testbit n 7 = false /\ Z.land n 127 = n.
Proof.
  intros Hn. split.
  - destruct (Z.eq_dec n 0) as [->|Hz]; [reflexivity|].
    apply Z.bits_above_log2; [lia|].
    apply Z.log2_lt_pow2; [lia|]. simpl. lia.
  - change 127 with (Z.ones 7). rewrite Z.land_ones by lia.
    apply Z.mod_small. simpl. lia.
Qed.

Lemma continued_byte (n : Z) :
  Z.testbit (Z.lor (Z.land n 127) 128) 7 = true
  /\ Z.land (Z.lor (Z.land n 127) 128) 127 = n mod 128.
Proof.
  split.
  - rewrite Z.lor_spec. change (Z.testbit 128 7) with true.
    apply orb_true_r.
  - rewrite Z.land_lor_distr_l. change (Z.land 128 127) with 0.
    rewrite Z.lor_0_r, <- Z.land_assoc. change (Z.land 127 127) with 127.
    change 127 with (Z.ones 7). rewrite Z.land_ones by lia. reflexivity.
Qed.

(** The reader's loop on the bytes of an unsigned integer. *)
Lemma read_uint_loop_bytes (fuel : nat) :
  forall (n shift acc : Z) (rest : stream),
    0 <= n -> 0 <= shift -> Z.log2 n <= Z.of_nat fuel ->
    read_uint_loop (uint_bytes fuel n ++ rest) shift acc
    = Ok (acc + Z.shiftl n shift, rest).
Proof.
  induction fuel as [|fuel IH]; intros n shift acc rest Hn Hs Hlog.
  - assert (Hsmall : 0 <= n < 128).
    { split; [assumption|].
      destruct (Z.eq_dec n 0) as [->|Hz]; [lia|].
      apply (Z.log2_lt_pow2 n 7); simpl in *; lia. }
    destruct (small_byte n Hsmall) as [Hbit Hland].
    cbn [uint_bytes app read_uint_loop]. rewrite Hbit, Hland. reflexivity.
  - cbn [uint_bytes]. destruct (n <? 128) eqn:Hlt.
    + apply Z.ltb_lt in Hlt.
      destruct (small_byte n (conj Hn Hlt)) as [Hbit Hland].
      cbn [app read_uint_loop]. rewrite Hbit, Hland. reflexivity.
    + apply Z.ltb_ge in Hlt.
      destruct (continued_byte n) as [Hbit Hland].
      cbn [app read_uint_loop]. rewrite Hbit, Hland.
      rewrite IH.
      * f_equal. f_equal.
        rewrite !Z.shiftl_mul_pow2, Z.shiftr_div_pow2 by lia.
        rewrite Z.pow_add_r by lia. change (2 ^ 7) with 128.
        pose proof (Z.div_mod n 128 ltac:(lia)) as Hdm.
        nia.
      * apply Z.shiftr_nonneg. assumption.
      * lia.
      * rewrite Z.log2_shiftr by lia.
        pose proof (Z.log2_le_mono 128 n Hlt) as Hmono.
        change (Z.log2 128) with 7 in Hmono. lia.
Qed.

(** [read_uint] undoes [write_uint]. *)
Lemma uint_round_trips : round_trips write_uint read_uint.
Proof.
  intros n s m s' Hw. unfold write_uint in Hw.
  destruct (n <? 0) eqn:Hneg; [discriminate|].
  apply Z.ltb_ge in Hneg. inversion Hw; subst.
  eexists. split; [reflexivity|]. split; [reflexivity|].
  intros rest. unfold read_uint.
  rewrite read_uint_loop_bytes; [|lia|lia|].
  - rewrite Z.shiftl_0_r. reflexivity.
  - rewrite Z2Nat.id; [lia | apply Z.log2_nonneg].
Qed.

(** [read_sint] undoes [write_sint]. *)
Lemma sint_round_trips : round_trips write_sint read_sint.
Proof.
  intros v s m s' Hw. unfold write_sint in Hw.
  destruct (v <? 0) eqn:Hneg;
    [apply Z.ltb_lt in Hneg | apply Z.ltb_ge in Hneg];
    apply uint_round_trips in Hw;
    destruct Hw as (bs & -> & -> & Hr);
    exists bs; (split; [reflexivity|]); (split; [reflexivity|]);
    intros rest; unfold read_sint, io_bind; rewrite Hr; unfold io_ret;
    do 2 f_equal.
  - rewrite Z.lor_spec, orb_true_r.
    rewrite Z.shiftr_lor, Z.shiftr_shiftl_l by lia.
    change (Z.shiftr 1 1) with 0. rewrite Z.lor_0_r.
    change (1 - 1) with 0. rewrite Z.shiftl_0_r. lia.
  - rewrite Z.shiftl_spec_low by lia.
    rewrite Z.shiftr_shiftl_l by lia.
    change (1 - 1) with 0. rewrite Z.shiftl_0_r. reflexivity.
Qed.

(** [read_bool_byte] undoes [write_bool_byte]. *)
Lemma bool_byte_round_trips : round_trips write_bool_byte read_bool_byte.
Proof.
  intros [[[[[[[b7 b6] b5] b4] b3] b2] b1] b0] s m s' Hw.
  unfold write_bool_byte, stream_write in Hw. inversion Hw; subst.
  eexists. split; [reflexivity|]. split; [reflexivity|].
  intros rest.
  destruct b7, b6, b5, b4, b3, b2, b1, b0; reflexivity.
Qed.

(** *** Sequences of writes against sequences of reads *)

Lemma reads_back_bind {A B : Type} (base : Z)
    (w1 : io Z) (wk : Z -> io Z) (r1 : io A) (k : A -> io B) (a : A) (b : B) :
  reads_back 0 w1 r1 a ->
  (forall n1, reads_back (base + n1) (wk n1) (k a) b) ->
  reads_back base (io_bind w1 wk) (io_bind r1 k) b.
Proof.
  intros H1 Hk s n s' Hw. unfold io_bind in Hw.
  destruct (w1 s) as [[n1 s1]|] eqn:Hw1; [|discriminate].
  apply H1 in Hw1. destruct Hw1 as (bs1 & -> & -> & Hr1).
  apply Hk in Hw. destruct Hw as (bs2 & -> & -> & Hr2).
  exists (bs1 ++ bs2). split; [symmetry; apply app_assoc|].
  split; [rewrite length_app; lia|].
  intros rest. unfold io_bind. rewrite <- app_assoc, Hr1. apply Hr2.
Qed.

Lemma reads_back_ret {A : Type} (base : Z) (a : A) :
  reads_back base (io_ret base) (io_ret a) a.
Proof.
  intros s n s' Hw. inversion Hw; subst. exists [].
  split; [symmetry; apply app_nil_r|]. split; [simpl; lia|].
  intros rest. reflexivity.
Qed.

Lemma reads_back_lift {A : Type} (base : Z) (c : result A) (a : A) :
  c = Ok a -> reads_back base (io_ret base) (io_lift c) a.
Proof.
  intros -> s n s' Hw. inversion Hw; subst. exists [].
  split; [symmetry; apply app_nil_r|]. split; [simpl; lia|].
  intros rest. reflexivity.
Qed.

(** An optional attribute, written if set and read if flagged. *)
Lemma reads_back_if {A : Type} (writer : A -> io Z) (reader : io A)
    (field : option A) :
  round_trips writer reader ->
  reads_back 0 (write_if field writer)
             (read_if (is_not_None field) reader) field.
Proof.
  intros Hrt. destruct field as [v|]; cbn [write_if read_if is_not_None].
  - intros s n s' Hw. apply Hrt in Hw.
    destruct Hw as (bs & -> & -> & Hr). exists bs.
    split; [reflexivity|]. split; [reflexivity|].
    intros rest. unfold io_bind. rewrite Hr. reflexivity.
  - apply reads_back_ret.
Qed.

(** A value written under a condition and read under the same one. *)
Lemma reads_back_some {A : Type} (writer : A -> io Z) (reader : io A) (v : A) :
  round_trips writer reader ->
  reads_back 0 (writer v) (read_if true reader) (Some v).
Proof. intros Hrt. exact (reads_back_if writer reader (Some v) Hrt). Qed.

Lemma reads_back_none {A : Type} (reader : io A) :
  reads_back 0 (io_ret 0) (read_if false reader) None.
Proof. apply reads_back_ret. Qed.

(** [read_bstring] undoes [write_bstring]. *)
Lemma bstring_round_trips : round_trips write_bstring read_bstring.
Proof.
  intros bs s n s' Hw. unfold write_bstring, io_bind in Hw.
  destruct (write_uint (Z.of_nat (length bs)) s) as [[n1 s1]|] eqn:Hw1;
    [|discriminate].
  apply uint_round_trips in Hw1. destruct Hw1 as (hd & -> & -> & Hr).
  inversion Hw; subst. exists (hd ++ bs).
  split; [symmetry; apply app_assoc|]. split; [rewrite length_app; lia|].
  intros rest. unfold read_bstring, io_bind.
  rewrite <- app_assoc, Hr, length_app, Nat2Z.id.
  rewrite take_app_length, drop_app_length.
  destruct (Z.leb_spec (Z.of_nat (length bs))
                       (Z.of_nat (length bs + length rest))); [reflexivity|lia].
Qed.

(** What [reads_back] says of one successful run from the empty stream. *)
Lemma reads_back_run {A : Type} (writer : io Z) (reader : io A) (a : A)
    (n : Z) (bs : list byte) :
  reads_back 0 writer reader a ->
  writer [] = Ok (n, bs) ->
  writer [] = Ok (Z.of_nat (length bs), bs)
  /\ forall rest : stream, reader (bs ++ rest) = Ok (a, rest).
Proof.
  intros Hrb Hw. destruct (Hrb [] n bs Hw) as (bs' & Hs & Hn & Hr).
  cbn in Hs. subst bs'. split; [rewrite Hw, Hn; reflexivity | exact Hr].
Qed.

Ltac rb_norm :=
  cbn -[write_uint write_sint write_bool_byte write_bstring write_if
        stream_write read_uint read_sint read_bool_byte read_bstring read_if].

(** Pairs the next write with the next read. *)
Ltac rb_step :=
  first
    [ apply reads_back_ret
    | apply reads_back_lift; first [ reflexivity | assumption ]
    | eapply reads_back_bind;
      [ first [ apply reads_back_if;
                first [ apply uint_round_trips
                      | apply sint_round_trips
                      | assumption ]
              | apply reads_back_none
              | apply reads_back_some; apply sint_round_trips
              | apply uint_round_trips
              | apply sint_round_trips
              | apply bstring_round_trips
              | apply bool_byte_round_trips ]
      | intros ?n; rb_norm ] ].

(** The codecs that refuse every call round-trip: they never write. *)
Lemma refusing_repetition_round_trips :
  round_trips (@repetition_write refusing_codec)
              (@read_repetition refusing_codec).
Proof. intros rep s n s' Hw. discriminate Hw. Qed.

(** *** One lemma per class *)

Lemma Circle_codec `{BasicCodec} (self : Circle.t) :
  round_trips repetition_write read_repetition ->
  reads_back 0 (Circle.write self) (read_record Circle.read) self.
Proof.
  intros Hrep. destruct self.
  unfold Circle.write, read_record, Circle.read. rb_norm.
  repeat rb_step.
Qed.

Lemma Rectangle_codec `{BasicCodec} (self : Rectangle.t) :
  round_trips repetition_write read_repetition ->
  Rectangle.is_square self && is_not_None (Rectangle.height self) = false ->
  reads_back 0 (Rectangle.write self) (read_record Rectangle.read) self.
Proof.
  intros Hrep Hvalid. destruct self. cbn in Hvalid.
  unfold Rectangle.write, read_record, Rectangle.read. rb_norm.
  do 9 rb_step. apply reads_back_lift.
  unfold Rectangle.__init__. rewrite Hvalid. reflexivity.
Qed.

Lemma Trapezoid_codec `{BasicCodec} (self : Trapezoid.t) :
  round_trips repetition_write read_repetition ->
  Trapezoid.__init__ (Trapezoid.is_vertical self)
    (Trapezoid.delta_a self) (Trapezoid.delta_b self)
    (Trapezoid.layer self) (Trapezoid.datatype self)
    (Trapezoid.width self) (Trapezoid.height self)
    (Trapezoid.x self) (Trapezoid.y self) (Trapezoid.repetition self)
  = Ok self ->
  reads_back 0 (Trapezoid.write self) (read_record Trapezoid.read) self.
Proof.
  intros Hrep Hvalid. destruct self. cbn in Hvalid.
  unfold Trapezoid.write, read_record, Trapezoid.read.
  cbn [Trapezoid.is_vertical Trapezoid.delta_a Trapezoid.delta_b
       Trapezoid.layer Trapezoid.datatype Trapezoid.width Trapezoid.height
       Trapezoid.x Trapezoid.y Trapezoid.repetition].
  destruct (delta_b =? 0) eqn:Hb;
    [apply Z.eqb_eq in Hb; subst
    | destruct (delta_a =? 0) eqn:Ha; [apply Z.eqb_eq in Ha; subst|]];
    rb_norm; repeat rb_step.
Qed.

Lemma XGeometry_codec `{BasicCodec} (self : XGeometry.t) :
  round_trips repetition_write read_repetition ->
  reads_back 0 (XGeometry.write self) (read_record XGeometry.read) self.
Proof.
  intros Hrep. destruct self.
  unfold XGeometry.write, read_record, XGeometry.read. rb_norm.
  repeat rb_step.
Qed.

Lemma Polygon_codec `{BasicCodec} (self : Polygon.t) (fast : bool) :
  round_trips repetition_write read_repetition ->
  round_trips (fun pl => write_point_list pl true fast) read_point_list ->
  Polygon.__init__ (Polygon.point_list self)
    (Polygon.layer self) (Polygon.datatype self)
    (Polygon.x self) (Polygon.y self) (Polygon.repetition self)
  = Ok self ->
  reads_back 0 (Polygon.write self fast) (read_record Polygon.read) self.
Proof.
  intros Hrep Hpl Hvalid. destruct self. cbn in Hvalid.
  unfold Polygon.write, read_record, Polygon.read. rb_norm.
  repeat rb_step.
Qed.

(** *** The classes with a header byte *)

(** X8: whenever [Circle.write] succeeds, it has appended the bytes it
    counts, and reading a record id and then [Circle.read] on these bytes
    gives the record back and consumes nothing more; the repetition codec
    of basic.py is assumed to round-trip. *)
Theorem Circle_write_read `{BasicCodec} (self : Circle.t) :
  round_trips repetition_write read_repetition ->
  reads_back 0 (Circle.write self) (read_record Circle.read) self.
Proof. apply Circle_codec. Qed.

Lemma Circle_write_read_witness :
  exists bs : list byte,
    @Circle.write refusing_codec
      (Circle.mk (Some 1) None (Some (-30)) (Some 40) None (Some 300)) []
    = Ok (Z.of_nat (length bs), bs)
    /\ forall rest : stream,
        read_record (@Circle.read refusing_codec) (bs ++ rest)
        = Ok (Circle.mk (Some 1) None (Some (-30)) (Some 40) None (Some 300),
              rest).
Proof.
  eexists. eapply reads_back_run; [|vm_compute; reflexivity].
  apply (@Circle_write_read refusing_codec).
  exact refusing_repetition_round_trips.
Defined.

(** X9: a [Rectangle] that is not a square with a height is read back from
    the bytes [Rectangle.write] appends. *)
Theorem Rectangle_write_read `{BasicCodec} (self : Rectangle.t) :
  round_trips repetition_write read_repetition ->
  Rectangle.is_square self && is_not_None (Rectangle.height self) = false ->
  reads_back 0 (Rectangle.write self) (read_record Rectangle.read) self.
Proof. apply Rectangle_codec. Qed.

Lemma Rectangle_write_read_witness :
  exists bs : list byte,
    @Rectangle.write refusing_codec
      (Rectangle.mk (Some 1) (Some 2) (Some 10) None (Some (-5)) None None
                    true) []
    = Ok (Z.of_nat (length bs), bs)
    /\ forall rest : stream,
        read_record (@Rectangle.read refusing_codec) (bs ++ rest)
        = Ok (Rectangle.mk (Some 1) (Some 2) (Some 10) None (Some (-5)) None
                           None true,
              rest).
Proof.
  eexists. eapply reads_back_run; [|vm_compute; reflexivity].
  apply (@Rectangle_write_read refusing_codec).
  - exact refusing_repetition_round_trips.
  - reflexivity.
Defined.

(** X10: a [Trapezoid] that its constructor accepts is read back from the
    bytes [Trapezoid.write] appends, whichever of the ids 23, 24 and 25 the
    writer chooses: the delta that the id leaves out is the zero that the
    reader's constructor defaults to. *)
Theorem Trapezoid_write_read `{BasicCodec} (self : Trapezoid.t) :
  round_trips repetition_write read_repetition ->
  Trapezoid.__init__ (Trapezoid.is_vertical self)
    (Trapezoid.delta_a self) (Trapezoid.delta_b self)
    (Trapezoid.layer self) (Trapezoid.datatype self)
    (Trapezoid.width self) (Trapezoid.height self)
    (Trapezoid.x self) (Trapezoid.y self) (Trapezoid.repetition self)
  = Ok self ->
  reads_back 0 (Trapezoid.write self) (read_record Trapezoid.read) self.
Proof. apply Trapezoid_codec. Qed.

Lemma Trapezoid_write_read_witness :
  exists bs : list byte,
    @Trapezoid.write refusing_codec
      (Trapezoid.mk (Some 1) (Some 2) (Some 10) (Some 20) None (Some 7) None
                    0 (-4) true) []
    = Ok (Z.of_nat (length bs), bs)
    /\ forall rest : stream,
        read_record (@Trapezoid.read refusing_codec) (bs ++ rest)
        = Ok (Trapezoid.mk (Some 1) (Some 2) (Some 10) (Some 20) None (Some 7)
                           None 0 (-4) true,
              rest).
Proof.
  eexists. eapply reads_back_run; [|vm_compute; reflexivity].
  apply (@Trapezoid_write_read refusing_codec).
  - exact refusing_repetition_round_trips.
  - reflexivity.
Defined.

(** X11: a [CTrapezoid] that its constructor accepts is read back from the
    bytes [CTrapezoid.write] appends. *)
Theorem CTrapezoid_write_read `{BasicCodec} (self : CTrapezoid.t) :
  round_trips repetition_write read_repetition ->
  CTrapezoid.__init__ (CTrapezoid.ctrapezoid_type self)
    (CTrapezoid.layer self) (CTrapezoid.datatype self)
    (CTrapezoid.width self) (CTrapezoid.height self)
    (CTrapezoid.x self) (CTrapezoid.y self) (CTrapezoid.repetition self)
  = Ok self ->
  reads_back 0 (CTrapezoid.write self) (read_record CTrapezoid.read) self.
Proof.
  intros Hrep Hvalid. destruct self.
  cbn [CTrapezoid.ctrapezoid_type CTrapezoid.layer CTrapezoid.datatype
       CTrapezoid.width CTrapezoid.height CTrapezoid.x CTrapezoid.y
       CTrapezoid.repetition] in Hvalid.
  unfold CTrapezoid.write, read_record, CTrapezoid.read.
  cbn [CTrapezoid.ctrapezoid_type CTrapezoid.layer CTrapezoid.datatype
       CTrapezoid.width CTrapezoid.height CTrapezoid.x CTrapezoid.y
       CTrapezoid.repetition].
  eapply reads_back_bind; [apply uint_round_trips|].
  intros n. change (negb (26 =? 26)) with false. cbv iota.
  eapply reads_back_bind; [apply bool_byte_round_trips|].
  intros n0. cbv beta iota.
  do 8 (eapply reads_back_bind;
        [ apply reads_back_if;
          first [ apply uint_round_trips | apply sint_round_trips
                | assumption ]
        | intros ?n; cbv beta zeta ]).
  apply reads_back_lift. assumption.
Qed.

Lemma CTrapezoid_write_read_witness :
  exists bs : list byte,
    @CTrapezoid.write refusing_codec
      (CTrapezoid.mk (Some 20) (Some 1) (Some 2) None (Some 8) (Some 3)
                     (Some (-3)) None) []
    = Ok (Z.of_nat (length bs), bs)
    /\ forall rest : stream,
        read_record (@CTrapezoid.read refusing_codec) (bs ++ rest)
        = Ok (CTrapezoid.mk (Some 20) (Some 1) (Some 2) None (Some 8) (Some 3)
                            (Some (-3)) None,
              rest).
Proof.
  eexists. eapply reads_back_run; [|vm_compute; reflexivity].
  apply (@CTrapezoid_write_read refusing_codec).
  - exact refusing_repetition_round_trips.
  - vm_compute. reflexivity.
Defined.

(** X12: an [XGeometry] is read back from the bytes [XGeometry.write]
    appends. *)
Theorem XGeometry_write_read `{BasicCodec} (self : XGeometry.t) :
  round_trips repetition_write read_repetition ->
  reads_back 0 (XGeometry.write self) (read_record XGeometry.read) self.
Proof. apply XGeometry_codec. Qed.

Lemma XGeometry_write_read_witness :
  exists bs : list byte,
    @XGeometry.write refusing_codec
      (XGeometry.mk 7 [1; 2; 3] (Some 1) None (Some (-30)) (Some 40) None) []
    = Ok (Z.of_nat (length bs), bs)
    /\ forall rest : stream,
        read_record (@XGeometry.read refusing_codec) (bs ++ rest)
        = Ok (XGeometry.mk 7 [1; 2; 3] (Some 1) None (Some (-30)) (Some 40)
                           None,
              rest).
Proof.
  eexists. eapply reads_back_run; [|vm_compute; reflexivity].
  apply (@XGeometry_write_read refusing_codec).
  exact refusing_repetition_round_trips.
Defined.

(** X13: a [Polygon] that its constructor accepts is read back from the
    bytes [Polygon.write] appends, in the fast mode and in the other; the
    point-list and repetition codecs of basic.py are assumed to
    round-trip. *)
Theorem Polygon_write_read `{BasicCodec} (self : Polygon.t) (fast : bool) :
  round_trips repetition_write read_repetition ->
  round_trips (fun pl => write_point_list pl true fast) read_point_list ->
  Polygon.__init__ (Polygon.point_list self)
    (Polygon.layer self) (Polygon.datatype self)
    (Polygon.x self) (Polygon.y self) (Polygon.repetition self)
  = Ok self ->
  reads_back 0 (Polygon.write self fast) (read_record Polygon.read) self.
Proof. apply Polygon_codec. Qed.

Lemma Polygon_write_read_witness :
  exists bs : list byte,
    @Polygon.write refusing_codec
      (Polygon.mk (Some 1) (Some 2) (Some 3) (Some 4) None None) true []
    = Ok (Z.of_nat (length bs), bs)
    /\ forall rest : stream,
        read_record (@Polygon.read refusing_codec) (bs ++ rest)
        = Ok (Polygon.mk (Some 1) (Some 2) (Some 3) (Some 4) None None, rest).
Proof.
  eexists. eapply reads_back_run; [|vm_compute; reflexivity].
  apply (@Polygon_write_read refusing_codec).
  - exact refusing_repetition_round_trips.
  - intros pl s n s' Hw. discriminate Hw.
  - reflexivity.
Defined.

(** *** The classes without a header byte *)

(** X14: the records without a header byte are read back from the bytes
    their [write] appends: [Pad], [XYMode] (the id carries the mode),
    [XName] (the id says whether a reference number follows), [XElement],
    and a [CBlock] whose compression type is the one the constructor
    accepts. *)
Theorem plain_records_write_read :
  (forall self : Pad.t,
      reads_back 0 (Pad.write self) (read_record Pad.read) self)
  /\ (forall self : XYMode.t,
         reads_back 0 (XYMode.write self) (read_record XYMode.read) self)
  /\ (forall self : XName.t,
         reads_back 0 (XName.write self) (read_record XName.read) self)
  /\ (forall self : XElement.t,
         reads_back 0 (XElement.write self) (read_record XElement.read) self)
  /\ (forall self : CBlock.t,
         CBlock.compression_type self = 0 ->
         reads_back 0 (CBlock.write self) (read_record CBlock.read) self).
Proof.
  repeat split.
  - intros []. unfold Pad.write, read_record.
    intros s n s' Hw. apply uint_round_trips in Hw.
    destruct Hw as (bs & -> & -> & Hr). exists bs.
    split; [reflexivity|]. split; [reflexivity|].
    intros rest. unfold io_bind. rewrite Hr. reflexivity.
  - intros [[]]; unfold XYMode.write, read_record;
      intros s n s' Hw; apply uint_round_trips in Hw;
      destruct Hw as (bs & -> & -> & Hr); exists bs;
      (split; [reflexivity|]); (split; [reflexivity|]);
      intros rest; unfold io_bind; rewrite Hr; reflexivity.
  - intros [attribute bstring [ref|]];
      unfold XName.write, read_record, XName.read; rb_norm;
      repeat rb_step.
  - intros [attribute bstring].
    unfold XElement.write, read_record, XElement.read. rb_norm.
    repeat rb_step.
  - intros [ctype count bytes] Hc. cbn in Hc. subst.
    unfold CBlock.write, read_record, CBlock.read. rb_norm.
    repeat rb_step.
Qed.

Lemma plain_records_write_read_witness :
  exists bs : list byte,
    CBlock.write (CBlock.mk 0 5 [120; 1; 2]) []
    = Ok (Z.of_nat (length bs), bs)
    /\ forall rest : stream,
        read_record CBlock.read (bs ++ rest)
        = Ok (CBlock.mk 0 5 [120; 1; 2], rest).
Proof.
  eexists. eapply reads_back_run; [|vm_compute; reflexivity].
  apply (proj2 (proj2 (proj2 (proj2 plain_records_write_read)))).
  reflexivity.
Defined.

(** ** Writing with deduplication, reading with merging *)

(** Rewrites an attribute of the deduplicated record back over the calls
    that do not assign it. *)
Ltac dedup_frame_back :=
  first
    [ reflexivity
    | match goal with
      | H : dedup_field _ _ _ _ = Ok (?r', _) |- ?f ?r' = _ =>
          rewrite (proj1 (dedup_field_frame f (fun _ => tt)
                            _ _ _ _ _ _ H) (fun _ _ => eq_refl));
          dedup_frame_back
      | H : dedup_repetition _ _ = Ok (?r', _) |- ?f ?r' = _ =>
          rewrite (proj1 (dedup_repetition_frame f (fun _ => tt)
                            _ _ _ _ H) (fun _ _ => eq_refl));
          dedup_frame_back
      | H : dedup_coordinates _ _ _ _ = Ok (?r', _) |- ?f ?r' = _ =>
          rewrite (proj1 (dedup_coordinates_frame f (fun _ => tt)
                            _ _ _ _ _ _ H)
                         (fun _ _ => eq_refl) (fun _ _ => eq_refl));
          dedup_frame_back
      end ].

(** [dedup_field] leaves the attribute as it was or unset. *)
Lemma dedup_field_keeps_or_clears {R A : Type} `{EqDecision A}
    (record : R) (r_field : attr R (option A))
    (modals : Modals.t) (m_field : attr Modals.t (option A))
    (record' : R) (modals' : Modals.t) (f : R -> option A) :
  dedup_field record r_field modals m_field = Ok (record', modals') ->
  (forall r, getattr r_field r = Ok (f r)) ->
  f record' = f record \/ f record' = None.
Proof.
  intros Hc Hget. apply dedup_field_inv in Hc.
  destruct Hc as [(-> & _) | [(-> & _) | (v & -> & _)]]; auto.
  right. pose proof (getattr_setattr r_field record None) as Hlaw.
  rewrite Hget in Hlaw. congruence.
Qed.

(** Deduplication does not turn a rectangle into a square. *)
Lemma Rectangle_dedup_square
    (self deduped : Rectangle.t) (modals modals' : Modals.t) :
  Rectangle.deduplicate_with_modals self modals = Ok (deduped, modals') ->
  Rectangle.is_square deduped = Rectangle.is_square self.
Proof.
  intros Hc. unfold Rectangle.deduplicate_with_modals in Hc.
  split_chain Hc. destruct (Rectangle.is_square _); dedup_frame_back.
Qed.

(** Deduplication leaves a trapezoid that the constructor accepts. *)
Lemma Trapezoid_dedup_valid
    (self deduped : Trapezoid.t) (modals modals' : Modals.t) :
  Trapezoid.deduplicate_with_modals self modals = Ok (deduped, modals') ->
  Trapezoid.__init__ (Trapezoid.is_vertical self)
    (Trapezoid.delta_a self) (Trapezoid.delta_b self)
    (Trapezoid.layer self) (Trapezoid.datatype self)
    (Trapezoid.width self) (Trapezoid.height self)
    (Trapezoid.x self) (Trapezoid.y self) (Trapezoid.repetition self)
  = Ok self ->
  Trapezoid.__init__ (Trapezoid.is_vertical deduped)
    (Trapezoid.delta_a deduped) (Trapezoid.delta_b deduped)
    (Trapezoid.layer deduped) (Trapezoid.datatype deduped)
    (Trapezoid.width deduped) (Trapezoid.height deduped)
    (Trapezoid.x deduped) (Trapezoid.y deduped) (Trapezoid.repetition deduped)
  = Ok deduped.
Proof.
  intros Hc Hvalid. unfold Trapezoid.deduplicate_with_modals in Hc.
  split_chain Hc.
  assert (Hv : Trapezoid.is_vertical deduped = Trapezoid.is_vertical self)
    by dedup_frame_back.
  assert (Ha : Trapezoid.delta_a deduped = Trapezoid.delta_a self)
    by dedup_frame_back.
  assert (Hb : Trapezoid.delta_b deduped = Trapezoid.delta_b self)
    by dedup_frame_back.
  assert (Hh : Trapezoid.height deduped = Trapezoid.height self
               \/ Trapezoid.height deduped = None).
  { destruct (dedup_field_keeps_or_clears _ _ _ _ _ _ Trapezoid.height Hc
                (fun _ => eq_refl)) as [-> | ->]; [left | right; reflexivity].
    clear Hc. dedup_frame_back. }
  assert (Hw : Trapezoid.width deduped = Trapezoid.width self
               \/ Trapezoid.width deduped = None).
  { rewrite (proj1 (dedup_field_frame Trapezoid.width (fun _ => tt)
                      _ _ _ _ _ _ Hc) (fun _ _ => eq_refl)).
    clear Hc.
    match goal with
    | H : dedup_field _ Trapezoid._width _ _ = Ok _ |- _ =>
        destruct (dedup_field_keeps_or_clears _ _ _ _ _ _ Trapezoid.width H
                    (fun _ => eq_refl)) as [-> | ->];
        [left; clear H | right; reflexivity]
    end.
    dedup_frame_back. }
  destruct self, deduped. cbn in Hv, Ha, Hb, Hh, Hw, Hvalid |- *. subst.
  unfold Trapezoid.__init__ in Hvalid |- *.
  destruct is_vertical.
  - destruct Hh as [-> | ->]; [|reflexivity].
    destruct height as [h|]; [|reflexivity].
    destruct (h <? delta_b - delta_a); [discriminate | reflexivity].
  - destruct Hw as [-> | ->]; [|reflexivity].
    destruct width as [w|]; [|reflexivity].
    destruct (w <? delta_b - delta_a); [discriminate | reflexivity].
Qed.

(** One step of the proof below: what [dedup_write] did, against what the
    reader does. *)
Lemma recovers_intro {R : Type}
    (dedup merge : R -> Modals.t -> result (R * Modals.t))
    (write : R -> io Z) (read : Z -> io R) (self : R) :
  (forall modals, in_step dedup merge self modals) ->
  (forall modals deduped modals',
      dedup self modals = Ok (deduped, modals') ->
      reads_back 0 (write deduped) (read_record read) deduped) ->
  recovers dedup merge write read self.
Proof.
  intros Hstep Hcodec modals s n s' deduped modals' Hdw.
  unfold dedup_write in Hdw.
  apply bind_Ok in Hdw. destruct Hdw as ([d m] & Hd & Hdw).
  apply bind_Ok in Hdw. destruct Hdw as ([n1 s1] & Hw & Hdw).
  inversion Hdw; subst; clear Hdw.
  specialize (Hstep modals). apply in_step_inv in Hstep.
  destruct Hstep as (r1 & M1 & Hd' & Hm).
  rewrite Hd in Hd'. inversion Hd'; subst; clear Hd'.
  apply (Hcodec _ _ _ Hd) in Hw. destruct Hw as (bs & -> & -> & Hr).
  exists bs. repeat split; auto.
Qed.

(** What [recovers] says of one successful run from the empty stream. *)
Lemma recovers_run {R : Type}
    (dedup merge : R -> Modals.t -> result (R * Modals.t))
    (write : R -> io Z) (read : Z -> io R) (self : R)
    (modals : Modals.t) (n : Z) (bs : list byte)
    (deduped : R) (modals' : Modals.t) :
  recovers dedup merge write read self ->
  dedup_write dedup write self modals [] = Ok (n, bs, deduped, modals') ->
  dedup_write dedup write self modals []
  = Ok (Z.of_nat (length bs), bs, deduped, modals')
  /\ (forall rest : stream,
         read_record read (bs ++ rest) = Ok (deduped, rest))
  /\ merge deduped modals = Ok (self, modals').
Proof.
  intros Hrec Hdw.
  destruct (Hrec modals [] n bs deduped modals' Hdw)
    as (bs' & Hs & Hn & Hr & Hm).
  cbn in Hs. subst bs'. rewrite Hdw, Hn. auto.
Qed.

(** X15: for a fully populated [Circle], [XGeometry], [Rectangle] or valid
    [Trapezoid], whatever [dedup_write] wrote is read back by a reader
    whose bank is in the state the writer's bank was in: the reader gets
    the deduplicated record, merging it gives the original record, and the
    reader's bank ends as the writer's did. *)
Theorem dedup_write_recovered `{BasicCodec} :
  round_trips repetition_write read_repetition ->
  (forall self : Circle.t,
      fully_populated (Circle_ self) = true ->
      recovers Circle.deduplicate_with_modals Circle.merge_with_modals
               Circle.write Circle.read self)
  /\ (forall self : XGeometry.t,
         fully_populated (XGeometry_ self) = true ->
         recovers XGeometry.deduplicate_with_modals
                  XGeometry.merge_with_modals
                  XGeometry.write XGeometry.read self)
  /\ (forall self : Rectangle.t,
         fully_populated (Rectangle_ self) = true ->
         recovers Rectangle.deduplicate_with_modals
                  Rectangle.merge_with_modals
                  Rectangle.write Rectangle.read self)
  /\ (forall self : Trapezoid.t,
         fully_populated (Trapezoid_ self) = true ->
         Trapezoid.__init__ (Trapezoid.is_vertical self)
           (Trapezoid.delta_a self) (Trapezoid.delta_b self)
           (Trapezoid.layer self) (Trapezoid.datatype self)
           (Trapezoid.width self) (Trapezoid.height self)
           (Trapezoid.x self) (Trapezoid.y self) (Trapezoid.repetition self)
         = Ok self ->
         recovers Trapezoid.deduplicate_with_modals
                  Trapezoid.merge_with_modals
                  Trapezoid.write Trapezoid.read self).
Proof.
  intros Hrep. repeat split.
  - intros self Hfull. apply recovers_intro.
    + intros modals. apply Circle_in_step. assumption.
    + intros. apply Circle_codec. assumption.
  - intros self Hfull. apply recovers_intro.
    + intros modals. apply XGeometry_in_step. assumption.
    + intros. apply XGeometry_codec. assumption.
  - intros self Hfull. apply recovers_intro.
    + intros modals. apply Rectangle_in_step. assumption.
    + intros modals deduped modals' Hd. apply Rectangle_codec; [assumption|].
      rewrite (Rectangle_dedup_square _ _ _ _ Hd).
      cbn in Hfull. destruct (Rectangle.is_square self);
        [discriminate | reflexivity].
  - intros self Hfull Hvalid. apply recovers_intro.
    + intros modals. apply Trapezoid_in_step. assumption.
    + intros modals deduped modals' Hd. apply Trapezoid_codec; [assumption|].
      exact (Trapezoid_dedup_valid _ _ _ _ Hd Hvalid).
Qed.

Lemma dedup_write_recovered_witness :
  exists (bs : list byte) (deduped : Circle.t) (modals' : Modals.t),
    dedup_write Circle.deduplicate_with_modals (@Circle.write refusing_codec)
      (Circle.mk (Some 1) (Some 2) (Some 30) (Some 40) None (Some 5))
      (Modals.set_circle_radius Modals.new (Some 5)) []
    = Ok (Z.of_nat (length bs), bs, deduped, modals')
    /\ (forall rest : stream,
           read_record (@Circle.read refusing_codec) (bs ++ rest)
           = Ok (deduped, rest))
    /\ Circle.merge_with_modals deduped
         (Modals.set_circle_radius Modals.new (Some 5))
       = Ok (Circle.mk (Some 1) (Some 2) (Some 30) (Some 40) None (Some 5),
             modals').
Proof.
  do 3 eexists. eapply recovers_run; [|vm_compute; reflexivity].
  apply (proj1 (@dedup_write_recovered refusing_codec
                  refusing_repetition_round_trips)).
  reflexivity.
Defined.

(** ** What the code never does *)

(** After a successful [dedup_field] the record attribute is unset or
    equal to the bank's. *)
Lemma dedup_field_synced {R A : Type} `{EqDecision A}
    (record : R) (r_field : attr R (option A))
    (modals : Modals.t) (m_field : attr Modals.t (option A))
    (record' : R) (modals' : Modals.t)
    (f : R -> option A) (g : Modals.t -> option A) :
  dedup_field record r_field modals m_field = Ok (record', modals') ->
  (forall r, getattr r_field r = Ok (f r)) ->
  (forall m, getattr m_field m = Ok (g m)) ->
  f record' = None \/ g modals' = f record'.
Proof.
  intros Hc Hf Hg. unfold dedup_field in Hc.
  rewrite Hf, Hg in Hc. cbn [bind] in Hc.
  destruct (f record) as [v|] eqn:Hr; cbn [is_not_None] in Hc.
  - destruct (is_not_None (g modals) && bool_decide (g modals = Some v));
      inversion Hc; subst; clear Hc.
    + left. pose proof (getattr_setattr r_field record None) as Hlaw.
      rewrite Hf in Hlaw. congruence.
    + right. pose proof (getattr_setattr m_field modals (Some v)) as Hlaw.
      rewrite Hg in Hlaw. congruence.
  - destruct (negb (is_not_None (g modals))); [discriminate|].
    inversion Hc; subst. auto.
Qed.

(** A second [dedup_field] on an attribute that is unset or equal to the
    bank's leaves it unset. *)
Lemma dedup_field_again {R A : Type} `{EqDecision A}
    (record : R) (r_field : attr R (option A))
    (modals : Modals.t) (m_field : attr Modals.t (option A))
    (record' : R) (modals' : Modals.t)
    (f : R -> option A) (g : Modals.t -> option A) :
  dedup_field record r_field modals m_field = Ok (record', modals') ->
  (forall r, getattr r_field r = Ok (f r)) ->
  (forall m, getattr m_field m = Ok (g m)) ->
  f record = None \/ g modals = f record ->
  f record' = None.
Proof.
  intros Hc Hf Hg Hsync. unfold dedup_field in Hc.
  rewrite Hf, Hg in Hc. cbn [bind] in Hc.
  destruct (f record) as [v|] eqn:Hr; cbn [is_not_None] in Hc.
  - destruct Hsync as [Hsync | Hsync]; [discriminate|].
    rewrite Hsync in Hc. cbn [is_not_None andb] in Hc.
    rewrite bool_decide_true in Hc by reflexivity.
    inversion Hc; subst.
    pose proof (getattr_setattr r_field record None) as Hlaw.
    rewrite Hf in Hlaw. congruence.
  - destruct (negb (is_not_None (g modals))); [discriminate|].
    inversion Hc; subst. assumption.
Qed.

(** Carries a fact about [f] of the record and [g] of the bank over a
    call that assigns neither. *)
Ltac carry_sync H f g Hsync :=
  let Hf := fresh "Hf" in
  let Hg := fresh "Hg" in
  destruct (dedup_field_frame f g _ _ _ _ _ _ H) as [Hf Hg];
  specialize (Hf (fun _ _ => eq_refl));
  specialize (Hg (fun _ _ => eq_refl));
  rewrite <- Hf, <- Hg in Hsync; clear Hf Hg.

(** Rewrites an attribute of the merged record back over the calls that
    do not assign it, to the record that was merged. *)
Ltac frame_back_adjust :=
  first
    [ reflexivity
    | match goal with
      | H : adjust_field _ _ _ _ = Ok (?r', _) |- ?f ?r' = _ =>
          rewrite (proj1 (adjust_field_frame f (fun _ => tt)
                            _ _ _ _ _ _ H) (fun _ _ => eq_refl));
          frame_back_adjust
      | H : adjust_repetition _ _ = Ok (?r', _) |- ?f ?r' = _ =>
          rewrite (proj1 (adjust_repetition_frame f (fun _ => tt)
                            _ _ _ _ H) (fun _ _ => eq_refl));
          frame_back_adjust
      | H : adjust_coordinates _ _ _ _ = Ok (?r', _) |- ?f ?r' = _ =>
          rewrite (proj1 (adjust_coordinates_frame f (fun _ => tt)
                            _ _ _ _ _ _ H)
                         (fun _ _ => eq_refl) (fun _ _ => eq_refl));
          frame_back_adjust
      end ].

(** [CTrapezoid.deduplicate_with_modals] deduplicates [width] and [height]
    twice: the second call finds in the bank what the first one stored
    there. *)
Lemma CTrapezoid_dedup_dimensions
    (self deduped : CTrapezoid.t) (modals modals' : Modals.t) :
  CTrapezoid.deduplicate_with_modals self modals = Ok (deduped, modals') ->
  CTrapezoid.width deduped = None /\ CTrapezoid.height deduped = None.
Proof.
  intros Hc. unfold CTrapezoid.deduplicate_with_modals in Hc.
  split_chain Hc.
  (* what the first two calls leave, carried to the second two *)
  pose proof (dedup_field_synced _ _ _ _ _ _
                CTrapezoid.width Modals.geometry_w Hstep3
                (fun _ => eq_refl) (fun _ => eq_refl)) as Hw.
  pose proof (dedup_field_synced _ _ _ _ _ _
                CTrapezoid.height Modals.geometry_h Hstep4
                (fun _ => eq_refl) (fun _ => eq_refl)) as Hh.
  carry_sync Hstep4 CTrapezoid.width Modals.geometry_w Hw.
  carry_sync Hstep5 CTrapezoid.width Modals.geometry_w Hw.
  carry_sync Hstep5 CTrapezoid.height Modals.geometry_h Hh.
  (* the second call on the width *)
  match type of Hstep6 with
  | (if ?c then _ else _) = _ => destruct c
  end.
  - destruct (CTrapezoid.width _) eqn:Hwidth in Hstep6; [discriminate|].
    inversion Hstep6; subst; clear Hstep6.
    match type of Hc with
    | (if ?c then _ else _) = _ => destruct c
    end.
    + destruct (CTrapezoid.height _) eqn:Hheight in Hc; [discriminate|].
      inversion Hc; subst. auto.
    + split.
      * rewrite (proj1 (dedup_field_frame CTrapezoid.width (fun _ => tt)
                          _ _ _ _ _ _ Hc) (fun _ _ => eq_refl)).
        assumption.
      * exact (dedup_field_again _ _ _ _ _ _
                 CTrapezoid.height Modals.geometry_h Hc
                 (fun _ => eq_refl) (fun _ => eq_refl) Hh).
  - pose proof (dedup_field_again _ _ _ _ _ _
                  CTrapezoid.width Modals.geometry_w Hstep6
                  (fun _ => eq_refl) (fun _ => eq_refl) Hw) as Hwidth.
    carry_sync Hstep6 CTrapezoid.height Modals.geometry_h Hh.
    match type of Hc with
    | (if ?c then _ else _) = _ => destruct c
    end.
    + destruct (CTrapezoid.height _) eqn:Hheight in Hc; [discriminate|].
      inversion Hc; subst. auto.
    + split.
      * rewrite (proj1 (dedup_field_frame CTrapezoid.width (fun _ => tt)
                          _ _ _ _ _ _ Hc) (fun _ _ => eq_refl)).
        assumption.
      * exact (dedup_field_again _ _ _ _ _ _
                 CTrapezoid.height Modals.geometry_h Hc
                 (fun _ => eq_refl) (fun _ => eq_refl) Hh).
Qed.

(** X16: whenever [CTrapezoid.deduplicate_with_modals] succeeds, [width]
    and [height] are unset in the record it leaves, whatever they were and
    whatever the bank held. *)
Theorem CTrapezoid_dedup_clears_dimensions
    (self deduped : CTrapezoid.t) (modals modals' : Modals.t) :
  CTrapezoid.deduplicate_with_modals self modals = Ok (deduped, modals') ->
  CTrapezoid.width deduped = None /\ CTrapezoid.height deduped = None.
Proof. apply CTrapezoid_dedup_dimensions. Qed.

Lemma CTrapezoid_dedup_clears_dimensions_witness :
  CTrapezoid.width
    (CTrapezoid.mk (Some 0) (Some 1) (Some 2) None None (Some 3) (Some 4) None)
  = None
  /\ CTrapezoid.height
       (CTrapezoid.mk (Some 0) (Some 1) (Some 2) None None (Some 3) (Some 4)
                      None)
     = None.
Proof.
  apply (CTrapezoid_dedup_clears_dimensions
           (CTrapezoid.mk (Some 0) (Some 1) (Some 2) (Some 10) (Some 5)
                          (Some 3) (Some 4) None)
           _ Modals.new
           (Modals.set_ctrapezoid_type
              (Modals.set_geometry_h
                 (Modals.set_geometry_w
                    (Modals.set_datatype
                       (Modals.set_layer
                          (Modals.set_geometry_y
                             (Modals.set_geometry_x Modals.new 3) 4)
                          (Some 1))
                       (Some 2))
                    (Some 10))
                 (Some 5))
              (Some 0))).
  vm_compute. reflexivity.
Defined.

(** The width that [CTrapezoid.merge_with_modals] gives a record without
    one is the bank's. *)
Lemma CTrapezoid_merge_width
    (self merged : CTrapezoid.t) (modals modals' : Modals.t) :
  CTrapezoid.merge_with_modals self modals = Ok (merged, modals') ->
  CTrapezoid.width self = None ->
  CTrapezoid.width merged = None
  \/ CTrapezoid.width merged = Modals.geometry_w modals.
Proof.
  intros Hc Hnone. unfold CTrapezoid.merge_with_modals in Hc.
  split_chain Hc.
  (* the last call leaves the width alone *)
  match type of Hc with
  | (if ?c then _ else _) = Ok _ =>
      destruct c;
      [ destruct (is_not_None _) in Hc; [discriminate|];
        inversion Hc; subst; clear Hc
      | rewrite (proj1 (adjust_field_frame CTrapezoid.width (fun _ => tt)
                          _ _ _ _ _ _ Hc) (fun _ _ => eq_refl)); clear Hc ]
  end.
  all: match goal with
       | H : (if ?c then _ else _) = Ok _ |- _ =>
           destruct c;
           [ destruct (CTrapezoid.width _) eqn:Hset in H; [discriminate|];
             inversion H; subst; clear H; left; assumption
           | apply adjust_field_inv in H;
             destruct H as [(v & Hget & -> & ->) | (v & Hget & Hm & -> & ->)] ]
       end.
  all: cbn in Hget; inversion Hget as [Hv].
  1, 3: assert (Hback : CTrapezoid.width t7 = CTrapezoid.width self)
          by frame_back_adjust; congruence.
  all: right; cbn in Hm |- *; inversion Hm as [Hw]; symmetry;
    bank_frames Modals.geometry_w; repetition_frames Modals.geometry_w;
    congruence.
Qed.

(** The height that [CTrapezoid.merge_with_modals] gives a record without
    one is the bank's. *)
Lemma CTrapezoid_merge_height
    (self merged : CTrapezoid.t) (modals modals' : Modals.t) :
  CTrapezoid.merge_with_modals self modals = Ok (merged, modals') ->
  CTrapezoid.height self = None ->
  CTrapezoid.height merged = None
  \/ CTrapezoid.height merged = Modals.geometry_h modals.
Proof.
  intros Hc Hnone. unfold CTrapezoid.merge_with_modals in Hc.
  split_chain Hc.
  match type of Hc with
  | (if ?c then _ else _) = Ok _ =>
      destruct c;
      [ destruct (CTrapezoid.height _) eqn:Hset in Hc; [discriminate|];
        inversion Hc; subst; clear Hc; left; assumption
      | apply adjust_field_inv in Hc;
        destruct Hc as [(v & Hget & -> & ->) | (v & Hget & Hm & -> & ->)] ]
  end.
  all: cbn in Hget; inversion Hget as [Hv].
  - exfalso.
    assert (Hback : CTrapezoid.height t9 = CTrapezoid.height self).
    { match goal with
      | H : (if ?c then _ else _) = Ok _ |- _ =>
          destruct c;
          [ destruct (is_not_None _) in H; [discriminate|];
            inversion H; subst; clear H
          | rewrite (proj1 (adjust_field_frame CTrapezoid.height (fun _ => tt)
                              _ _ _ _ _ _ H) (fun _ _ => eq_refl)); clear H ]
      end; frame_back_adjust. }
    congruence.
  - right. cbn in Hm |- *. inversion Hm as [Hh]. symmetry.
    match goal with
    | H : (if ?c then _ else _) = Ok _ |- _ =>
        destruct c;
        [ destruct (is_not_None _) in H; [discriminate|];
          inversion H; subst; clear H
        | ]
    end;
      bank_frames Modals.geometry_h; repetition_frames Modals.geometry_h;
      congruence.
Qed.

(** X17: a [CTrapezoid] whose width (or height) is set and differs from
    what the bank holds is not recovered by merging the deduplicated
    record against a bank in the same starting state: deduplication has
    removed the dimension, and the merge can only fill in the bank's. *)
Theorem CTrapezoid_dimension_not_recovered
    (self deduped : CTrapezoid.t) (modals modals1 modals2 : Modals.t) :
  CTrapezoid.deduplicate_with_modals self modals = Ok (deduped, modals1) ->
  (is_not_None (CTrapezoid.width self) = true
   /\ Modals.geometry_w modals <> CTrapezoid.width self)
  \/ (is_not_None (CTrapezoid.height self) = true
      /\ Modals.geometry_h modals <> CTrapezoid.height self) ->
  CTrapezoid.merge_with_modals deduped modals <> Ok (self, modals2).
Proof.
  intros Hd Hdiff Hm.
  destruct (CTrapezoid_dedup_dimensions _ _ _ _ Hd) as [Hw Hh].
  destruct Hdiff as [[Hset Hne] | [Hset Hne]].
  - destruct (CTrapezoid_merge_width _ _ _ _ Hm Hw) as [E | E].
    + rewrite E in Hset. discriminate.
    + congruence.
  - destruct (CTrapezoid_merge_height _ _ _ _ Hm Hh) as [E | E].
    + rewrite E in Hset. discriminate.
    + congruence.
Qed.

Lemma CTrapezoid_dimension_not_recovered_witness :
  CTrapezoid.merge_with_modals
    (CTrapezoid.mk (Some 0) (Some 1) (Some 2) None None (Some 3) (Some 4) None)
    Modals.new
  <> Ok (CTrapezoid.mk (Some 0) (Some 1) (Some 2) (Some 10) (Some 5)
                       (Some 3) (Some 4) None,
         Modals.new).
Proof.
  apply (CTrapezoid_dimension_not_recovered
           (CTrapezoid.mk (Some 0) (Some 1) (Some 2) (Some 10) (Some 5)
                          (Some 3) (Some 4) None)
           (CTrapezoid.mk (Some 0) (Some 1) (Some 2) None None
                          (Some 3) (Some 4) None)
           Modals.new
           (Modals.set_ctrapezoid_type
              (Modals.set_geometry_h
                 (Modals.set_geometry_w
                    (Modals.set_datatype
                       (Modals.set_layer
                          (Modals.set_geometry_y
                             (Modals.set_geometry_x Modals.new 3) 4)
                          (Some 1))
                       (Some 2))
                    (Some 10))
                 (Some 5))
              (Some 0))
           Modals.new).
  - vm_compute. reflexivity.
  - left. split; [reflexivity | discriminate].
Defined.

(** *** The attribute ['path_half_width'] *)

(** A successful [dedup_field] has read the bank's attribute. *)
Lemma dedup_field_reads_bank {R A : Type} `{EqDecision A}
    (record : R) (r_field : attr R (option A))
    (modals : Modals.t) (m_field : attr Modals.t (option A))
    (record' : R) (modals' : Modals.t) :
  dedup_field record r_field modals m_field = Ok (record', modals') ->
  exists m, getattr m_field modals = Ok m.
Proof.
  unfold dedup_field. intros Hc.
  apply bind_Ok in Hc. destruct Hc as (r & _ & Hc).
  apply bind_Ok in Hc. destruct Hc as (m & Hm & _). eauto.
Qed.

(** X18: on a bank that has no attribute ['path_half_width'] (the name
    [Path] uses; the class declares [path_halfwidth]),
    [Path.deduplicate_with_modals] never succeeds; and no
    [deduplicate_with_modals], of any record, creates the attribute. *)
Theorem Path_dedup_needs_stray_attribute (modals : Modals.t) :
  Modals.path_half_width modals = None ->
  (forall self : Path.t,
      exists e, Path.deduplicate_with_modals self modals = Error e)
  /\ (forall (self self' : record) (modals' : Modals.t),
         deduplicate_with_modals self modals = Ok (self', modals') ->
         Modals.path_half_width modals' = None).
Proof.
  intros Hnone.
  assert (Hpath : forall (self deduped : Path.t) (modals' : Modals.t),
             Path.deduplicate_with_modals self modals
             <> Ok (deduped, modals')).
  { intros self deduped modals' Hc.
    unfold Path.deduplicate_with_modals in Hc. split_chain Hc.
    match goal with
    | H : dedup_field _ Path._half_width ?m _ = Ok _ |- _ =>
        apply dedup_field_reads_bank in H; destruct H as (v & Hv);
        assert (Hm : Modals.path_half_width m = None)
    end.
    { clear Hv Hc.
      bank_frames Modals.path_half_width.
      repetition_frames Modals.path_half_width. congruence. }
    cbn in Hv. rewrite Hm in Hv. discriminate. }
  split.
  - intros self.
    destruct (Path.deduplicate_with_modals self modals) as [[d m]|e] eqn:Hc;
      [|eauto].
    exfalso. exact (Hpath _ _ _ Hc).
  - intros self self' modals' Hc.
    destruct self; open_method Hc;
      try (exfalso; eapply Hpath; eassumption);
      split_chain Hc; break_tests;
      bank_frames Modals.path_half_width;
      repetition_frames Modals.path_half_width;
      try (cbn; assumption); congruence.
Qed.

Lemma Path_dedup_needs_stray_attribute_witness :
  exists e,
    Path.deduplicate_with_modals
      (Path.mk (Some 1) (Some 2) (Some 3) (Some 4) None
               (Some [(0, 0); (10, 0)]) (Some 5) None None)
      Modals.new
    = Error e.
Proof.
  apply (proj1 (Path_dedup_needs_stray_attribute Modals.new eq_refl)).
Defined.

(** X19: the variable [path_halfwidth] that [Modals] declares is never
    given a value: if it is unset, it is still unset after any successful
    [merge_with_modals] or [deduplicate_with_modals], of any record. *)
Theorem path_halfwidth_never_set
    (self self' : record) (modals modals' : Modals.t) :
  Modals.path_halfwidth modals = None ->
  merge_with_modals self modals = Ok (self', modals')
  \/ deduplicate_with_modals self modals = Ok (self', modals') ->
  Modals.path_halfwidth modals' = None.
Proof.
  intros Hnone [Hc | Hc];
    destruct self; open_method Hc;
    split_chain Hc; break_tests;
    bank_frames Modals.path_halfwidth;
    repetition_frames Modals.path_halfwidth;
    try reflexivity; try exact Hnone; congruence.
Qed.

Lemma path_halfwidth_never_set_witness :
  Modals.path_halfwidth
    (Modals.set_path_extension_end
       (Modals.set_path_extension_start
          (Modals.set_path_half_width
             (Modals.set_path_point_list
                (Modals.set_datatype
                   (Modals.set_layer
                      (Modals.set_geometry_y
                         (Modals.set_geometry_x Modals.new 3) 4)
                      (Some 1))
                   (Some 2))
                (Some [(0, 0); (10, 0)]))
             (Some (Some 5)))
          (Some (Flush, None)))
       (Some (HalfWidth, None)))
  = None.
Proof.
  apply (path_halfwidth_never_set
           (Path_ (Path.mk (Some 1) (Some 2) (Some 3) (Some 4) None
                           (Some [(0, 0); (10, 0)]) (Some 5)
                           (Some (Flush, None)) (Some (HalfWidth, None))))
           (Path_ (Path.mk (Some 1) (Some 2) (Some 3) (Some 4) None
                           (Some [(0, 0); (10, 0)]) (Some 5)
                           (Some (Flush, None)) (Some (HalfWidth, None))))
           Modals.new _ eq_refl).
  left. vm_compute. reflexivity.
Defined.
